(** * AMD-GPU-Debugger: packet encoder, buffer objects and trap registers

    A shallow embedding of [src/util.h], [src/bo.h], [src/bo.c],
    [src/pm4.h], [src/pm4.c], [src/regs.h] and [src/regs.c], followed by
    the properties of the specification that concern them; then of
    [src/amdgpu_device.c] and of the [main] of [src/debugger_main.c],
    with further properties of the whole.

    Conventions.
    - [uint32_t], [uint64_t] and [size_t] values are integers of [Z]; every
      place where the C arithmetic can leave the type's range has its
      wrap-around written out ([wrap32], [wrap64]).
    - Pointers and opaque libdrm handles are addresses of [Z]; [NULL] is 0.
    - [HDB_ASSERT] aborts the process: a function that contains one returns
      an [outcome], and the message of the failed assertion is kept.
    - Calls that leave the process (libdrm, [ioctl], [lseek], [read],
      [write], [realloc]) take their results from an explicit environment
      and, where the order of calls matters, are recorded in a trace.
      What goes to [stdout] and [stderr] is left out. *)

From Stdlib Require Import ZArith Lia Bool String List DecimalString.
From stdpp Require Import base option list.

Local Open Scope string_scope.
Local Open Scope list_scope.
Local Open Scope Z_scope.

(* ===================================================================== *)
(** * util.h *)
(* ===================================================================== *)

Module Util.

(** Fixed-width unsigned arithmetic. *)
Definition wrap32 (x : Z) : Z := x mod 2 ^ 32.
Definition wrap64 (x : Z) : Z := x mod 2 ^ 64.

(** [(off_t)x] for a [uint64_t] x: reinterpretation as a signed 64-bit
    integer. *)
Definition to_int64 (x : Z) : Z :=
  let u := wrap64 x in if u <? 2 ^ 63 then u else u - 2 ^ 64.

(** Result of a function that may hit [HDB_ASSERT].  [Undefined] marks
    the executions on which the C program has no defined behaviour (a
    store outside the allocated block). *)
Inductive outcome (A : Type) : Type :=
| Done (a : A)
| Abort (msg : string)
| Undefined.
Arguments Done {A} a.
Arguments Abort {A} msg.
Arguments Undefined {A}.

Definition bind {A B} (m : outcome A) (f : A -> outcome B) : outcome B :=
  match m with
  | Done a => f a
  | Abort msg => Abort msg
  | Undefined => Undefined
  end.

(** [HDB_ASSERT(cond, msg)]: continue when [cond] holds, abort otherwise. *)
Definition HDB_ASSERT (cond : bool) (msg : string) : outcome unit :=
  if cond then Done tt else Abort msg.

(** [#define PAGE_SIZE 4096] *)
Definition PAGE_SIZE : Z := 4096.

(** [#define ALIGN_UP(value, alignment)
      (((value) + (alignment) - 1) & ~((alignment) - 1))]
    at type [size_t] (64 bits): the sum wraps, and the [int] mask
    [~(alignment - 1)] is sign-extended to 64 bits before the [&]. *)
Definition ALIGN_UP (value alignment : Z) : Z :=
  Z.land (wrap64 (value + alignment - 1)) (wrap64 (Z.lnot (alignment - 1))).

End Util.
Export Util.

#[export] Instance outcome_bind : MBind outcome :=
  fun A B f m => Util.bind m f.
#[export] Instance outcome_ret : MRet outcome := @Done.

(* ===================================================================== *)
(** * bo.h: the packet array *)
(* ===================================================================== *)

Module Packets.

(** [pkt3_packets_t].  [data] is the heap block the pointer designates,
    one list element per dword of the block ([nil] for [NULL]); only the
    first [count] elements have been written. *)
Record pkt3_packets_t : Type := {
  data : list Z;
  count : Z;
  capacity : Z
}.

(** [pkt3_init] *)
Definition pkt3_init : pkt3_packets_t :=
  {| data := []; count := 0; capacity := 0 |}.

(** [realloc(ptr, bytes)] when it succeeds: a block of [bytes] bytes that
    starts with the old contents; the dwords beyond them are
    indeterminate and read as [0] here. *)
Definition realloc_block (old : list Z) (bytes : Z) : list Z :=
  resize (Z.to_nat (bytes / 4)) 0 old.

Definition realloc_msg : string := "realloc failed for packet array".

(** [da_append].  [realloc_ok bytes] tells whether the allocator grants a
    request of [bytes] bytes.  The final store is outside the block, and
    the behaviour undefined, when [count] is not below the block's
    length. *)
Definition da_append (realloc_ok : Z -> bool)
    (packets : pkt3_packets_t) (value : Z) : outcome pkt3_packets_t :=
  grown ←
    (if capacity packets <=? count packets then
       let new_cap :=
         if capacity packets =? 0 then 64
         else wrap64 (capacity packets * 2) in
       let bytes := wrap64 (new_cap * 4) in
       _ ← HDB_ASSERT (realloc_ok bytes) realloc_msg;
       Done {| data := realloc_block (data packets) bytes;
               count := count packets;
               capacity := new_cap |}
     else Done packets);
  if (0 <=? count grown) && (count grown <? Z.of_nat (length (data grown)))
  then Done {| data := <[Z.to_nat (count grown) := value]> (data grown);
               count := wrap64 (count grown + 1);
               capacity := capacity grown |}
  else Undefined.

(** [pkt3_size] *)
Definition pkt3_size (packets : pkt3_packets_t) : Z :=
  wrap64 (count packets * 4).

(** The packet stream proper: the dwords appended so far. *)
Definition words (packets : pkt3_packets_t) : list Z :=
  take (Z.to_nat (count packets)) (data packets).

(** A packet array as [pkt3_init] and [da_append] produce it, with room
    in [size_t] arithmetic for [n] more dwords. *)
Definition fits (n : Z) (packets : pkt3_packets_t) : Prop :=
  Z.of_nat (length (data packets)) = capacity packets /\
  0 <= count packets <= capacity packets /\
  count packets + n <= 2 ^ 60.

End Packets.
Export Packets.

(* ===================================================================== *)
(** * pm4.h, pm4.c: type-3 packets *)
(* ===================================================================== *)

Module Pm4.

(** [#define PKT3(op, count, predicate)
      ((3 << 30) | (((op) & 0xFF) << 8) | ((count) & 0x3FFF)
       | ((predicate) << 31))],
    converted to [uint32_t] where the builders hand it to [da_append]. *)
Definition PKT3 (op count predicate : Z) : Z :=
  wrap32 (Z.lor (Z.lor (Z.lor (Z.shiftl 3 30)
                              (Z.shiftl (Z.land op 0xFF) 8))
                       (Z.land count 0x3FFF))
                (Z.shiftl predicate 31)).

(** [#define PKT3_SHADER_TYPE_S(shader_type) (((shader_type) & 0x1) << 1)] *)
Definition PKT3_SHADER_TYPE_S (shader_type : Z) : Z :=
  Z.shiftl (Z.land shader_type 0x1) 1.

Definition PKT3_DISPATCH_DIRECT : Z := 0x15.
Definition PKT3_ACQUIRE_MEM : Z := 0x58.
Definition PKT3_SET_SH_REG : Z := 0x76.
Definition PKT3_RELEASE_MEM : Z := 0x49.

Definition SI_SH_REG_OFFSET : Z := 0x2C00.
Definition SI_SH_REG_END : Z := 0x3000.

Definition R_00B848_COMPUTE_PGM_RSRC1 : Z := 0xB848.
Definition R_00B84C_COMPUTE_PGM_RSRC2 : Z := 0xB84C.
Definition R_00B8A0_COMPUTE_PGM_RSRC3 : Z := 0xB8A0.
Definition R_00B830_COMPUTE_PGM_LO : Z := 0xB830.
Definition R_00B834_COMPUTE_PGM_HI : Z := 0xB834.
Definition R_00B81C_COMPUTE_NUM_THREAD_X : Z := 0xB81C.
Definition R_00B820_COMPUTE_NUM_THREAD_Y : Z := 0xB820.
Definition R_00B824_COMPUTE_NUM_THREAD_Z : Z := 0xB824.

Definition COMPUTE_DISPATCH_INITIATOR_COMPUTE_SHADER_EN : Z := Z.shiftl 1 0.
Definition COMPUTE_DISPATCH_INITIATOR_FORCE_START_AT_000 : Z := Z.shiftl 1 1.

Definition sh_reg_range_msg : string :=
  "register offset outside SH register range".
Definition code_align_msg : string :=
  "shader code address must be 256-byte aligned".

Section Builders.
Variable realloc_ok : Z -> bool.

Definition pkt3_set_sh_reg (packets : pkt3_packets_t) (reg value : Z)
    : outcome pkt3_packets_t :=
  _ ← HDB_ASSERT ((SI_SH_REG_OFFSET <=? reg) && (reg <? SI_SH_REG_END))
        sh_reg_range_msg;
  p ← da_append realloc_ok packets (PKT3 PKT3_SET_SH_REG 1 0);
  p ← da_append realloc_ok p (wrap32 (reg - SI_SH_REG_OFFSET) / 4);
  da_append realloc_ok p value.

Definition pkt3_dispatch_direct (packets : pkt3_packets_t)
    (dim_x dim_y dim_z dispatch_initiator : Z) : outcome pkt3_packets_t :=
  p ← da_append realloc_ok packets
        (Z.lor (PKT3 PKT3_DISPATCH_DIRECT 3 0) (PKT3_SHADER_TYPE_S 1));
  p ← da_append realloc_ok p dim_x;
  p ← da_append realloc_ok p dim_y;
  p ← da_append realloc_ok p dim_z;
  da_append realloc_ok p dispatch_initiator.

Definition pkt3_acquire_mem (packets : pkt3_packets_t)
    : outcome pkt3_packets_t :=
  p ← da_append realloc_ok packets (PKT3 PKT3_ACQUIRE_MEM 5 0);
  let cp_coher_cntl :=
    Z.lor (Z.lor (Z.lor (Z.shiftl 1 0) (Z.shiftl 1 1)) (Z.shiftl 1 3))
          (Z.shiftl 1 4) in
  p ← da_append realloc_ok p cp_coher_cntl;
  p ← da_append realloc_ok p 0xFFFFFFFF;
  p ← da_append realloc_ok p 0xFF;
  p ← da_append realloc_ok p 0;
  p ← da_append realloc_ok p 0;
  da_append realloc_ok p 0.

Definition pkt3_release_mem (packets : pkt3_packets_t)
    (va fence_value : Z) : outcome pkt3_packets_t :=
  p ← da_append realloc_ok packets (PKT3 PKT3_RELEASE_MEM 6 0);
  let event_cntl := Z.lor (Z.shiftl 0x5 0) (Z.shiftl 0x2E 8) in
  p ← da_append realloc_ok p event_cntl;
  let data_sel := 1 in
  p ← da_append realloc_ok p data_sel;
  p ← da_append realloc_ok p (wrap32 (Z.land va 0xFFFFFFFF));
  p ← da_append realloc_ok p (wrap32 (Z.shiftr va 32));
  p ← da_append realloc_ok p fence_value;
  p ← da_append realloc_ok p 0;
  da_append realloc_ok p 0.

Definition build_compute_dispatch (packets : pkt3_packets_t)
    (code_va rsrc1 rsrc2 rsrc3
     threads_x threads_y threads_z
     groups_x groups_y groups_z : Z) : outcome pkt3_packets_t :=
  _ ← HDB_ASSERT (Z.land code_va 0xFF =? 0) code_align_msg;
  p ← pkt3_acquire_mem packets;
  let pgm_lo := wrap32 (Z.shiftr code_va 8) in
  let pgm_hi := wrap32 (Z.shiftr code_va 40) in
  p ← pkt3_set_sh_reg p R_00B830_COMPUTE_PGM_LO pgm_lo;
  p ← pkt3_set_sh_reg p R_00B834_COMPUTE_PGM_HI pgm_hi;
  p ← pkt3_set_sh_reg p R_00B848_COMPUTE_PGM_RSRC1 rsrc1;
  p ← pkt3_set_sh_reg p R_00B84C_COMPUTE_PGM_RSRC2 rsrc2;
  p ← pkt3_set_sh_reg p R_00B8A0_COMPUTE_PGM_RSRC3 rsrc3;
  p ← pkt3_set_sh_reg p R_00B81C_COMPUTE_NUM_THREAD_X threads_x;
  p ← pkt3_set_sh_reg p R_00B820_COMPUTE_NUM_THREAD_Y threads_y;
  p ← pkt3_set_sh_reg p R_00B824_COMPUTE_NUM_THREAD_Z threads_z;
  let dispatch_initiator :=
    Z.lor COMPUTE_DISPATCH_INITIATOR_COMPUTE_SHADER_EN
          COMPUTE_DISPATCH_INITIATOR_FORCE_START_AT_000 in
  pkt3_dispatch_direct p groups_x groups_y groups_z dispatch_initiator.

End Builders.

(** Not in the source, which has no decoder: the reading of a header the
    specification names, the field made of bits [lo] to [hi], both
    included. *)
Definition header_bits (lo hi : Z) (header : Z) : Z :=
  Z.land (Z.shiftr header lo) (Z.ones (hi - lo + 1)).

End Pm4.
Export Pm4.

(* ===================================================================== *)
(** * Calls that leave the process *)
(* ===================================================================== *)

Module Sys.

(** [struct amdgpu_bo_alloc_request] (libdrm). *)
Record amdgpu_bo_alloc_request : Type := {
  alloc_size : Z;
  phys_alignment : Z;
  preferred_heap : Z;
  flags : Z
}.

(** [struct drm_amdgpu_gem_va] (kernel interface), the fields that
    [bo.c] fills; its [flags] is [map_flags] here, the name being taken
    by the request above. *)
Record drm_amdgpu_gem_va : Type := {
  handle : Z;
  operation : Z;
  map_flags : Z;
  va_address : Z;
  offset_in_bo : Z;
  map_size : Z
}.

(** [regs2_ioc_data_t] of [regs.h], with the two nested structures
    flattened. *)
Record regs2_ioc_data_t : Type := {
  use_srbm : Z; use_grbm : Z; pg_lock : Z;
  grbm_se : Z; grbm_sh : Z; grbm_instance : Z;
  srbm_me : Z; srbm_pipe : Z; srbm_queue : Z; srbm_vmid : Z;
  xcc_id : Z
}.

Definition set_srbm_vmid (ioc : regs2_ioc_data_t) (v : Z) : regs2_ioc_data_t :=
  {| use_srbm := use_srbm ioc; use_grbm := use_grbm ioc;
     pg_lock := pg_lock ioc;
     grbm_se := grbm_se ioc; grbm_sh := grbm_sh ioc;
     grbm_instance := grbm_instance ioc;
     srbm_me := srbm_me ioc; srbm_pipe := srbm_pipe ioc;
     srbm_queue := srbm_queue ioc; srbm_vmid := v;
     xcc_id := xcc_id ioc |}.

(** One call, with its arguments and what it returned. *)
Inductive event : Type :=
| Ev_amdgpu_bo_alloc (dev_handle : Z) (req : amdgpu_bo_alloc_request)
                     (ret buf_handle : Z)
| Ev_amdgpu_bo_export (bo type ret shared_handle : Z)
| Ev_amdgpu_va_range_alloc (dev_handle range_type size align base : Z)
                           (ret va_base va_handle : Z)
| Ev_gem_va_ioctl (fd : Z) (va : drm_amdgpu_gem_va) (ret errno : Z)
| Ev_amdgpu_bo_cpu_map (bo ret cpu : Z)
| Ev_memset (ptr c n : Z)
| Ev_amdgpu_bo_cpu_unmap (bo : Z)
| Ev_amdgpu_va_range_free (va_handle : Z)
| Ev_amdgpu_bo_free (bo : Z)
| Ev_regs2_ioctl (fd : Z) (ioc : regs2_ioc_data_t) (ret errno : Z)
| Ev_lseek (fd off pos : Z)
| Ev_write (fd value n ret : Z)
| Ev_read (fd n ret value : Z).

(** What the system answers to each call, given all the calls made so
    far.  Nothing is assumed of it. *)
Record kernel : Type := {
  k_amdgpu_bo_alloc : list event -> Z -> amdgpu_bo_alloc_request -> Z * Z;
  k_amdgpu_bo_export : list event -> Z -> Z -> Z * Z;
  k_amdgpu_va_range_alloc :
    list event -> Z -> Z -> Z -> Z -> Z -> Z * Z * Z;
  k_gem_va_ioctl : list event -> Z -> drm_amdgpu_gem_va -> Z * Z;
  k_amdgpu_bo_cpu_map : list event -> Z -> Z * Z;
  k_regs2_ioctl : list event -> Z -> regs2_ioc_data_t -> Z * Z;
  k_lseek : list event -> Z -> Z -> Z;
  k_write : list event -> Z -> Z -> Z -> Z;
  k_read : list event -> Z -> Z -> Z * Z
}.

(** A computation that makes such calls: it extends the trace, and ends
    normally or in an abort. *)
Definition io (A : Type) : Type := list event -> outcome A * list event.

Definition io_ret {A} (a : A) : io A := fun t => (Done a, t).

Definition io_bind {A B} (m : io A) (f : A -> io B) : io B :=
  fun t =>
    match m t with
    | (Done a, t') => f a t'
    | (Abort msg, t') => (Abort msg, t')
    | (Undefined, t') => (Undefined, t')
    end.

(** [HDB_ASSERT] inside such a computation. *)
Definition io_assert (cond : bool) (msg : string) : io unit :=
  fun t => (HDB_ASSERT cond msg, t).

Section Calls.
Variable K : kernel.

Definition amdgpu_bo_alloc (dev_handle : Z) (req : amdgpu_bo_alloc_request)
    : io (Z * Z) :=
  fun t => let '(ret, h) := k_amdgpu_bo_alloc K t dev_handle req in
           (Done (ret, h), t ++ [Ev_amdgpu_bo_alloc dev_handle req ret h]).

Definition amdgpu_bo_export (bo type : Z) : io (Z * Z) :=
  fun t => let '(ret, h) := k_amdgpu_bo_export K t bo type in
           (Done (ret, h), t ++ [Ev_amdgpu_bo_export bo type ret h]).

Definition amdgpu_va_range_alloc (dev_handle range_type size align base
                                  : Z) (flags : Z) : io (Z * Z * Z) :=
  fun t =>
    let '(ret, va, vh) :=
      k_amdgpu_va_range_alloc K t dev_handle range_type size align base in
    (Done (ret, va, vh),
     t ++ [Ev_amdgpu_va_range_alloc dev_handle range_type size align base
                                    ret va vh]).

(** [ioctl(fd, DRM_IOCTL_AMDGPU_GEM_VA, &va)]: the value returned and
    [errno]. *)
Definition gem_va_ioctl (fd : Z) (va : drm_amdgpu_gem_va) : io (Z * Z) :=
  fun t => let '(ret, errno) := k_gem_va_ioctl K t fd va in
           (Done (ret, errno), t ++ [Ev_gem_va_ioctl fd va ret errno]).

Definition amdgpu_bo_cpu_map (bo : Z) : io (Z * Z) :=
  fun t => let '(ret, cpu) := k_amdgpu_bo_cpu_map K t bo in
           (Done (ret, cpu), t ++ [Ev_amdgpu_bo_cpu_map bo ret cpu]).

(** The calls whose result the source never looks at are recorded
    without one. *)
Definition memset (ptr c n : Z) : io unit :=
  fun t => (Done tt, t ++ [Ev_memset ptr c n]).

Definition amdgpu_bo_cpu_unmap (bo : Z) : io unit :=
  fun t => (Done tt, t ++ [Ev_amdgpu_bo_cpu_unmap bo]).

Definition amdgpu_va_range_free (va_handle : Z) : io unit :=
  fun t => (Done tt, t ++ [Ev_amdgpu_va_range_free va_handle]).

Definition amdgpu_bo_free (bo : Z) : io unit :=
  fun t => (Done tt, t ++ [Ev_amdgpu_bo_free bo]).

(** [ioctl(fd, AMDGPU_DEBUGFS_REGS2_IOC_SET_STATE_V2, &ioc_data)] *)
Definition regs2_ioctl (fd : Z) (ioc : regs2_ioc_data_t) : io (Z * Z) :=
  fun t => let '(ret, errno) := k_regs2_ioctl K t fd ioc in
           (Done (ret, errno), t ++ [Ev_regs2_ioctl fd ioc ret errno]).

Definition lseek (fd off : Z) : io Z :=
  fun t => let pos := k_lseek K t fd off in
           (Done pos, t ++ [Ev_lseek fd off pos]).

(** [write(fd, &value, n)] *)
Definition write (fd value n : Z) : io Z :=
  fun t => let ret := k_write K t fd value n in
           (Done ret, t ++ [Ev_write fd value n ret]).

(** [read(fd, &value, n)]: the value returned and the dword read. *)
Definition read (fd n : Z) : io (Z * Z) :=
  fun t => let '(ret, v) := k_read K t fd n in
           (Done (ret, v), t ++ [Ev_read fd n ret v]).

End Calls.

End Sys.
Export Sys.

#[export] Instance io_mbind : MBind io := fun A B f m => io_bind m f.
#[export] Instance io_mret : MRet io := @io_ret.

(* ===================================================================== *)
(** * bo.h, bo.c: buffer objects *)
(* ===================================================================== *)

Module Bo.

Definition NULL : Z := 0.

(** The constants of [<amdgpu_drm.h>] and [<amdgpu.h>] that [bo.c]
    names.  The headers belong to the system, not to the repository,
    so the code is modelled for any value of them. *)
Class drm_uapi : Type := {
  AMDGPU_GEM_DOMAIN_GTT : Z;
  AMDGPU_GEM_DOMAIN_GDS : Z;
  AMDGPU_GEM_DOMAIN_GWS : Z;
  AMDGPU_GEM_DOMAIN_OA : Z;
  AMDGPU_GEM_CREATE_CPU_ACCESS_REQUIRED : Z;
  AMDGPU_GEM_CREATE_NO_CPU_ACCESS : Z;
  AMDGPU_GEM_CREATE_CPU_GTT_USWC : Z;
  AMDGPU_GEM_CREATE_VRAM_CLEARED : Z;
  AMDGPU_GEM_CREATE_VM_ALWAYS_VALID : Z;
  AMDGPU_VM_PAGE_READABLE : Z;
  AMDGPU_VM_PAGE_WRITEABLE : Z;
  AMDGPU_VM_PAGE_EXECUTABLE : Z;
  AMDGPU_VM_MTYPE_UC : Z;
  AMDGPU_VM_PAGE_NOALLOC : Z;
  AMDGPU_VA_OP_MAP : Z;
  AMDGPU_VA_OP_UNMAP : Z;
  amdgpu_bo_handle_type_kms : Z;
  amdgpu_gpu_va_range_general : Z
}.

(** [amdgpu_bo_t] *)
Record amdgpu_bo_t : Type := {
  bo_handle : Z;
  va_handle : Z;
  va_addr : Z;
  host_addr : Z;
  size : Z;
  kms_handle : Z
}.

(** [amdgpu_t] *)
Record amdgpu_t : Type := {
  drm_fd : Z;
  dev_handle : Z;
  ctx_handle : Z;
  regs2_fd : Z;
  gc_regs_base_addr : list Z;
  device_id : Z;
  chip_rev : Z;
  chip_external_rev : Z
}.

(** The value [drm_ioctl_write_read] and [hdb_ioctl] make of what
    [ioctl] returned: [-errno] when it is negative, 0 otherwise. *)
Definition ioctl_status (ret errno : Z) : Z :=
  if ret <? 0 then - errno else 0.

Section WithSystem.
Context {U : drm_uapi}.
Variable K : kernel.

(** [drm_ioctl_write_read(fd, DRM_IOCTL_AMDGPU_GEM_VA, &va, sizeof(va))] *)
Definition drm_ioctl_write_read (fd : Z) (va : drm_amdgpu_gem_va) : io Z :=
  '(ret, errno) ← gem_va_ioctl K fd va;
  mret (ioctl_status ret errno).

(** [bo_alloc].  The last argument is the structure [bo] points to;
    the result pairs the value returned with that structure as the
    call leaves it. *)
Definition bo_alloc (dev : amdgpu_t) (size domain : Z) (uncached : bool)
    (bo : amdgpu_bo_t) : io (Z * amdgpu_bo_t) :=
  let '(actual_size, alignment, flags) :=
    if negb (domain =? AMDGPU_GEM_DOMAIN_GWS) &&
       negb (domain =? AMDGPU_GEM_DOMAIN_GDS) &&
       negb (domain =? AMDGPU_GEM_DOMAIN_OA)
    then
      let flags :=
        Z.lor (Z.lor AMDGPU_GEM_CREATE_CPU_ACCESS_REQUIRED
                     AMDGPU_GEM_CREATE_VRAM_CLEARED)
              AMDGPU_GEM_CREATE_VM_ALWAYS_VALID in
      (ALIGN_UP size PAGE_SIZE, PAGE_SIZE,
       if uncached && (domain =? AMDGPU_GEM_DOMAIN_GTT)
       then Z.lor flags AMDGPU_GEM_CREATE_CPU_GTT_USWC
       else flags)
    else (size, 1, AMDGPU_GEM_CREATE_NO_CPU_ACCESS) in
  let req := {| alloc_size := actual_size;
                phys_alignment := alignment;
                preferred_heap := domain;
                Sys.flags := flags |} in
  '(ret, bo_handle) ← amdgpu_bo_alloc K (dev_handle dev) req;
  if negb (ret =? 0) then mret (ret, bo) else
  '(ret, kms_handle) ←
    amdgpu_bo_export K bo_handle amdgpu_bo_handle_type_kms;
  if negb (ret =? 0) then
    _ ← amdgpu_bo_free bo_handle; mret (ret, bo)
  else
  '(ret, va_addr, va_handle) ←
    amdgpu_va_range_alloc K (dev_handle dev) amdgpu_gpu_va_range_general
                          actual_size PAGE_SIZE 0 0;
  if negb (ret =? 0) then
    _ ← amdgpu_bo_free bo_handle; mret (ret, bo)
  else
  let map_flags :=
    Z.lor (Z.lor AMDGPU_VM_PAGE_EXECUTABLE AMDGPU_VM_PAGE_READABLE)
          AMDGPU_VM_PAGE_WRITEABLE in
  let map_flags :=
    if uncached
    then Z.lor map_flags (Z.lor AMDGPU_VM_MTYPE_UC AMDGPU_VM_PAGE_NOALLOC)
    else map_flags in
  let va := {| handle := kms_handle;
               operation := AMDGPU_VA_OP_MAP;
               Sys.map_flags := map_flags;
               va_address := va_addr;
               offset_in_bo := 0;
               map_size := actual_size |} in
  ret ← drm_ioctl_write_read (drm_fd dev) va;
  if negb (ret =? 0) then
    _ ← amdgpu_va_range_free va_handle;
    _ ← amdgpu_bo_free bo_handle;
    mret (ret, bo)
  else
  let fill host_addr : io (Z * amdgpu_bo_t) :=
    mret (0, {| bo_handle := bo_handle;
                va_handle := va_handle;
                va_addr := va_addr;
                host_addr := host_addr;
                size := actual_size;
                kms_handle := kms_handle |}) in
  if negb (Z.land flags AMDGPU_GEM_CREATE_CPU_ACCESS_REQUIRED =? 0) then
    '(ret, host_addr) ← amdgpu_bo_cpu_map K bo_handle;
    if negb (ret =? 0) then
      let va := {| handle := handle va;
                   operation := AMDGPU_VA_OP_UNMAP;
                   Sys.map_flags := Sys.map_flags va;
                   va_address := va_address va;
                   offset_in_bo := offset_in_bo va;
                   map_size := map_size va |} in
      _ ← drm_ioctl_write_read (drm_fd dev) va;
      _ ← amdgpu_va_range_free va_handle;
      _ ← amdgpu_bo_free bo_handle;
      mret (ret, bo)
    else
      _ ← memset host_addr 0 actual_size;
      fill host_addr
  else fill NULL.

(** [bo_free].  The result is the structure [bo] points to, as the
    call leaves it. *)
Definition bo_free (dev : amdgpu_t) (bo : amdgpu_bo_t) : io amdgpu_bo_t :=
  if bo_handle bo =? NULL then mret bo else
  bo ← (if negb (host_addr bo =? NULL) then
          _ ← amdgpu_bo_cpu_unmap (bo_handle bo);
          mret {| bo_handle := bo_handle bo; va_handle := va_handle bo;
                  va_addr := va_addr bo; host_addr := NULL;
                  size := size bo; kms_handle := kms_handle bo |}
        else mret bo);
  bo ← (if negb (va_handle bo =? NULL) then
          let va := {| handle := kms_handle bo;
                       operation := AMDGPU_VA_OP_UNMAP;
                       Sys.map_flags := 0;
                       va_address := va_addr bo;
                       offset_in_bo := 0;
                       map_size := size bo |} in
          _ ← drm_ioctl_write_read (drm_fd dev) va;
          _ ← amdgpu_va_range_free (va_handle bo);
          mret {| bo_handle := bo_handle bo; va_handle := NULL;
                  va_addr := va_addr bo; host_addr := host_addr bo;
                  size := size bo; kms_handle := kms_handle bo |}
        else mret bo);
  _ ← amdgpu_bo_free (bo_handle bo);
  mret {| bo_handle := NULL; va_handle := va_handle bo;
          va_addr := va_addr bo; host_addr := host_addr bo;
          size := size bo; kms_handle := kms_handle bo |}.

End WithSystem.

(** ** Bookkeeping over a trace

    What follows is not in the source: it reads a trace of calls, to
    state which resources a run has acquired and which it has given
    back. *)

(** What a call can acquire or give back. *)
Inductive resource : Type :=
| R_bo (bo : Z)
| R_va_range (va_handle : Z)
| R_va_mapping (kms va : Z)
| R_cpu_mapping (bo : Z).

#[export] Instance resource_eq_dec : EqDecision resource.
Proof. solve_decision. Defined.

Section Accounting.
Context {U : drm_uapi}.

(** The code with which a stage of [bo_alloc] ended, for the calls
    that are stages. *)
Definition stage_code (e : event) : option Z :=
  match e with
  | Ev_amdgpu_bo_alloc _ _ ret _ => Some ret
  | Ev_amdgpu_bo_export _ _ ret _ => Some ret
  | Ev_amdgpu_va_range_alloc _ _ _ _ _ ret _ _ => Some ret
  | Ev_gem_va_ioctl _ va ret errno =>
      if operation va =? AMDGPU_VA_OP_MAP
      then Some (ioctl_status ret errno) else None
  | Ev_amdgpu_bo_cpu_map _ ret _ => Some ret
  | _ => None
  end.

(** The resource a successful stage leaves in the caller's hands. *)
Definition acquired (e : event) : option resource :=
  match e with
  | Ev_amdgpu_bo_alloc _ _ ret h =>
      if ret =? 0 then Some (R_bo h) else None
  | Ev_amdgpu_va_range_alloc _ _ _ _ _ ret _ vh =>
      if ret =? 0 then Some (R_va_range vh) else None
  | Ev_gem_va_ioctl _ va ret errno =>
      if (operation va =? AMDGPU_VA_OP_MAP) &&
         (ioctl_status ret errno =? 0)
      then Some (R_va_mapping (handle va) (va_address va)) else None
  | Ev_amdgpu_bo_cpu_map bo ret _ =>
      if ret =? 0 then Some (R_cpu_mapping bo) else None
  | _ => None
  end.

(** The resource a teardown call is issued for.  [bo.c] looks at the
    result of none of them. *)
Definition released (e : event) : option resource :=
  match e with
  | Ev_amdgpu_bo_free h => Some (R_bo h)
  | Ev_amdgpu_va_range_free vh => Some (R_va_range vh)
  | Ev_gem_va_ioctl _ va _ _ =>
      if operation va =? AMDGPU_VA_OP_UNMAP
      then Some (R_va_mapping (handle va) (va_address va)) else None
  | Ev_amdgpu_bo_cpu_unmap bo => Some (R_cpu_mapping bo)
  | _ => None
  end.

Fixpoint remove_first (r : resource) (l : list resource) : list resource :=
  match l with
  | [] => []
  | x :: l' => if decide (x = r) then l' else x :: remove_first r l'
  end.

(** The resources held after the calls of a trace, the most recent
    first, starting from those of [held]. *)
Fixpoint outstanding_from (held : list resource) (t : list event)
    : list resource :=
  match t with
  | [] => held
  | e :: t' =>
      let held :=
        match acquired e with Some r => r :: held | None => held end in
      let held :=
        match released e with
        | Some r => remove_first r held
        | None => held
        end in
      outstanding_from held t'
  end.

Definition outstanding (t : list event) : list resource :=
  outstanding_from [] t.

Definition is_teardown (e : event) : Prop := is_Some (released e).

(** The three domains [bo_alloc] sets apart. *)
Definition special_domain (domain : Z) : Prop :=
  domain = AMDGPU_GEM_DOMAIN_GWS \/ domain = AMDGPU_GEM_DOMAIN_GDS \/
  domain = AMDGPU_GEM_DOMAIN_OA.

End Accounting.

(** Rounding up to a multiple, on unbounded integers: what the
    specification compares [ALIGN_UP] with. *)
Definition round_up (s a : Z) : Z := (s + a - 1) / a * a.

(** The values the constants have in the Linux headers, to run the
    model on examples. *)
Definition linux_uapi : drm_uapi := {|
  AMDGPU_GEM_DOMAIN_GTT := 0x2;
  AMDGPU_GEM_DOMAIN_GDS := 0x8;
  AMDGPU_GEM_DOMAIN_GWS := 0x10;
  AMDGPU_GEM_DOMAIN_OA := 0x20;
  AMDGPU_GEM_CREATE_CPU_ACCESS_REQUIRED := Z.shiftl 1 0;
  AMDGPU_GEM_CREATE_NO_CPU_ACCESS := Z.shiftl 1 1;
  AMDGPU_GEM_CREATE_CPU_GTT_USWC := Z.shiftl 1 2;
  AMDGPU_GEM_CREATE_VRAM_CLEARED := Z.shiftl 1 3;
  AMDGPU_GEM_CREATE_VM_ALWAYS_VALID := Z.shiftl 1 6;
  AMDGPU_VM_PAGE_READABLE := Z.shiftl 1 1;
  AMDGPU_VM_PAGE_WRITEABLE := Z.shiftl 1 2;
  AMDGPU_VM_PAGE_EXECUTABLE := Z.shiftl 1 3;
  AMDGPU_VM_MTYPE_UC := Z.shiftl 4 5;
  AMDGPU_VM_PAGE_NOALLOC := Z.shiftl 1 9;
  AMDGPU_VA_OP_MAP := 1;
  AMDGPU_VA_OP_UNMAP := 2;
  amdgpu_bo_handle_type_kms := 1;
  amdgpu_gpu_va_range_general := 0
|}.

End Bo.
Export Bo.

(* ===================================================================== *)
(** * regs.h, regs.c: privileged registers and the trap handler *)
(* ===================================================================== *)

Module Regs.

(** [reg_32_op_t] *)
Inductive reg_32_op_t : Type := REG_OP_READ | REG_OP_WRITE.

(** [reg_type_t] *)
Inductive reg_type_t : Type := REG_MMIO | REG_INDIRECT.

(** [reg_info_t] *)
Record reg_info_t : Type := { soc_index : Z; type : reg_type_t }.

(** [gc_11_reg_t]; [REG_MAX] counts the registers and is none of them. *)
Inductive gc_11_reg_t : Type :=
| REG_SQ_SHADER_TBA_LO
| REG_SQ_SHADER_TBA_HI
| REG_SQ_SHADER_TMA_LO
| REG_SQ_SHADER_TMA_HI
| REG_SQ_CMD
| REG_MAX.

(** The integer value of an enumerator. *)
Definition reg_value (reg : gc_11_reg_t) : Z :=
  match reg with
  | REG_SQ_SHADER_TBA_LO => 0
  | REG_SQ_SHADER_TBA_HI => 1
  | REG_SQ_SHADER_TMA_LO => 2
  | REG_SQ_SHADER_TMA_HI => 3
  | REG_SQ_CMD => 4
  | REG_MAX => 5
  end.

(** [gc_11_regs_offsets] *)
Definition gc_11_regs_offsets : list Z :=
  [0x2E00; 0x2E01; 0x2E02; 0x2E03; 0x2D00].

(** [gc_11_regs_infos] *)
Definition gc_11_regs_infos : list reg_info_t :=
  [ {| soc_index := 0; type := REG_MMIO |};
    {| soc_index := 0; type := REG_MMIO |};
    {| soc_index := 0; type := REG_MMIO |};
    {| soc_index := 0; type := REG_MMIO |};
    {| soc_index := 0; type := REG_MMIO |} ].

Definition tba_align_msg : string := "TBA must be 256-byte aligned".

(** [for_range(var, start, end)]: the body run for [start], [start+1],
    ... while the variable is below [end]; no body of [regs.c] assigns
    the variable. *)
Fixpoint for_steps (n : nat) (var : Z) (body : Z -> io unit) : io unit :=
  match n with
  | O => mret tt
  | S n' => _ ← body var; for_steps n' (wrap64 (var + 1)) body
  end.

Definition for_range (start end_ : Z) (body : Z -> io unit) : io unit :=
  for_steps (Z.to_nat (end_ - start)) start body.

Section WithSystem.
Variable K : kernel.

(** [hdb_ioctl(fd, AMDGPU_DEBUGFS_REGS2_IOC_SET_STATE_V2, &ioc_data)] *)
Definition hdb_ioctl (fd : Z) (ioc_data : regs2_ioc_data_t) : io Z :=
  '(ret, errno) ← regs2_ioctl K fd ioc_data;
  mret (ioctl_status ret errno).

(** [dev_op_reg32].  [value] is what the pointer designates, [None]
    for a null pointer; the result is that dword after the call. *)
Definition dev_op_reg32 (dev : amdgpu_t) (reg : gc_11_reg_t)
    (ioc_data : regs2_ioc_data_t) (op : reg_32_op_t) (value : option Z)
    : io Z :=
  _ ← io_assert (0 <=? regs2_fd dev) "regs2_fd not open";
  _ ← io_assert (reg_value reg <? reg_value REG_MAX)
        "invalid register enum";
  _ ← io_assert (match value with Some _ => true | None => false end)
        "value pointer is NULL";
  let value := default 0 value in
  let reg_info :=
    nth (Z.to_nat (reg_value reg)) gc_11_regs_infos
        {| soc_index := 0; type := REG_MMIO |} in
  let reg_offset := nth (Z.to_nat (reg_value reg)) gc_11_regs_offsets 0 in
  let base_offset :=
    nth (Z.to_nat (soc_index reg_info)) (gc_regs_base_addr dev) 0 in
  let total_offset := wrap64 (reg_offset + base_offset) in
  let total_offset :=
    match type reg_info with
    | REG_MMIO => wrap64 (total_offset * 4)
    | REG_INDIRECT => total_offset
    end in
  ret ← hdb_ioctl (regs2_fd dev) ioc_data;
  _ ← io_assert (ret =? 0) "AMDGPU_DEBUGFS_REGS2_IOC_SET_STATE_V2 failed";
  pos ← lseek K (regs2_fd dev) (to_int64 total_offset);
  _ ← io_assert (pos =? to_int64 total_offset) "lseek failed";
  '(size, value) ←
    match op with
    | REG_OP_READ => read K (regs2_fd dev) 4
    | REG_OP_WRITE =>
        size ← write K (regs2_fd dev) value 4; mret (size, value)
    end;
  _ ← io_assert (size =? 4) "register read/write failed";
  mret value.

(** [dev_setup_trap_handler].  [tba_hi.trap_en = 1] sets the top bit
    of the dword, the bit-field being the last of the 32. *)
Definition dev_setup_trap_handler (dev : amdgpu_t) (tba tma : Z)
    : io unit :=
  _ ← io_assert (Z.land tba 0xFF =? 0) tba_align_msg;
  let tma_lo := wrap32 tma in
  let tma_hi := wrap32 (Z.shiftr tma 32) in
  let tba_lo := wrap32 (Z.shiftr tba 8) in
  let tba_hi := wrap32 (Z.shiftr tba 40) in
  let tba_hi := Z.lor tba_hi (Z.shiftl 1 31) in
  let ioc_data :=
    {| use_srbm := 1; use_grbm := 0; pg_lock := 0;
       grbm_se := 0; grbm_sh := 0; grbm_instance := 0;
       srbm_me := 0; srbm_pipe := 0; srbm_queue := 0; srbm_vmid := 0;
       xcc_id := wrap32 (-1) |} in
  for_range 1 9 (fun i =>
    let ioc_data := set_srbm_vmid ioc_data (wrap32 i) in
    _ ← dev_op_reg32 dev REG_SQ_SHADER_TBA_LO ioc_data REG_OP_WRITE
          (Some tba_lo);
    _ ← dev_op_reg32 dev REG_SQ_SHADER_TBA_HI ioc_data REG_OP_WRITE
          (Some tba_hi);
    _ ← dev_op_reg32 dev REG_SQ_SHADER_TMA_LO ioc_data REG_OP_WRITE
          (Some tma_lo);
    _ ← dev_op_reg32 dev REG_SQ_SHADER_TMA_HI ioc_data REG_OP_WRITE
          (Some tma_hi);
    mret tt).

End WithSystem.

(** ** Reading a trace of the register file

    What follows is not in the source: it reads a trace of calls, to
    state which dwords a run has written and for which execution
    context. *)

(** One dword written to the register file: the execution context the
    last filter selected, the position of the last seek, the value. *)
Record reg_write : Type := {
  rw_vmid : Z;
  rw_offset : Z;
  rw_value : Z
}.

(** The register writes of a trace, in order.  The filter and the
    position are those of the last [ioctl] and [lseek] that succeeded
    before the write; a write counts when all 4 bytes went out. *)
Fixpoint reg_writes_from (vmid pos : option Z) (t : list event)
    : list reg_write :=
  match t with
  | [] => []
  | Ev_regs2_ioctl _ ioc ret errno :: t' =>
      reg_writes_from
        (if ioctl_status ret errno =? 0 then Some (srbm_vmid ioc) else vmid)
        pos t'
  | Ev_lseek _ off p :: t' =>
      reg_writes_from vmid (if p =? off then Some p else pos) t'
  | Ev_write _ v n ret :: t' =>
      match vmid, pos with
      | Some i, Some p =>
          if ret =? n
          then {| rw_vmid := i; rw_offset := p; rw_value := v |}
               :: reg_writes_from vmid pos t'
          else reg_writes_from vmid pos t'
      | _, _ => reg_writes_from vmid pos t'
      end
  | _ :: t' => reg_writes_from vmid pos t'
  end.

Definition reg_writes (t : list event) : list reg_write :=
  reg_writes_from None None t.

(** Every [write] call of a trace, attempted or completed, with the
    execution context of the last filter [ioctl] issued before it. *)
Fixpoint write_targets_from (vmid : option Z) (t : list event)
    : list (option Z) :=
  match t with
  | [] => []
  | Ev_regs2_ioctl _ ioc _ _ :: t' =>
      write_targets_from (Some (srbm_vmid ioc)) t'
  | Ev_write _ _ _ _ :: t' => vmid :: write_targets_from vmid t'
  | _ :: t' => write_targets_from vmid t'
  end.

Definition write_targets (t : list event) : list (option Z) :=
  write_targets_from None t.

(** A register file that answers every call the way [dev_op_reg32]
    expects. *)
Definition obliging (K : kernel) : Prop :=
  (forall t fd ioc, ioctl_status (fst (k_regs2_ioctl K t fd ioc))
                                 (snd (k_regs2_ioctl K t fd ioc)) = 0) /\
  (forall t fd off, k_lseek K t fd off = off) /\
  (forall t fd v n, k_write K t fd v n = n).

(** The four dwords [dev_setup_trap_handler] writes for one execution
    context, at the positions [dev_op_reg32] computes from the block
    base [base]. *)
Definition trap_writes_for (base tba tma vmid : Z) : list reg_write :=
  let at_ (reg_offset : Z) := to_int64 (wrap64 (wrap64 (reg_offset + base) * 4)) in
  [ {| rw_vmid := vmid; rw_offset := at_ 0x2E00;
       rw_value := wrap32 (Z.shiftr tba 8) |};
    {| rw_vmid := vmid; rw_offset := at_ 0x2E01;
       rw_value := Z.lor (wrap32 (Z.shiftr tba 40)) (Z.shiftl 1 31) |};
    {| rw_vmid := vmid; rw_offset := at_ 0x2E02;
       rw_value := wrap32 tma |};
    {| rw_vmid := vmid; rw_offset := at_ 0x2E03;
       rw_value := wrap32 (Z.shiftr tma 32) |} ].

End Regs.
Export Regs.

(* ===================================================================== *)
(** * Notions used in the statements *)
(* ===================================================================== *)

(** An allocator that grants every request. *)
Definition granting (realloc_ok : Z -> bool) : Prop :=
  forall bytes, realloc_ok bytes = true.

(** A run of [da_append] calls, one per dword of a list. *)
Fixpoint da_append_all (realloc_ok : Z -> bool) (p : pkt3_packets_t)
    (vs : list Z) : outcome pkt3_packets_t :=
  match vs with
  | [] => Done p
  | v :: vs' => p' ← da_append realloc_ok p v; da_append_all realloc_ok p' vs'
  end.

(** The dwords each builder hands to [da_append], in order. *)
Definition acquire_mem_words : list Z :=
  [PKT3 PKT3_ACQUIRE_MEM 5 0;
   Z.lor (Z.lor (Z.lor (Z.shiftl 1 0) (Z.shiftl 1 1)) (Z.shiftl 1 3))
         (Z.shiftl 1 4);
   0xFFFFFFFF; 0xFF; 0; 0; 0].

Definition release_mem_words (va fence_value : Z) : list Z :=
  [PKT3 PKT3_RELEASE_MEM 6 0; Z.lor (Z.shiftl 0x5 0) (Z.shiftl 0x2E 8); 1;
   wrap32 (Z.land va 0xFFFFFFFF); wrap32 (Z.shiftr va 32); fence_value; 0; 0].

Definition set_sh_reg_words (reg value : Z) : list Z :=
  [PKT3 PKT3_SET_SH_REG 1 0; wrap32 (reg - SI_SH_REG_OFFSET) / 4; value].

(** The filter of a [write] call selects one of the execution contexts
    1 to 8. *)
Definition user_vmid (v : option Z) : Prop :=
  exists i, v = Some i /\ 1 <= i <= 8.

(** The filter in force after the calls of a trace. *)
Fixpoint last_filter (cur : option Z) (t : list event) : option Z :=
  match t with
  | [] => cur
  | Ev_regs2_ioctl _ ioc _ _ :: t' => last_filter (Some (srbm_vmid ioc)) t'
  | _ :: t' => last_filter cur t'
  end.

(** A computation all of whose [write] calls, on every system and
    whether it ends normally or not, follow a filter for a user context. *)
Definition targets_users {A} (m : io A) : Prop :=
  forall t, exists res calls,
    m t = (res, t ++ calls) /\
    forall cur, Forall user_vmid (write_targets_from cur calls).

(** A computation that ends normally after exactly the register writes
    [ws]. *)
Definition writes_exactly {A} (m : io A) (ws : list reg_write) : Prop :=
  forall t, exists a calls,
    m t = (Done a, t ++ calls) /\
    forall vmid pos rest, exists vmid' pos',
      reg_writes_from vmid pos (calls ++ rest)
      = ws ++ reg_writes_from vmid' pos' rest.

(** The position [dev_op_reg32] seeks to for a register of block 0. *)
Definition reg_position (dev : amdgpu_t) (reg_offset : Z) : Z :=
  to_int64
    (wrap64 (wrap64 (reg_offset + nth 0%nat (gc_regs_base_addr dev) 0) * 4)).

(** ** A device and two systems to run the model on *)

Definition dev0 : amdgpu_t :=
  {| drm_fd := 3; dev_handle := 0x100; ctx_handle := 0x200; regs2_fd := 4;
     gc_regs_base_addr := replicate 16 0;
     device_id := 0x744C; chip_rev := 0; chip_external_rev := 0 |}.

Definition bo0 : amdgpu_bo_t :=
  {| bo_handle := NULL; va_handle := NULL; va_addr := 0; host_addr := NULL;
     size := 0; kms_handle := 0 |}.

(** A system on which every call succeeds. *)
Definition happy_kernel : kernel :=
  {| k_amdgpu_bo_alloc := fun _ _ _ => (0, 0x1000);
     k_amdgpu_bo_export := fun _ _ _ => (0, 7);
     k_amdgpu_va_range_alloc := fun _ _ _ _ _ _ => (0, 0x800000000, 0x2000);
     k_gem_va_ioctl := fun _ _ _ => (0, 0);
     k_amdgpu_bo_cpu_map := fun _ _ => (0, 0x7F0000000000);
     k_regs2_ioctl := fun _ _ _ => (0, 0);
     k_lseek := fun _ _ off => off;
     k_write := fun _ _ _ n => n;
     k_read := fun _ _ n => (n, 0) |}.


(* ===================================================================== *)
(** * amdgpu_device.h, amdgpu_device.c, debugger_main.c, and [bo_upload] *)
(* ===================================================================== *)

Module Host.

(** The constants of [<fcntl.h>], [<errno.h>] and [<amdgpu_drm.h>] that
    these files name; like those of [drm_uapi], they belong to the
    system. *)
Class host_consts : Type := {
  O_RDWR : Z;
  ENOMEM : Z;
  ETIMEDOUT : Z;
  AMDGPU_HW_IP_COMPUTE : Z
}.

(** [struct amdgpu_gpu_info] (libdrm), the fields read here; the prefix
    keeps them apart from the fields of [amdgpu_t]. *)
Record amdgpu_gpu_info : Type := {
  gi_asic_id : Z;
  gi_chip_rev : Z;
  gi_chip_external_rev : Z;
  gi_family_id : Z
}.

(** [struct amdgpu_cs_ib_info] (libdrm): [flags], [ib_mc_address] and
    the 32-bit [size]. *)
Record amdgpu_cs_ib_info : Type := {
  ib_flags : Z;
  ib_mc_address : Z;
  ib_size : Z
}.

(** [struct amdgpu_cs_request] (libdrm); [ibs] is the array the pointer
    designates, [fence_info] a zeroed structure. *)
Record amdgpu_cs_request : Type := {
  rq_flags : Z;
  ip_type : Z;
  ip_instance : Z;
  ring : Z;
  resources : Z;
  number_of_dependencies : Z;
  dependencies : Z;
  number_of_ibs : Z;
  ibs : list amdgpu_cs_ib_info;
  seq_no : Z;
  fence_info : Z
}.

(** [struct amdgpu_cs_fence] (libdrm). *)
Record amdgpu_cs_fence : Type := {
  f_context : Z;
  f_ip_type : Z;
  f_ip_instance : Z;
  f_ring : Z;
  f_fence : Z
}.

(** [amdgpu_submit_t] of [bo.h]. *)
Record amdgpu_submit_t : Type := {
  ib : amdgpu_bo_t;
  bo_list : Z;
  fence : amdgpu_cs_fence
}.

(** One call of these files, with its arguments and what it returned;
    [Base] is a call of [bo.c]. *)
Inductive call : Type :=
| Base (e : event)
| Call_open (path : string) (oflag : Z) (ret errno : Z)
| Call_close (fd : Z)
| Call_amdgpu_device_initialize (fd ret major minor dev_handle : Z)
| Call_amdgpu_query_gpu_info (dev_handle ret : Z) (info : amdgpu_gpu_info)
| Call_amdgpu_device_deinitialize (dev_handle : Z)
| Call_amdgpu_cs_ctx_create (dev_handle ret ctx : Z)
| Call_amdgpu_cs_ctx_free (ctx : Z)
| Call_malloc (bytes ptr : Z)
| Call_free (ptr : Z)
| Call_memcpy (dst : Z) (src : list Z) (n : Z)
| Call_amdgpu_bo_list_create (dev_handle number : Z) (handles : list Z)
                             (ret list_handle : Z)
| Call_amdgpu_bo_list_destroy (list_handle : Z)
| Call_amdgpu_cs_submit (ctx flags : Z) (req : amdgpu_cs_request)
                        (number : Z) (ret seq : Z)
| Call_amdgpu_cs_query_fence_status (fence : amdgpu_cs_fence)
                                    (timeout flags ret expired : Z).

(** What the system answers.  The answers to the calls of [bo.c] are
    those of a [kernel], which sees those calls only. *)
Record host : Type := {
  h_kernel : kernel;
  h_open : list call -> string -> Z -> Z * Z;
  h_amdgpu_device_initialize : list call -> Z -> Z * Z * Z * Z;
  h_amdgpu_query_gpu_info : list call -> Z -> Z * amdgpu_gpu_info;
  h_amdgpu_cs_ctx_create : list call -> Z -> Z * Z;
  h_malloc : list call -> Z -> Z;
  h_amdgpu_bo_list_create : list call -> Z -> Z -> list Z -> Z * Z;
  h_amdgpu_cs_submit : list call -> Z -> Z -> amdgpu_cs_request -> Z -> Z * Z;
  h_amdgpu_cs_query_fence_status :
    list call -> amdgpu_cs_fence -> Z -> Z -> Z * Z
}.

(** A computation of these files. *)
Definition run (A : Type) : Type := list call -> outcome A * list call.

Definition run_ret {A} (a : A) : run A := fun t => (Done a, t).

Definition run_bind {A B} (m : run A) (f : A -> run B) : run B :=
  fun t =>
    match m t with
    | (Done a, t') => f a t'
    | (Abort msg, t') => (Abort msg, t')
    | (Undefined, t') => (Undefined, t')
    end.

Definition run_assert (cond : bool) (msg : string) : run unit :=
  fun t => (HDB_ASSERT cond msg, t).

(** A step that makes no call. *)
Definition run_pure {A} (r : outcome A) : run A := fun t => (r, t).

(** The calls of [bo.c] in a trace. *)
Fixpoint base_events (t : list call) : list event :=
  match t with
  | [] => []
  | Base e :: t' => e :: base_events t'
  | _ :: t' => base_events t'
  end.

(** A function of [bo.c] called from these files: it runs on the calls
    of [bo.c] made so far, and those it makes join the trace. *)
Definition lift {A} (m : io A) : run A :=
  fun t =>
    let b := base_events t in
    let '(r, b') := m b in
    (r, t ++ map Base (drop (length b) b')).

End Host.
Export Host.

#[export] Instance run_mbind : MBind run := fun A B f m => run_bind m f.
#[export] Instance run_mret : MRet run := @run_ret.

Module Device.

(** [sizeof(amdgpu_bo_handle)]: a pointer, eight bytes where [size_t]
    has 64 bits. *)
Definition sizeof_amdgpu_bo_handle : Z := 8.

Definition not_mapped_msg : string := "BO is not CPU-mapped".
Definition upload_size_msg : string := "Upload size exceeds BO size".

(** [amdgpu_bo_t x = {0}] and [amdgpu_t dev = {0}]. *)
Definition bo_zero : amdgpu_bo_t :=
  {| bo_handle := 0; va_handle := 0; va_addr := 0; host_addr := 0;
     size := 0; kms_handle := 0 |}.

Definition dev_zero : amdgpu_t :=
  {| drm_fd := 0; dev_handle := 0; ctx_handle := 0; regs2_fd := 0;
     gc_regs_base_addr := replicate 16 0;
     device_id := 0; chip_rev := 0; chip_external_rev := 0 |}.

(** The path [snprintf] writes for [i]. *)
Definition regs2_path (i : Z) : string :=
  String.append "/sys/kernel/debug/dri/"
    (String.append (NilZero.string_of_int (Z.to_int i)) "/regs2").

(** The loop of [dev_submit] that copies the caller's handles behind the
    first slot of the block.  Reading [buffers] past its end, or storing
    outside the block, has no defined behaviour. *)
Fixpoint fill_handles (n : nat) (i : Z) (buffers block : list Z)
    : outcome (list Z) :=
  match n with
  | O => Done block
  | S n' =>
      match buffers !! Z.to_nat i with
      | Some b =>
          if wrap64 (i + 1) <? Z.of_nat (length block)
          then fill_handles n' (wrap64 (i + 1)) buffers
                 (<[Z.to_nat (wrap64 (i + 1)) := b]> block)
          else Undefined
      | None => Undefined
      end
  end.

(** The read of [n] bytes through a pointer to a block of dwords, as
    [memcpy] makes it of its source; an empty block is the null pointer
    [pkt3_init] leaves.  Past the end of the block, or through the null
    pointer, the read has no defined behaviour. *)
Definition block_read (block : list Z) (n : Z) : outcome unit :=
  if (0 <? Z.of_nat (length block)) && (n <=? 4 * Z.of_nat (length block))
  then Done tt
  else Undefined.

(** Result of the argument loop of [main]. *)
Inductive cli : Type :=
| Cli_exit (code : Z)
| Cli_run (device_path : option string) (test_init : bool).

(** The argument loop of [main], on the arguments from [argv[i]] on. *)
Fixpoint parse_args (args : list string) (device_path : option string)
    (test_init : bool) : cli :=
  match args with
  | [] => Cli_run device_path test_init
  | a :: rest =>
      match String.eqb a "--device", rest with
      | true, path :: rest' => parse_args rest' (Some path) test_init
      | _, _ =>
          if String.eqb a "--test-init" then parse_args rest device_path true
          else if String.eqb a "--help" then Cli_exit 0
          else Cli_exit 1
      end
  end.

Section WithHost.
Context {U : drm_uapi} {C : host_consts}.
Variable H : host.

Definition open (path : string) (oflag : Z) : run (Z * Z) :=
  fun t => let '(ret, errno) := h_open H t path oflag in
           (Done (ret, errno), t ++ [Call_open path oflag ret errno]).

Definition close (fd : Z) : run unit :=
  fun t => (Done tt, t ++ [Call_close fd]).

Definition amdgpu_device_initialize (fd : Z) : run (Z * Z * Z * Z) :=
  fun t => let '(ret, major, minor, h) := h_amdgpu_device_initialize H t fd in
           (Done (ret, major, minor, h),
            t ++ [Call_amdgpu_device_initialize fd ret major minor h]).

Definition amdgpu_query_gpu_info (dev_handle : Z) : run (Z * amdgpu_gpu_info) :=
  fun t => let '(ret, info) := h_amdgpu_query_gpu_info H t dev_handle in
           (Done (ret, info), t ++ [Call_amdgpu_query_gpu_info dev_handle ret info]).

Definition amdgpu_device_deinitialize (dev_handle : Z) : run unit :=
  fun t => (Done tt, t ++ [Call_amdgpu_device_deinitialize dev_handle]).

Definition amdgpu_cs_ctx_create (dev_handle : Z) : run (Z * Z) :=
  fun t => let '(ret, ctx) := h_amdgpu_cs_ctx_create H t dev_handle in
           (Done (ret, ctx), t ++ [Call_amdgpu_cs_ctx_create dev_handle ret ctx]).

Definition amdgpu_cs_ctx_free (ctx : Z) : run unit :=
  fun t => (Done tt, t ++ [Call_amdgpu_cs_ctx_free ctx]).

Definition malloc (bytes : Z) : run Z :=
  fun t => let ptr := h_malloc H t bytes in
           (Done ptr, t ++ [Call_malloc bytes ptr]).

Definition free (ptr : Z) : run unit :=
  fun t => (Done tt, t ++ [Call_free ptr]).

(** [memcpy(dst, src, n)], as a call; [src] is the content of the block
    the source pointer designates.  Whether that block holds [n] bytes
    is settled where a caller hands its block over, by [block_read]. *)
Definition memcpy (dst : Z) (src : list Z) (n : Z) : run unit :=
  fun t => (Done tt, t ++ [Call_memcpy dst src n]).

Definition amdgpu_bo_list_create (dev_handle number : Z) (handles : list Z)
    : run (Z * Z) :=
  fun t =>
    let '(ret, l) := h_amdgpu_bo_list_create H t dev_handle number handles in
    (Done (ret, l),
     t ++ [Call_amdgpu_bo_list_create dev_handle number handles ret l]).

Definition amdgpu_bo_list_destroy (list_handle : Z) : run unit :=
  fun t => (Done tt, t ++ [Call_amdgpu_bo_list_destroy list_handle]).

(** [amdgpu_cs_submit(ctx, flags, &req, number)]: the value returned and
    the sequence number it stores in the request. *)
Definition amdgpu_cs_submit (ctx flags : Z) (req : amdgpu_cs_request)
    (number : Z) : run (Z * Z) :=
  fun t =>
    let '(ret, seq) := h_amdgpu_cs_submit H t ctx flags req number in
    (Done (ret, seq), t ++ [Call_amdgpu_cs_submit ctx flags req number ret seq]).

Definition amdgpu_cs_query_fence_status (fence : amdgpu_cs_fence)
    (timeout flags : Z) : run (Z * Z) :=
  fun t =>
    let '(ret, expired) :=
      h_amdgpu_cs_query_fence_status H t fence timeout flags in
    (Done (ret, expired),
     t ++ [Call_amdgpu_cs_query_fence_status fence timeout flags ret expired]).

(** [bo_upload] of [bo.c]; [data] is the content of the source block.
    The two assertions come first, then the call of [memcpy]. *)
Definition bo_upload (bo : amdgpu_bo_t) (data : list Z) (size : Z) : run unit :=
  _ ← run_assert (negb (host_addr bo =? NULL)) not_mapped_msg;
  _ ← run_assert (size <=? Bo.size bo) upload_size_msg;
  memcpy (host_addr bo) data size.

(** The loop of [amdgpu_device_init] over the debugfs directories, [n]
    rounds from [i]; [regs2_fd] is the descriptor so far. *)
Fixpoint open_regs2 (n : nat) (i : Z) (regs2_fd : Z) : run Z :=
  match n with
  | O => mret regs2_fd
  | S n' =>
      '(regs2_fd, _) ← open (regs2_path i) O_RDWR;
      if 0 <=? regs2_fd then mret regs2_fd
      else open_regs2 n' (i + 1) regs2_fd
  end.

(** [amdgpu_device_init].  [device_path] is [None] for a null pointer;
    the last argument is the structure [dev] points to, and the result
    pairs the value returned with that structure as the call leaves it.
    The [errno] of a failed [open] is the one the function reads when
    it returns. *)
Definition amdgpu_device_init (device_path : option string) (dev : amdgpu_t)
    : run (Z * amdgpu_t) :=
  let path := match device_path with
              | Some p => p
              | None => "/dev/dri/card0"
              end in
  '(drm_fd, errno) ← open path O_RDWR;
  if drm_fd <? 0 then mret (- errno, dev) else
  '(ret, drm_major, drm_minor, dev_handle) ← amdgpu_device_initialize drm_fd;
  if negb (ret =? 0) then
    _ ← close drm_fd; mret (ret, dev)
  else
  '(ret, gpu_info) ← amdgpu_query_gpu_info dev_handle;
  if negb (ret =? 0) then
    _ ← amdgpu_device_deinitialize dev_handle;
    _ ← close drm_fd;
    mret (ret, dev)
  else
  '(ret, ctx_handle) ← amdgpu_cs_ctx_create dev_handle;
  if negb (ret =? 0) then
    _ ← amdgpu_device_deinitialize dev_handle;
    _ ← close drm_fd;
    mret (ret, dev)
  else
  regs2_fd ← open_regs2 8 0 (-1);
  let gc_regs_base_addr := <[0%nat := 0x0]> (replicate 16 0) in
  mret (0, {| drm_fd := drm_fd;
              dev_handle := dev_handle;
              ctx_handle := ctx_handle;
              regs2_fd := regs2_fd;
              gc_regs_base_addr := gc_regs_base_addr;
              device_id := gi_asic_id gpu_info;
              chip_rev := gi_chip_rev gpu_info;
              chip_external_rev := gi_chip_external_rev gpu_info |}).

(** [amdgpu_device_cleanup]; the result is the structure [dev] points
    to, as the call leaves it. *)
Definition amdgpu_device_cleanup (dev : amdgpu_t) : run amdgpu_t :=
  dev ← (if negb (ctx_handle dev =? NULL) then
           _ ← amdgpu_cs_ctx_free (ctx_handle dev);
           mret {| drm_fd := drm_fd dev; dev_handle := dev_handle dev;
                   ctx_handle := NULL; regs2_fd := regs2_fd dev;
                   gc_regs_base_addr := gc_regs_base_addr dev;
                   device_id := device_id dev; chip_rev := chip_rev dev;
                   chip_external_rev := chip_external_rev dev |}
         else mret dev);
  dev ← (if negb (dev_handle dev =? NULL) then
           _ ← amdgpu_device_deinitialize (dev_handle dev);
           mret {| drm_fd := drm_fd dev; dev_handle := NULL;
                   ctx_handle := ctx_handle dev; regs2_fd := regs2_fd dev;
                   gc_regs_base_addr := gc_regs_base_addr dev;
                   device_id := device_id dev; chip_rev := chip_rev dev;
                   chip_external_rev := chip_external_rev dev |}
         else mret dev);
  dev ← (if 0 <=? regs2_fd dev then
           _ ← close (regs2_fd dev);
           mret {| drm_fd := drm_fd dev; dev_handle := dev_handle dev;
                   ctx_handle := ctx_handle dev; regs2_fd := -1;
                   gc_regs_base_addr := gc_regs_base_addr dev;
                   device_id := device_id dev; chip_rev := chip_rev dev;
                   chip_external_rev := chip_external_rev dev |}
         else mret dev);
  if 0 <=? drm_fd dev then
    _ ← close (drm_fd dev);
    mret {| drm_fd := -1; dev_handle := dev_handle dev;
            ctx_handle := ctx_handle dev; regs2_fd := regs2_fd dev;
            gc_regs_base_addr := gc_regs_base_addr dev;
            device_id := device_id dev; chip_rev := chip_rev dev;
            chip_external_rev := chip_external_rev dev |}
  else mret dev.

(** [dev_submit].  [buffers] is the array the pointer designates; the
    last argument is the structure [submit] points to.  The [memcpy] of
    [bo_upload] reads [pkt3_size(packets)] bytes of the packet block:
    [block_read]. *)
Definition dev_submit (dev : amdgpu_t) (packets : pkt3_packets_t)
    (buffers : list Z) (buffers_count : Z) (submit : amdgpu_submit_t)
    : run (Z * amdgpu_submit_t) :=
  let ib := bo_zero in
  '(ret, ib) ← lift (bo_alloc (h_kernel H) dev (pkt3_size packets)
                       AMDGPU_GEM_DOMAIN_GTT false ib);
  if negb (ret =? 0) then mret (ret, submit) else
  _ ← bo_upload ib (data packets) (pkt3_size packets);
  _ ← run_pure (block_read (data packets) (pkt3_size packets));
  let number := wrap32 (buffers_count + 1) in
  bo_handles ← malloc (wrap64 (sizeof_amdgpu_bo_handle * number));
  if bo_handles =? NULL then
    _ ← lift (bo_free (h_kernel H) dev ib);
    mret (- ENOMEM, submit)
  else
  let block := replicate (Z.to_nat number) 0 in
  block ← run_pure
    (if 0 <? Z.of_nat (length block)
     then fill_handles (Z.to_nat buffers_count) 0 buffers
            (<[0%nat := bo_handle ib]> block)
     else Undefined);
  '(ret, bo_list) ←
    amdgpu_bo_list_create (dev_handle dev) number
                          (take (Z.to_nat number) block);
  _ ← free bo_handles;
  if negb (ret =? 0) then
    _ ← lift (bo_free (h_kernel H) dev ib);
    mret (ret, submit)
  else
  let ib_info := {| ib_flags := 0;
                    ib_mc_address := va_addr ib;
                    ib_size := wrap32 (count packets) |} in
  let req := {| rq_flags := 0;
                ip_type := AMDGPU_HW_IP_COMPUTE;
                ip_instance := 0;
                ring := 0;
                resources := bo_list;
                number_of_dependencies := 0;
                dependencies := NULL;
                number_of_ibs := 1;
                ibs := [ib_info];
                seq_no := 0;
                fence_info := 0 |} in
  '(ret, seq) ← amdgpu_cs_submit (ctx_handle dev) 0 req 1;
  if negb (ret =? 0) then
    _ ← amdgpu_bo_list_destroy bo_list;
    _ ← lift (bo_free (h_kernel H) dev ib);
    mret (ret, submit)
  else
  mret (0, {| ib := ib;
              bo_list := bo_list;
              fence := {| f_context := ctx_handle dev;
                          f_ip_type := AMDGPU_HW_IP_COMPUTE;
                          f_ip_instance := 0;
                          f_ring := 0;
                          f_fence := seq |} |}).

(** [dev_wait] *)
Definition dev_wait (dev : amdgpu_t) (submit : amdgpu_submit_t)
    (timeout_ns : Z) : run Z :=
  '(ret, expired) ← amdgpu_cs_query_fence_status (fence submit) timeout_ns 0;
  if negb (ret =? 0) then mret ret
  else if expired =? 0 then mret (- ETIMEDOUT)
  else mret 0.

(** [dev_submit_cleanup]; the result is the structure [submit] points
    to, as the call leaves it. *)
Definition dev_submit_cleanup (dev : amdgpu_t) (submit : amdgpu_submit_t)
    : run amdgpu_submit_t :=
  submit ← (if negb (bo_list submit =? NULL) then
              _ ← amdgpu_bo_list_destroy (bo_list submit);
              mret {| ib := ib submit; bo_list := NULL;
                      fence := fence submit |}
            else mret submit);
  ib' ← lift (bo_free (h_kernel H) dev (ib submit));
  mret {| ib := ib'; bo_list := bo_list submit; fence := fence submit |}.

(** [main]; [argv] is the whole argument vector, program name first.
    The [memcpy] of [bo_upload] reads the sixteen bytes of [test_data]:
    [block_read]. *)
Definition main (argv : list string) : run Z :=
  match parse_args (tail argv) None false with
  | Cli_exit code => mret code
  | Cli_run device_path test_init =>
      '(ret, dev) ← amdgpu_device_init device_path dev_zero;
      if negb (ret =? 0) then mret 1 else
      if test_init then
        _ ← amdgpu_device_cleanup dev; mret 0
      else
      '(ret, test_bo) ← lift (bo_alloc (h_kernel H) dev 4096
                                AMDGPU_GEM_DOMAIN_GTT false bo_zero);
      if negb (ret =? 0) then
        _ ← amdgpu_device_cleanup dev; mret 1
      else
      let test_data := [0xDEADBEEF; 0xCAFEBABE; 0x12345678; 0x87654321] in
      _ ← bo_upload test_bo test_data 16;
      _ ← run_pure (block_read test_data 16);
      test_bo ← lift (bo_free (h_kernel H) dev test_bo);
      _ ← amdgpu_device_cleanup dev;
      mret 0
  end.

End WithHost.

End Device.
Export Device.

(* ===================================================================== *)
(** * Further notions used in the statements *)
(* ===================================================================== *)

(** The dwords [pkt3_dispatch_direct] hands to [da_append], in order. *)
Definition dispatch_direct_words (dim_x dim_y dim_z dispatch_initiator : Z)
    : list Z :=
  [Z.lor (PKT3 PKT3_DISPATCH_DIRECT 3 0) (PKT3_SHADER_TYPE_S 1);
   dim_x; dim_y; dim_z; dispatch_initiator].

(** The capacity [da_append] has reached once [n] dwords are in an array
    that started empty: the first of 64, 128, 256, ... to hold them. *)
Definition settled (n cap : Z) : Prop :=
  exists k, 0 <= k /\ cap = 64 * 2 ^ k /\ n <= cap /\ (k = 0 \/ cap < 2 * n).

(** An array as a run of appends from [pkt3_init] leaves it. *)
Definition grown (p : pkt3_packets_t) : Prop :=
  (data p = [] /\ count p = 0 /\ capacity p = 0) \/
  (Z.of_nat (length (data p)) = capacity p /\ 0 < count p /\
   settled (count p) (capacity p)).

(** What a run of appends comes to on an array with room: the whole run
    or the allocator's abort, never a store outside the block. *)
Definition appended (p : pkt3_packets_t) (ws : list Z)
    (r : outcome pkt3_packets_t) : Prop :=
  (exists p', r = Done p' /\
              words p' = words p ++ ws /\
              count p' = count p + Z.of_nat (length ws) /\
              pkt3_size p' = 4 * Z.of_nat (length (words p ++ ws)) /\
              fits 0 p') \/
  r = Abort realloc_msg.

(** What a region holds, the most recently acquired first. *)
Definition region_resources (bo : amdgpu_bo_t) : list resource :=
  (if host_addr bo =? NULL then [] else [R_cpu_mapping (bo_handle bo)]) ++
  [R_va_mapping (kms_handle bo) (va_addr bo); R_va_range (va_handle bo);
   R_bo (bo_handle bo)].

(** A system whose successful answers carry no null handle or pointer. *)
Definition hands_out_non_null (K : kernel) : Prop :=
  (forall t d r, fst (k_amdgpu_bo_alloc K t d r) = 0 ->
                 snd (k_amdgpu_bo_alloc K t d r) <> NULL) /\
  (forall t d y s a b, fst (fst (k_amdgpu_va_range_alloc K t d y s a b)) = 0 ->
                       snd (k_amdgpu_va_range_alloc K t d y s a b) <> NULL) /\
  (forall t b, fst (k_amdgpu_bo_cpu_map K t b) = 0 ->
               snd (k_amdgpu_bo_cpu_map K t b) <> NULL).

(** The calls that give the CPU a view of a buffer, or use it. *)
Definition touches_cpu (e : event) : bool :=
  match e with
  | Ev_amdgpu_bo_cpu_map _ _ _ | Ev_memset _ _ _ => true
  | _ => false
  end.

(** Whether a call is a [write]. *)
Definition is_write (e : event) : bool :=
  match e with Ev_write _ _ _ _ => true | _ => false end.

(** A computation that, whenever it ends normally, has made exactly the
    register writes [ws]. *)
Definition writes_when_done {A} (m : io A) (ws : list reg_write) : Prop :=
  forall t, exists res calls,
    m t = (res, t ++ calls) /\
    forall a, res = Done a ->
      forall vmid pos rest, exists vmid' pos',
        reg_writes_from vmid pos (calls ++ rest)
        = ws ++ reg_writes_from vmid' pos' rest.

(** What the calls of [amdgpu_device.c] can acquire or give back. *)
Inductive holding : Type :=
| Held_fd (fd : Z)
| Held_device (dev_handle : Z)
| Held_context (ctx : Z)
| Held_block (ptr : Z)
| Held_bo_list (list_handle : Z).

#[export] Instance holding_eq_dec : EqDecision holding.
Proof. solve_decision. Defined.

Definition taken (c : call) : option holding :=
  match c with
  | Call_open _ _ ret _ => if 0 <=? ret then Some (Held_fd ret) else None
  | Call_amdgpu_device_initialize _ ret _ _ h =>
      if ret =? 0 then Some (Held_device h) else None
  | Call_amdgpu_cs_ctx_create _ ret ctx =>
      if ret =? 0 then Some (Held_context ctx) else None
  | Call_malloc _ ptr => if ptr =? NULL then None else Some (Held_block ptr)
  | Call_amdgpu_bo_list_create _ _ _ ret l =>
      if ret =? 0 then Some (Held_bo_list l) else None
  | _ => None
  end.

Definition given_back (c : call) : option holding :=
  match c with
  | Call_close fd => Some (Held_fd fd)
  | Call_amdgpu_device_deinitialize h => Some (Held_device h)
  | Call_amdgpu_cs_ctx_free ctx => Some (Held_context ctx)
  | Call_free ptr => Some (Held_block ptr)
  | Call_amdgpu_bo_list_destroy l => Some (Held_bo_list l)
  | _ => None
  end.

Fixpoint drop_first (h : holding) (l : list holding) : list holding :=
  match l with
  | [] => []
  | x :: l' => if decide (x = h) then l' else x :: drop_first h l'
  end.

(** What is held after the calls of a trace, the most recent first,
    starting from [held]; the calls of [bo.c] are counted apart, by
    [outstanding]. *)
Fixpoint holdings_from (held : list holding) (t : list call) : list holding :=
  match t with
  | [] => held
  | c :: t' =>
      let held := match taken c with Some h => h :: held | None => held end in
      let held :=
        match given_back c with
        | Some h => drop_first h held
        | None => held
        end in
      holdings_from held t'
  end.

Definition holdings (t : list call) : list holding := holdings_from [] t.

(** The same of a [host]; besides, a failed [open] leaves a non-zero
    [errno]. *)
Definition well_behaved (H : host) : Prop :=
  hands_out_non_null (h_kernel H) /\
  (forall t p f, fst (h_open H t p f) < 0 -> snd (h_open H t p f) <> 0) /\
  (forall t fd, fst (fst (fst (h_amdgpu_device_initialize H t fd))) = 0 ->
                snd (h_amdgpu_device_initialize H t fd) <> NULL) /\
  (forall t d, fst (h_amdgpu_cs_ctx_create H t d) = 0 ->
               snd (h_amdgpu_cs_ctx_create H t d) <> NULL) /\
  (forall t d n l, fst (h_amdgpu_bo_list_create H t d n l) = 0 ->
                   snd (h_amdgpu_bo_list_create H t d n l) <> NULL).

(** The values of the constants on Linux. *)
Definition linux_host_consts : host_consts :=
  {| O_RDWR := 2; ENOMEM := 12; ETIMEDOUT := 110; AMDGPU_HW_IP_COMPUTE := 1 |}.

(** A host on which every call succeeds; the register file is under the
    second debugfs directory. *)
Definition happy_host : host :=
  {| h_kernel := happy_kernel;
     h_open := fun t path _ =>
       if String.eqb path "/sys/kernel/debug/dri/0/regs2" then (-1, 2)
       else (3 + Z.of_nat (length t), 0);
     h_amdgpu_device_initialize := fun _ _ => (0, 3, 57, 0x100);
     h_amdgpu_query_gpu_info := fun _ _ =>
       (0, {| gi_asic_id := 0x744C; gi_chip_rev := 1;
              gi_chip_external_rev := 2; gi_family_id := 145 |});
     h_amdgpu_cs_ctx_create := fun _ _ => (0, 0x200);
     h_malloc := fun _ _ => 0x5000;
     h_amdgpu_bo_list_create := fun _ _ _ _ => (0, 0x300);
     h_amdgpu_cs_submit := fun _ _ _ _ _ => (0, 41);
     h_amdgpu_cs_query_fence_status := fun _ _ _ _ => (0, 1) |}.

(** The same host, refusing every submission with -22. *)
Definition host_no_submit : host :=
  {| h_kernel := h_kernel happy_host;
     h_open := h_open happy_host;
     h_amdgpu_device_initialize := h_amdgpu_device_initialize happy_host;
     h_amdgpu_query_gpu_info := h_amdgpu_query_gpu_info happy_host;
     h_amdgpu_cs_ctx_create := h_amdgpu_cs_ctx_create happy_host;
     h_malloc := h_malloc happy_host;
     h_amdgpu_bo_list_create := h_amdgpu_bo_list_create happy_host;
     h_amdgpu_cs_submit := fun _ _ _ _ _ => (-22, 0);
     h_amdgpu_cs_query_fence_status :=
       h_amdgpu_cs_query_fence_status happy_host |}.

(** The same host, without a context to give. *)
Definition host_no_context : host :=
  {| h_kernel := h_kernel happy_host;
     h_open := h_open happy_host;
     h_amdgpu_device_initialize := h_amdgpu_device_initialize happy_host;
     h_amdgpu_query_gpu_info := h_amdgpu_query_gpu_info happy_host;
     h_amdgpu_cs_ctx_create := fun _ _ => (-12, 0);
     h_malloc := h_malloc happy_host;
     h_amdgpu_bo_list_create := h_amdgpu_bo_list_create happy_host;
     h_amdgpu_cs_submit := h_amdgpu_cs_submit happy_host;
     h_amdgpu_cs_query_fence_status :=
       h_amdgpu_cs_query_fence_status happy_host |}.

(** What a device structure holds, the most recently acquired first. *)
Definition device_holdings (dev : amdgpu_t) : list holding :=
  (if 0 <=? regs2_fd dev then [Held_fd (regs2_fd dev)] else []) ++
  (if ctx_handle dev =? NULL then [] else [Held_context (ctx_handle dev)]) ++
  (if dev_handle dev =? NULL then [] else [Held_device (dev_handle dev)]) ++
  (if 0 <=? drm_fd dev then [Held_fd (drm_fd dev)] else []).

(** The attempts on the register file: one [open] per answer, on the
    directories from [i] upwards. *)
Fixpoint probe_calls {C : host_consts} (i : Z) (answers : list (Z * Z))
    : list call :=
  match answers with
  | [] => []
  | (ret, errno) :: rest =>
      Call_open (regs2_path i) O_RDWR ret errno :: probe_calls (i + 1) rest
  end.

(** The calls of a successful [amdgpu_device_init] on [path], and what
    they put in the structure: the device node, the three libdrm calls,
    then the debugfs directories in order until one opens or eight have
    failed. *)
Definition init_calls {C : host_consts} (path : string) (dev' : amdgpu_t)
    (calls : list call) : Prop :=
  exists e major minor info fails probes,
    calls = [Call_open path O_RDWR (drm_fd dev') e;
             Call_amdgpu_device_initialize (drm_fd dev') 0 major minor
                                           (dev_handle dev');
             Call_amdgpu_query_gpu_info (dev_handle dev') 0 info;
             Call_amdgpu_cs_ctx_create (dev_handle dev') 0
                                       (ctx_handle dev')] ++ probes /\
    device_id dev' = gi_asic_id info /\
    chip_rev dev' = gi_chip_rev info /\
    chip_external_rev dev' = gi_chip_external_rev info /\
    gc_regs_base_addr dev' = replicate 16 0 /\
    Forall (fun a => fst a < 0) fails /\
    ((regs2_fd dev' < 0 /\ length fails = 8%nat /\
      probes = probe_calls 0 fails) \/
     (0 <= regs2_fd dev' /\ (length fails < 8)%nat /\
      exists e', probes = probe_calls 0 (fails ++ [(regs2_fd dev', e')]))).

(** The calls of a successful [dev_submit], and what they put in the
    structure: the allocation of the indirect buffer, the copy of the
    packets into it, the handle block with the indirect buffer first and
    the caller's [n] handles behind it, and the submission of one
    indirect buffer of [count] dwords. *)
Definition submit_calls {C : host_consts} (dev : amdgpu_t)
    (packets : pkt3_packets_t) (buffers : list Z) (n : Z)
    (s' : amdgpu_submit_t) (calls : list call) : Prop :=
  exists alloc_calls ptr,
    calls =
      map Base alloc_calls ++
      [Call_memcpy (host_addr (ib s')) (data packets) (pkt3_size packets);
       Call_malloc (sizeof_amdgpu_bo_handle * (n + 1)) ptr;
       Call_amdgpu_bo_list_create (dev_handle dev) (n + 1)
         (bo_handle (ib s') :: take (Z.to_nat n) buffers) 0 (bo_list s');
       Call_free ptr;
       Call_amdgpu_cs_submit (ctx_handle dev) 0
         {| rq_flags := 0;
            ip_type := AMDGPU_HW_IP_COMPUTE;
            ip_instance := 0;
            ring := 0;
            resources := bo_list s';
            number_of_dependencies := 0;
            dependencies := NULL;
            number_of_ibs := 1;
            ibs := [{| ib_flags := 0;
                       ib_mc_address := va_addr (ib s');
                       ib_size := wrap32 (count packets) |}];
            seq_no := 0;
            fence_info := 0 |}
         1 0 (f_fence (fence s'))] /\
    ptr <> NULL /\ n + 1 < 2 ^ 32 /\ (Z.to_nat n <= length buffers)%nat /\
    host_addr (ib s') <> NULL /\ pkt3_size packets <= size (ib s') /\
    f_context (fence s') = ctx_handle dev /\
    f_ip_type (fence s') = AMDGPU_HW_IP_COMPUTE /\
    f_ip_instance (fence s') = 0 /\ f_ring (fence s') = 0.

(** A packet array of seven dwords in a block of eight, and an empty
    submission structure, to run the model on. *)
Definition acquire_packets : pkt3_packets_t :=
  {| data := acquire_mem_words ++ [0]; count := 7; capacity := 8 |}.

Definition submit_zero : amdgpu_submit_t :=
  {| ib := bo_zero; bo_list := NULL;
     fence := {| f_context := 0; f_ip_type := 0; f_ip_instance := 0;
                 f_ring := 0; f_fence := 0 |} |}.

(* ===================================================================== *)
(** * Bit-level facts *)
(* ===================================================================== *)

Ltac split_cmp :=
  repeat match goal with
         | |- context [?a <? ?b] => destruct (Z.ltb_spec a b)
         | |- context [?a <=? ?b] => destruct (Z.leb_spec a b)
         end.

Lemma high_bits_clear (x n i : Z) :
  0 <= x < 2 ^ n -> 0 <= n <= i -> Z.testbit x i = false.
Proof.
  intros Hx Hi.
  destruct (Z.eq_dec x 0) as [->|Hnz]; [apply Z.bits_0|].
  apply Z.bits_above_log2; [lia|].
  apply Z.log2_lt_pow2; [lia|].
  apply Z.lt_le_trans with (2 ^ n); [lia|].
  apply Z.pow_le_mono_r; lia.
Qed.

Lemma header_bits_spec (lo hi h i : Z) :
  0 <= lo <= hi -> 0 <= i ->
  Z.testbit (header_bits lo hi h) i
  = Z.testbit h (i + lo) && (i <? hi - lo + 1).
Proof.
  intros Hlo Hi. unfold header_bits.
  rewrite Z.land_spec, Z.shiftr_spec, Z.testbit_ones_nonneg by lia.
  reflexivity.
Qed.

(** Bit [i] of a header: the type tag, the opcode and the count, one on
    top of the other; the predicate lands on the tag. *)
Lemma PKT3_spec (o c p i : Z) :
  0 <= i -> p = 0 \/ p = 1 ->
  Z.testbit (PKT3 o c p) i =
    (i <? 32) &&
    ((30 <=? i)
     || ((8 <=? i) && (i <? 16) && Z.testbit o (i - 8))
     || ((i <? 14) && Z.testbit c i)).
Proof.
  intros Hi Hp. unfold PKT3, wrap32.
  rewrite <- Z.land_ones by lia.
  rewrite Z.land_spec, Z.testbit_ones_nonneg by lia.
  rewrite !Z.lor_spec, !Z.shiftl_spec, !Z.land_spec by lia.
  change 3 with (Z.ones 2). change 0xFF with (Z.ones 8).
  change 0x3FFF with (Z.ones 14).
  assert (Hp31 : Z.testbit p (i - 31)
                 = (0 <=? i - 31) && (i - 31 <? 1) && negb (p =? 0)).
  { destruct Hp as [-> | ->]; [rewrite Z.bits_0, andb_false_r; reflexivity|].
    change 1 with (Z.ones 1) at 1. rewrite Z.testbit_ones by lia.
    rewrite andb_true_r. reflexivity. }
  rewrite Hp31, !Z.testbit_ones by lia.
  destruct (Z.testbit o (i - 8)), (Z.testbit c i), (negb (p =? 0));
    split_cmp; simpl; try reflexivity; lia.
Qed.

Lemma header_bits_8_15 (o c p : Z) :
  0 <= o < 256 -> 0 <= c < 16384 -> p = 0 \/ p = 1 ->
  header_bits 8 15 (PKT3 o c p) = Z.lor o (Z.shiftr c 8).
Proof.
  intros Ho Hc Hp. apply Z.bits_inj'; intros i Hi.
  rewrite header_bits_spec, PKT3_spec, Z.lor_spec, Z.shiftr_spec by lia.
  replace (i + 8 - 8) with i by lia.
  destruct (Z.ltb_spec i 8) as [H8|H8].
  - destruct (Z.ltb_spec (i + 8) 14) as [H14|H14].
    + destruct (Z.testbit o i), (Z.testbit c (i + 8)); split_cmp; simpl;
        try reflexivity; lia.
    + rewrite (high_bits_clear c 14 (i + 8)) by lia.
      destruct (Z.testbit o i); split_cmp; simpl; try reflexivity; lia.
  - rewrite (high_bits_clear o 8 i), (high_bits_clear c 14 (i + 8)) by lia.
    split_cmp; simpl; rewrite ?andb_false_r; try reflexivity; lia.
Qed.

Lemma header_bits_0_13 (o c p : Z) :
  0 <= o < 256 -> 0 <= c < 16384 -> p = 0 \/ p = 1 ->
  header_bits 0 13 (PKT3 o c p) = Z.lor c (Z.shiftl (Z.land o 0x3F) 8).
Proof.
  intros Ho Hc Hp. apply Z.bits_inj'; intros i Hi.
  rewrite header_bits_spec, PKT3_spec, Z.lor_spec, Z.shiftl_spec, Z.land_spec
    by lia.
  change 0x3F with (Z.ones 6). rewrite Z.testbit_ones by lia.
  replace (i + 0) with i by lia.
  destruct (Z.ltb_spec i 14) as [H14|H14].
  - destruct (Z.testbit o (i - 8)), (Z.testbit c i); split_cmp; simpl;
      try reflexivity; lia.
  - rewrite (high_bits_clear c 14 i) by lia.
    split_cmp; simpl; rewrite ?andb_false_r; try reflexivity; lia.
Qed.

Lemma header_bits_31 (o c p : Z) :
  p = 0 \/ p = 1 -> header_bits 31 31 (PKT3 o c p) = 1.
Proof.
  intros Hp. apply Z.bits_inj'; intros i Hi.
  rewrite header_bits_spec, PKT3_spec by lia.
  change 1 with (Z.ones 1) at 2. rewrite Z.testbit_ones by lia.
  destruct (Z.testbit o (i + 31 - 8)), (Z.testbit c (i + 31)); split_cmp; simpl;
    try reflexivity; lia.
Qed.

(** The two fields share bits 8 to 13, so no header at all can give back
    both an opcode and a count of 256 or more. *)
Lemma no_encoder_roundtrips (enc : Z -> Z -> Z -> Z) :
  ~ (forall o c p, 0 <= o < 256 -> 0 <= c < 16384 -> p = 0 \/ p = 1 ->
       header_bits 8 15 (enc o c p) = o /\
       header_bits 0 13 (enc o c p) = c /\
       header_bits 31 31 (enc o c p) = p).
Proof.
  intros H.
  destruct (H 0 256 0) as (Ho & Hc & _); [lia | lia | left; reflexivity |].
  assert (Hb : Z.testbit (header_bits 8 15 (enc 0 256 0)) 0
               = Z.testbit (header_bits 0 13 (enc 0 256 0)) 8).
  { rewrite !header_bits_spec by lia. reflexivity. }
  rewrite Ho, Hc in Hb. discriminate Hb.
Qed.

(** Masking with [~(PAGE_SIZE - 1)] clears the low twelve bits. *)
Lemma land_page_mask (x : Z) :
  0 <= x < 2 ^ 64 ->
  Z.land x (wrap64 (Z.lnot (PAGE_SIZE - 1))) = x / 4096 * 4096.
Proof.
  intros Hx.
  change (wrap64 (Z.lnot (PAGE_SIZE - 1))) with (Z.shiftl (Z.ones 52) 12).
  change 4096 with (2 ^ 12).
  rewrite <- Z.shiftr_div_pow2, <- Z.shiftl_mul_pow2 by lia.
  apply Z.bits_inj'; intros i Hi.
  rewrite Z.land_spec, !Z.shiftl_spec by lia.
  destruct (Z.ltb_spec i 12) as [H12|H12].
  - rewrite !(Z.testbit_neg_r _ (i - 12)) by lia. apply andb_false_r.
  - rewrite Z.shiftr_spec, Z.testbit_ones by lia.
    replace (i - 12 + 12) with i by lia.
    destruct (Z.ltb_spec i 64) as [H64|H64].
    + destruct (Z.testbit x i); split_cmp; simpl; try reflexivity; lia.
    + rewrite (high_bits_clear x 64 i) by lia. reflexivity.
Qed.

Lemma ALIGN_UP_page (s : Z) :
  0 <= s <= 2 ^ 64 - 4096 ->
  ALIGN_UP s PAGE_SIZE = round_up s 4096 /\ s <= ALIGN_UP s PAGE_SIZE.
Proof.
  intros Hs. unfold ALIGN_UP, round_up.
  assert (Hw : wrap64 (s + PAGE_SIZE - 1) = s + 4095).
  { unfold wrap64, PAGE_SIZE. rewrite Z.mod_small by lia. lia. }
  rewrite Hw, land_page_mask by lia.
  replace (s + 4096 - 1) with (s + 4095) by lia.
  split; [reflexivity|].
  pose proof (Z.div_mod (s + 4095) 4096 ltac:(lia)) as Hd.
  pose proof (Z.mod_pos_bound (s + 4095) 4096 ltac:(lia)) as Hm.
  lia.
Qed.

(** The two program-address dwords of [build_compute_dispatch] hold the
    whole of an aligned address. *)
Lemma pgm_split_decodes (code_va : Z) :
  0 <= code_va < 2 ^ 64 -> Z.land code_va 0xFF = 0 ->
  Z.lor (Z.shiftl (wrap32 (Z.shiftr code_va 8)) 8)
        (Z.shiftl (wrap32 (Z.shiftr code_va 40)) 40) = code_va.
Proof.
  intros Hva Hal. apply Z.bits_inj'; intros i Hi. unfold wrap32.
  rewrite <- !Z.land_ones by lia.
  rewrite Z.lor_spec, !Z.shiftl_spec by lia.
  destruct (Z.ltb_spec i 8) as [H8|H8].
  - rewrite !Z.testbit_neg_r by lia.
    assert (Hb : Z.testbit (Z.land code_va 0xFF) i = Z.testbit 0 i)
      by (rewrite Hal; reflexivity).
    change 0xFF with (Z.ones 8) in Hb.
    rewrite Z.land_spec, Z.testbit_ones, Z.bits_0 in Hb by lia.
    destruct (Z.testbit code_va i); [|reflexivity].
    revert Hb. destruct (Z.leb_spec 0 i), (Z.ltb_spec i 8);
      simpl; try discriminate; lia.
  - rewrite Z.land_spec, Z.shiftr_spec, Z.testbit_ones by lia.
    replace (i - 8 + 8) with i by lia.
    destruct (Z.ltb_spec i 40) as [H40|H40].
    + rewrite (Z.testbit_neg_r _ (i - 40)) by lia.
      destruct (Z.testbit code_va i); split_cmp; simpl; try reflexivity; lia.
    + rewrite Z.land_spec, Z.shiftr_spec, Z.testbit_ones by lia.
      replace (i - 40 + 40) with i by lia.
      destruct (Z.ltb_spec i 64) as [H64|H64].
      * destruct (Z.testbit code_va i); split_cmp; simpl; try reflexivity; lia.
      * rewrite (high_bits_clear code_va 64 i) by lia. reflexivity.
Qed.

(* ===================================================================== *)
(** * The packet array *)
(* ===================================================================== *)

Lemma take_S_insert (l : list Z) (i : nat) (v : Z) :
  (i < length l)%nat -> take (S i) (<[i:=v]> l) = take i l ++ [v].
Proof.
  intros Hi.
  rewrite (take_S_r (<[i:=v]> l) i v) by (apply list_lookup_insert_eq; exact Hi).
  rewrite take_insert_ge by lia. reflexivity.
Qed.

(** The store of [da_append], once the block is known to be long enough. *)
Lemma da_append_store (l : list Z) (c cap v n : Z) :
  0 <= c < Z.of_nat (length l) -> Z.of_nat (length l) = cap ->
  c + (n + 1) <= 2 ^ 60 -> 0 <= n ->
  let p' := {| data := <[Z.to_nat c := v]> l; count := wrap64 (c + 1);
               capacity := cap |} in
  words p' = take (Z.to_nat c) l ++ [v] /\ count p' = c + 1 /\ fits n p'.
Proof.
  intros Hc Hl Hn Hn0 p'. subst p'. unfold words, fits, wrap64. simpl.
  assert (H60 : 2 ^ 60 < 2 ^ 64) by (apply Z.pow_lt_mono_r; lia).
  rewrite Z.mod_small by lia.
  replace (Z.to_nat (c + 1)) with (S (Z.to_nat c)) by lia.
  rewrite take_S_insert by lia. rewrite length_insert.
  repeat split; lia.
Qed.

(** One append either adds its dword after the ones already there, or
    stops on the allocator's refusal. *)
Lemma da_append_cases (realloc_ok : Z -> bool) (p : pkt3_packets_t) (v n : Z) :
  fits (n + 1) p -> 0 <= n ->
  (exists p', da_append realloc_ok p v = Done p' /\
              words p' = words p ++ [v] /\ count p' = count p + 1 /\
              fits n p') \/
  (da_append realloc_ok p v = Abort realloc_msg /\
   exists bytes, realloc_ok bytes = false).
Proof.
  intros (Hlen & Hcnt & Hroom) Hn. unfold da_append.
  assert (H60 : 2 ^ 60 < 2 ^ 62) by (apply Z.pow_lt_mono_r; lia).
  assert (H62 : 2 ^ 62 * 4 = 2 ^ 64) by reflexivity.
  destruct (Z.leb_spec (capacity p) (count p)) as [Hfull|Hroomy].
  - set (new_cap := if capacity p =? 0 then 64 else wrap64 (capacity p * 2)).
    assert (Hnc : new_cap = (if capacity p =? 0 then 64 else capacity p * 2)).
    { subst new_cap. destruct (capacity p =? 0); [reflexivity|].
      unfold wrap64. apply Z.mod_small. lia. }
    assert (Hnc' : count p < new_cap <= 2 ^ 61).
    { rewrite Hnc. destruct (Z.eqb_spec (capacity p) 0); lia. }
    assert (Hbytes : wrap64 (new_cap * 4) / 4 = new_cap).
    { unfold wrap64. rewrite Z.mod_small by lia. apply Z.div_mul. lia. }
    destruct (realloc_ok (wrap64 (new_cap * 4))) eqn:Hok; simpl.
    + left. unfold realloc_block. rewrite Hbytes.
      set (l := resize (Z.to_nat new_cap) 0 (data p)).
      assert (Hl : Z.of_nat (length l) = new_cap).
      { subst l. rewrite length_resize. lia. }
      unfold mbind, outcome_bind, Util.bind. simpl.
      fold l. rewrite Hl.
      destruct (Z.leb_spec 0 (count p)); [|lia].
      destruct (Z.ltb_spec (count p) new_cap); [|lia]. simpl.
      eexists. split; [reflexivity|].
      destruct (da_append_store l (count p) new_cap v n) as (Hw & Hc & Hf);
        try lia.
      split; [|split; assumption].
      rewrite Hw. unfold words. f_equal. subst l.
      rewrite take_resize_le by lia. rewrite resize_le by lia.
      reflexivity.
    + right. split; [reflexivity|]. eexists. exact Hok.
  - left. unfold mbind, outcome_bind, Util.bind.
    destruct (Z.leb_spec 0 (count p)); [|lia].
    destruct (Z.ltb_spec (count p) (Z.of_nat (length (data p)))); [|lia]. simpl.
    eexists. split; [reflexivity|].
    apply da_append_store; lia.
Qed.

(** The only assertion of [da_append] is the one on [realloc]. *)
Lemma da_append_abort (realloc_ok : Z -> bool) (p : pkt3_packets_t) (v : Z)
    (msg : string) :
  da_append realloc_ok p v = Abort msg -> msg = realloc_msg.
Proof.
  unfold da_append, HDB_ASSERT, mbind, outcome_bind, Util.bind.
  destruct (capacity p <=? count p).
  - destruct (realloc_ok _); simpl.
    + destruct (_ && _); discriminate.
    + intros [= <-]. reflexivity.
  - destruct (_ && _); discriminate.
Qed.

Lemma da_append_all_cases (realloc_ok : Z -> bool) (vs : list Z) :
  forall (p : pkt3_packets_t) (n : Z),
  fits (Z.of_nat (length vs) + n) p -> 0 <= n ->
  (exists p', da_append_all realloc_ok p vs = Done p' /\
              words p' = words p ++ vs /\
              count p' = count p + Z.of_nat (length vs) /\
              fits n p') \/
  (da_append_all realloc_ok p vs = Abort realloc_msg /\
   exists bytes, realloc_ok bytes = false).
Proof.
  induction vs as [|v vs IH]; intros p n Hf Hn.
  - left. exists p. simpl in *. rewrite app_nil_r.
    repeat split; try lia; apply Hf.
  - simpl length in Hf.
    destruct (da_append_cases realloc_ok p v (Z.of_nat (length vs) + n))
      as [(p1 & E1 & W1 & C1 & F1) | (E1 & Hb)]; [| lia | |].
    + replace (Z.of_nat (length vs) + n + 1)
        with (Z.of_nat (S (length vs)) + n) by lia. exact Hf.
    + simpl. rewrite E1.
      destruct (IH p1 n F1 Hn) as [(p2 & E2 & W2 & C2 & F2) | (E2 & Hb)].
      * left. exists p2.
        change (Done p1 ≫= _) with (da_append_all realloc_ok p1 vs).
        split; [exact E2|]. rewrite W2, W1, <- app_assoc. simpl.
        repeat split; try apply F2. lia.
      * right. split; [exact E2 | exact Hb].
    + right. simpl. rewrite E1. split; [reflexivity | exact Hb].
Qed.

Lemma da_append_all_ok (realloc_ok : Z -> bool) (vs : list Z)
    (p : pkt3_packets_t) (n : Z) :
  granting realloc_ok -> fits (Z.of_nat (length vs) + n) p -> 0 <= n ->
  exists p', da_append_all realloc_ok p vs = Done p' /\
             words p' = words p ++ vs /\
             count p' = count p + Z.of_nat (length vs) /\
             fits n p'.
Proof.
  intros Hg Hf Hn.
  destruct (da_append_all_cases realloc_ok vs p n Hf Hn) as [H | (_ & b & Hb)];
    [exact H|].
  rewrite Hg in Hb. discriminate Hb.
Qed.

Lemma da_append_all_abort (realloc_ok : Z -> bool) (vs : list Z) :
  forall (p : pkt3_packets_t) (msg : string),
  da_append_all realloc_ok p vs = Abort msg -> msg = realloc_msg.
Proof.
  induction vs as [|v vs IH]; intros p msg; simpl.
  - discriminate.
  - destruct (da_append realloc_ok p v) as [p1| m |] eqn:E1.
    + apply IH.
    + intros [= <-]. exact (da_append_abort _ _ _ _ E1).
    + discriminate.
Qed.

(** Each builder is a run of appends, after its assertion if it has one. *)
Ltac unfold_appends :=
  cbv beta iota zeta delta [mbind outcome_bind Util.bind da_append_all];
  repeat match goal with
         | |- context [da_append ?ok ?p ?v] =>
             destruct (da_append ok p v); try reflexivity
         end.

Lemma pkt3_acquire_mem_unfold (realloc_ok : Z -> bool) (p : pkt3_packets_t) :
  pkt3_acquire_mem realloc_ok p = da_append_all realloc_ok p acquire_mem_words.
Proof. unfold pkt3_acquire_mem, acquire_mem_words. unfold_appends. Qed.

Lemma pkt3_release_mem_unfold (realloc_ok : Z -> bool) (p : pkt3_packets_t)
    (va fence_value : Z) :
  pkt3_release_mem realloc_ok p va fence_value
  = da_append_all realloc_ok p (release_mem_words va fence_value).
Proof. unfold pkt3_release_mem, release_mem_words. unfold_appends. Qed.

Lemma pkt3_set_sh_reg_unfold (realloc_ok : Z -> bool) (p : pkt3_packets_t)
    (reg value : Z) :
  pkt3_set_sh_reg realloc_ok p reg value
  = (_ ← HDB_ASSERT ((SI_SH_REG_OFFSET <=? reg) && (reg <? SI_SH_REG_END))
          sh_reg_range_msg;
     da_append_all realloc_ok p (set_sh_reg_words reg value)).
Proof.
  unfold pkt3_set_sh_reg, set_sh_reg_words.
  destruct (HDB_ASSERT _ _); try reflexivity. unfold_appends.
Qed.

Lemma range_msg_not_realloc : sh_reg_range_msg <> realloc_msg.
Proof. discriminate. Qed.

Lemma set_sh_reg_outside (realloc_ok : Z -> bool) (p : pkt3_packets_t)
    (reg v : Z) :
  ~ (0x2C00 <= reg < 0x3000) ->
  pkt3_set_sh_reg realloc_ok p reg v = Abort sh_reg_range_msg.
Proof.
  intros Hout. unfold pkt3_set_sh_reg, SI_SH_REG_OFFSET, SI_SH_REG_END.
  destruct (Z.leb_spec 0x2C00 reg), (Z.ltb_spec reg 0x3000);
    try reflexivity; lia.
Qed.

Lemma set_sh_reg_inside (realloc_ok : Z -> bool) (p : pkt3_packets_t)
    (reg v : Z) :
  0x2C00 <= reg < 0x3000 ->
  pkt3_set_sh_reg realloc_ok p reg v
  = da_append_all realloc_ok p (set_sh_reg_words reg v).
Proof.
  intros Hin. rewrite pkt3_set_sh_reg_unfold.
  unfold SI_SH_REG_OFFSET, SI_SH_REG_END.
  destruct (Z.leb_spec 0x2C00 reg), (Z.ltb_spec reg 0x3000);
    try reflexivity; lia.
Qed.

(** On a granting allocator the acquire barrier goes through. *)
Lemma pkt3_acquire_mem_done (realloc_ok : Z -> bool) (p : pkt3_packets_t) :
  granting realloc_ok -> fits 7 p ->
  exists p', pkt3_acquire_mem realloc_ok p = Done p' /\
             words p' = words p ++ acquire_mem_words /\
             count p' = count p + 7.
Proof.
  intros Hg Hf. rewrite pkt3_acquire_mem_unfold.
  destruct (da_append_all_ok realloc_ok acquire_mem_words p 0 Hg)
    as (p' & E & W & C & _); [exact Hf | lia |].
  exists p'. repeat split; assumption.
Qed.

(* ===================================================================== *)
(** * The packet encoder (claims C1 to C6) *)
(* ===================================================================== *)

(** Or-ing [b] onto [a] changes nothing exactly when every bit of [b]
    is a bit of [a]. *)
Lemma lor_absorbs (a b : Z) : Z.lor a b = a <-> Z.land b a = b.
Proof.
  split; intros E; apply Z.bits_inj'; intros i _;
    apply (f_equal (fun x => Z.testbit x i)) in E;
    rewrite ?Z.lor_spec, ?Z.land_spec in *;
    destruct (Z.testbit a i), (Z.testbit b i); simpl in *; congruence.
Qed.

(** Claim C1, as amended.  For every opcode [o] below 256, every count [c]
    below 16384 and every predicate [p] in {0,1}, the fields read back from
    the header [PKT3 o c p] are: bits 8 to 15, [o] or-ed with bits 8 to 13
    of [c]; bits 0 to 13, [c] or-ed with the low six bits of [o] moved to
    bits 8 to 13; bit 31, always 1.  So the opcode comes back when
    [c < 256], the count when the low six bits of [o] are 0, and the
    predicate when it is 1.  Exactly: the opcode comes back if and only
    if every bit set among bits 8 to 13 of [c] is set in [o]; the count,
    if and only if every bit set among the low six of [o], moved up by
    eight, is set in [c]; the predicate, if and only if it is 1. *)
Theorem pkt3_header_decode (o c p : Z) :
  0 <= o < 256 -> 0 <= c < 16384 -> p = 0 \/ p = 1 ->
  header_bits 8 15 (PKT3 o c p) = Z.lor o (Z.shiftr c 8) /\
  header_bits 0 13 (PKT3 o c p) = Z.lor c (Z.shiftl (Z.land o 0x3F) 8) /\
  header_bits 31 31 (PKT3 o c p) = 1 /\
  (c < 256 -> header_bits 8 15 (PKT3 o c p) = o) /\
  (Z.land o 0x3F = 0 -> header_bits 0 13 (PKT3 o c p) = c) /\
  (p = 1 -> header_bits 31 31 (PKT3 o c p) = p) /\
  (header_bits 8 15 (PKT3 o c p) = o <->
   Z.land (Z.shiftr c 8) o = Z.shiftr c 8) /\
  (header_bits 0 13 (PKT3 o c p) = c <->
   Z.land (Z.shiftl (Z.land o 0x3F) 8) c = Z.shiftl (Z.land o 0x3F) 8) /\
  (header_bits 31 31 (PKT3 o c p) = p <-> p = 1).
Proof.
  intros Ho Hc Hp.
  pose proof (header_bits_8_15 o c p Ho Hc Hp) as H1.
  pose proof (header_bits_0_13 o c p Ho Hc Hp) as H2.
  pose proof (header_bits_31 o c p Hp) as H3.
  split; [exact H1|]. split; [exact H2|]. split; [exact H3|].
  split; [|split; [|split; [|split; [|split]]]].
  - intros Hc8. rewrite H1, Z.shiftr_div_pow2, Z.div_small, Z.lor_0_r by lia.
    reflexivity.
  - intros Ho6. rewrite H2, Ho6, Z.shiftl_0_l, Z.lor_0_r. reflexivity.
  - intros ->. exact H3.
  - rewrite H1. apply lor_absorbs.
  - rewrite H2. apply lor_absorbs.
  - rewrite H3. split; intros E; [symmetry; exact E | rewrite E; reflexivity].
Qed.

(** The header of the acquire barrier with the predicate set: the opcode
    comes back, the count does not.  The header with opcode 0xFF and
    count 0x100: the count is not below 256, and the opcode comes back
    all the same. *)
Lemma pkt3_header_decode_witness :
  header_bits 8 15 (PKT3 0x58 5 1) = 0x58 /\
  header_bits 0 13 (PKT3 0x58 5 1) = 0x1805 /\
  header_bits 31 31 (PKT3 0x58 5 1) = 1 /\
  header_bits 0 13 (PKT3 0x58 5 1) <> 5 /\
  header_bits 8 15 (PKT3 0xFF 0x100 0) = 0xFF.
Proof.
  destruct (pkt3_header_decode 0x58 5 1)
    as (H1 & H2 & H3 & _ & _ & _ & _ & Hcount & _);
    [lia | lia | right; reflexivity |].
  destruct (pkt3_header_decode 0xFF 0x100 0)
    as (_ & _ & _ & _ & _ & _ & Hop & _);
    [lia | lia | left; reflexivity |].
  split; [exact H1|]. split; [exact H2|]. split; [exact H3|]. split.
  - intros E. apply Hcount in E. discriminate E.
  - apply Hop. reflexivity.
Defined.

(** Claim C1 as stated fails on the header [pkt3_set_sh_reg] itself
    builds: opcode 0x76, count 1, predicate 0 reads back as count 0x3601
    and predicate 1. *)
Lemma pkt3_header_roundtrip_fails :
  ~ (header_bits 8 15 (PKT3 0x76 1 0) = 0x76 /\
     header_bits 0 13 (PKT3 0x76 1 0) = 1 /\
     header_bits 31 31 (PKT3 0x76 1 0) = 0).
Proof. vm_compute. intros (_ & H & _). discriminate H. Qed.

(** Claim C2, on the code.  On a granting allocator [pkt3_acquire_mem]
    appends seven dwords, the header built with count 5 and six more, and
    leaves the dwords already in the array as they were. *)
Theorem pkt3_acquire_mem_appends (realloc_ok : Z -> bool) (p : pkt3_packets_t) :
  granting realloc_ok -> fits 7 p ->
  exists p', pkt3_acquire_mem realloc_ok p = Done p' /\
             words p' = words p ++ [0xC0005805; 0x1B; 0xFFFFFFFF; 0xFF; 0; 0; 0] /\
             length (words p') = (length (words p) + 7)%nat /\
             count p' = count p + 7.
Proof.
  intros Hg Hf.
  destruct (pkt3_acquire_mem_done realloc_ok p Hg Hf) as (p' & E & W & C).
  exists p'. split; [exact E|]. split; [exact W|]. split; [|exact C].
  rewrite W, length_app. reflexivity.
Qed.

Lemma pkt3_acquire_mem_appends_witness :
  exists p', pkt3_acquire_mem (fun _ => true) pkt3_init = Done p' /\
             words p' = [0xC0005805; 0x1B; 0xFFFFFFFF; 0xFF; 0; 0; 0] /\
             length (words p') = 7%nat.
Proof.
  destruct (pkt3_acquire_mem_appends (fun _ => true) pkt3_init)
    as (p' & E & W & L & _).
  - intros bytes. reflexivity.
  - unfold fits. simpl. lia.
  - exists p'. split; [exact E | split; [exact W | exact L]].
Defined.

(** Claim C3, on the code.  On a granting allocator [pkt3_release_mem]
    appends eight dwords: the header built with count 6, then the event
    control, the data selector, the low and the high half of [va], the
    fence value and two zero dwords, seven in all after the header. *)
Theorem pkt3_release_mem_appends (realloc_ok : Z -> bool) (p : pkt3_packets_t)
    (va v : Z) :
  granting realloc_ok -> fits 8 p -> 0 <= va < 2 ^ 64 ->
  exists p', pkt3_release_mem realloc_ok p va v = Done p' /\
             words p' = words p ++ [0xC0004906; 0x2E05; 1;
                                    va mod 2 ^ 32; va / 2 ^ 32; v; 0; 0] /\
             length (words p') = (length (words p) + 8)%nat /\
             count p' = count p + 8.
Proof.
  intros Hg Hf Hva. rewrite pkt3_release_mem_unfold.
  destruct (da_append_all_ok realloc_ok (release_mem_words va v) p 0 Hg)
    as (p' & E & W & C & _); [exact Hf | lia |].
  exists p'. split; [exact E|].
  assert (Hlo : wrap32 (Z.land va 0xFFFFFFFF) = va mod 2 ^ 32).
  { change 0xFFFFFFFF with (Z.ones 32). rewrite Z.land_ones by lia.
    unfold wrap32. apply Z.mod_mod. lia. }
  assert (Hhi : wrap32 (Z.shiftr va 32) = va / 2 ^ 32).
  { rewrite Z.shiftr_div_pow2 by lia. unfold wrap32. apply Z.mod_small.
    split; [apply Z.div_pos; lia|].
    apply Z.div_lt_upper_bound; [lia|]. change (2 ^ 32 * 2 ^ 32) with (2 ^ 64).
    lia. }
  split; [|split; [|exact C]].
  - rewrite W. unfold release_mem_words. rewrite Hlo, Hhi. reflexivity.
  - rewrite W, length_app. reflexivity.
Qed.

Lemma pkt3_release_mem_appends_witness :
  exists p', pkt3_release_mem (fun _ => true) pkt3_init 0x123456789ABC 77
             = Done p' /\
             words p' = [0xC0004906; 0x2E05; 1; 0x56789ABC; 0x1234; 77; 0; 0] /\
             length (words p') = 8%nat.
Proof.
  destruct (pkt3_release_mem_appends (fun _ => true) pkt3_init
              0x123456789ABC 77) as (p' & E & W & L & _).
  - intros bytes. reflexivity.
  - unfold fits. simpl. lia.
  - lia.
  - exists p'. split; [exact E | split; [exact W | exact L]].
Defined.

(** Claim C4, on the code.  [pkt3_set_sh_reg] aborts on the register
    offset 0xB848, whatever the array, the allocator and the value: the
    offset is above the window the assertion checks. *)
Theorem pkt3_set_sh_reg_rsrc1_faults (realloc_ok : Z -> bool)
    (p : pkt3_packets_t) (v : Z) :
  pkt3_set_sh_reg realloc_ok p R_00B848_COMPUTE_PGM_RSRC1 v
  = Abort sh_reg_range_msg.
Proof. apply set_sh_reg_outside. unfold R_00B848_COMPUTE_PGM_RSRC1. lia. Qed.

(** Claim C5.  [pkt3_set_sh_reg] aborts on its range assertion exactly
    when the offset is outside [0x2C00, 0x3000): it does at 0x2BFF and at
    0x3000, it does not at 0x2C00 nor at 0x2FFF; inside the window, on a
    granting allocator, it appends the header, the dword offset from the
    window base and the value. *)
Theorem pkt3_set_sh_reg_fault_window (realloc_ok : Z -> bool)
    (p : pkt3_packets_t) (reg v : Z) :
  (pkt3_set_sh_reg realloc_ok p reg v = Abort sh_reg_range_msg
   <-> ~ (0x2C00 <= reg < 0x3000)) /\
  pkt3_set_sh_reg realloc_ok p 0x2BFF v = Abort sh_reg_range_msg /\
  pkt3_set_sh_reg realloc_ok p 0x3000 v = Abort sh_reg_range_msg /\
  pkt3_set_sh_reg realloc_ok p 0x2C00 v <> Abort sh_reg_range_msg /\
  pkt3_set_sh_reg realloc_ok p 0x2FFF v <> Abort sh_reg_range_msg /\
  (granting realloc_ok -> fits 3 p -> 0x2C00 <= reg < 0x3000 ->
   exists p', pkt3_set_sh_reg realloc_ok p reg v = Done p' /\
              words p' = words p ++ [PKT3 PKT3_SET_SH_REG 1 0;
                                     (reg - 0x2C00) / 4; v]).
Proof.
  assert (Hin : forall r, 0x2C00 <= r < 0x3000 ->
            pkt3_set_sh_reg realloc_ok p r v <> Abort sh_reg_range_msg).
  { intros r Hr E. rewrite set_sh_reg_inside in E by exact Hr.
    apply da_append_all_abort in E. exact (range_msg_not_realloc E). }
  split; [|split; [|split; [|split; [|split]]]].
  - split.
    + intros E Hr. exact (Hin reg Hr E).
    + apply set_sh_reg_outside.
  - apply set_sh_reg_outside. lia.
  - apply set_sh_reg_outside. lia.
  - apply Hin. lia.
  - apply Hin. lia.
  - intros Hg Hf Hr. rewrite set_sh_reg_inside by exact Hr.
    destruct (da_append_all_ok realloc_ok (set_sh_reg_words reg v) p 0 Hg)
      as (p' & E & W & _); [exact Hf | lia |].
    exists p'. split; [exact E|]. rewrite W. unfold set_sh_reg_words.
    unfold wrap32, SI_SH_REG_OFFSET. rewrite Z.mod_small by lia. reflexivity.
Qed.

(** Claim C6, on the code.  [build_compute_dispatch] never returns: on a
    misaligned address it aborts on the alignment assertion, and on an
    aligned one, once the acquire barrier is appended, on the range
    assertion of the first register write, the program-address register
    0xB830 lying outside [0x2C00, 0x3000). *)
Theorem build_compute_dispatch_never_succeeds (realloc_ok : Z -> bool)
    (p : pkt3_packets_t)
    (code_va rsrc1 rsrc2 rsrc3 tx ty tz gx gy gz : Z) :
  (forall p', build_compute_dispatch realloc_ok p code_va rsrc1 rsrc2 rsrc3
                tx ty tz gx gy gz <> Done p') /\
  (Z.land code_va 0xFF <> 0 ->
   build_compute_dispatch realloc_ok p code_va rsrc1 rsrc2 rsrc3
     tx ty tz gx gy gz = Abort code_align_msg) /\
  (Z.land code_va 0xFF = 0 -> granting realloc_ok -> fits 7 p ->
   build_compute_dispatch realloc_ok p code_va rsrc1 rsrc2 rsrc3
     tx ty tz gx gy gz = Abort sh_reg_range_msg).
Proof.
  unfold build_compute_dispatch.
  destruct (Z.eqb_spec (Z.land code_va 0xFF) 0) as [Hal|Hal];
    cbv beta iota zeta delta [mbind outcome_bind Util.bind HDB_ASSERT].
  - destruct (pkt3_acquire_mem realloc_ok p) as [p1|msg|] eqn:E.
    + rewrite (set_sh_reg_outside realloc_ok p1 R_00B830_COMPUTE_PGM_LO)
        by (unfold R_00B830_COMPUTE_PGM_LO; lia).
      split; [discriminate | split; [contradiction | reflexivity]].
    + split; [discriminate | split; [contradiction |]].
      intros _ Hg Hf.
      destruct (pkt3_acquire_mem_done realloc_ok p Hg Hf) as (p' & E' & _).
      rewrite E' in E. discriminate E.
    + split; [discriminate | split; [contradiction |]].
      intros _ Hg Hf.
      destruct (pkt3_acquire_mem_done realloc_ok p Hg Hf) as (p' & E' & _).
      rewrite E' in E. discriminate E.
  - split; [discriminate | split; [reflexivity | contradiction]].
Qed.

(** The compound builder on the empty array and an aligned address. *)
Example build_compute_dispatch_aligned_example :
  build_compute_dispatch (fun _ => true) pkt3_init 0x100 0 0 0 64 1 1 1 1 1
  = Abort sh_reg_range_msg.
Proof. reflexivity. Qed.

(* ===================================================================== *)
(** * Buffer objects (claims C7 to C9) *)
(* ===================================================================== *)

Ltac io_unfold :=
  cbv beta iota zeta delta
    [mbind mret io_mbind io_mret io_bind io_ret io_assert
     amdgpu_bo_alloc amdgpu_bo_export amdgpu_va_range_alloc gem_va_ioctl
     amdgpu_bo_cpu_map memset amdgpu_bo_cpu_unmap amdgpu_va_range_free
     amdgpu_bo_free regs2_ioctl lseek write read
     drm_ioctl_write_read hdb_ioctl].

(** One step of a run: name what the system answers, or split on a
    status. *)
Ltac io_step :=
  match goal with
  | |- context [k_amdgpu_bo_alloc ?K ?t ?d ?r] =>
      destruct (k_amdgpu_bo_alloc K t d r) as [? ?] eqn:?
  | |- context [k_amdgpu_bo_export ?K ?t ?b ?y] =>
      destruct (k_amdgpu_bo_export K t b y) as [? ?] eqn:?
  | |- context [k_amdgpu_va_range_alloc ?K ?t ?d ?y ?s ?a ?b] =>
      destruct (k_amdgpu_va_range_alloc K t d y s a b) as [[? ?] ?] eqn:?
  | |- context [k_gem_va_ioctl ?K ?t ?f ?v] =>
      destruct (k_gem_va_ioctl K t f v) as [? ?] eqn:?
  | |- context [k_amdgpu_bo_cpu_map ?K ?t ?b] =>
      destruct (k_amdgpu_bo_cpu_map K t b) as [? ?] eqn:?
  | |- context [?r =? 0] => destruct (Z.eqb_spec r 0)
  end.

Ltac io_run := io_unfold; repeat (io_step; cbv beta iota zeta delta [negb]).

Ltac forget_answers :=
  repeat match goal with
         | H : k_amdgpu_bo_alloc _ _ _ _ = _ |- _ => clear H
         | H : k_amdgpu_bo_export _ _ _ _ = _ |- _ => clear H
         | H : k_amdgpu_va_range_alloc _ _ _ _ _ _ _ = _ |- _ => clear H
         | H : k_gem_va_ioctl _ _ _ _ = _ |- _ => clear H
         | H : k_amdgpu_bo_cpu_map _ _ _ = _ |- _ => clear H
         end.

Lemma remove_first_head (r : resource) (l : list resource) :
  remove_first r (r :: l) = l.
Proof. simpl. rewrite decide_True by reflexivity. reflexivity. Qed.

(** Evaluate the bookkeeping on a trace whose statuses are known. *)
Ltac acct_simpl :=
  repeat first
    [ progress cbn [outstanding_from acquired released stage_code
                    operation handle va_address andb]
    | rewrite Z.eqb_refl
    | rewrite remove_first_head
    | match goal with
      | H : (?a =? ?b) = false |- context [?a =? ?b] => rewrite H
      | H : ioctl_status ?r ?e = 0 |- context [ioctl_status ?r ?e] => rewrite H
      | H : ?r <> 0 |- context [?r =? 0] => rewrite (proj2 (Z.eqb_neq r 0) H)
      end ].


Section BoProofs.
Context {U : drm_uapi}.
Variable K : kernel.

Lemma outstanding_from_app (held : list resource) (t1 t2 : list event) :
  outstanding_from held (t1 ++ t2)
  = outstanding_from (outstanding_from held t1) t2.
Proof.
  revert held. induction t1 as [|e t1 IH]; intros held; simpl;
    [reflexivity | apply IH].
Qed.

(** [bo_alloc] has no assertion: it always returns. *)
Lemma bo_alloc_total (dev : amdgpu_t) (s domain : Z) (uncached : bool)
    (bo : amdgpu_bo_t) (t : list event) :
  exists ret bo' calls,
    bo_alloc K dev s domain uncached bo t = (Done (ret, bo'), t ++ calls).
Proof.
  unfold bo_alloc.
  match goal with
  | |- context [if ?c then (?a, ?b, ?d) else ?e] =>
      destruct (if c then (a, b, d) else e)
        as [[actual_size alignment] flags] eqn:Hcfg
  end.
  io_run.
  all: rewrite <- ?app_assoc; eauto.
Qed.

(** What a successful [bo_alloc] stores in the size and CPU-pointer
    fields. *)
Lemma bo_alloc_success_fields (dev : amdgpu_t) (s domain : Z)
    (uncached : bool) (bo bo' : amdgpu_bo_t) (t t' : list event) :
  bo_alloc K dev s domain uncached bo t = (Done (0, bo'), t') ->
  (~ special_domain domain -> size bo' = ALIGN_UP s PAGE_SIZE) /\
  (special_domain domain ->
   size bo' = s /\
   (Z.land AMDGPU_GEM_CREATE_NO_CPU_ACCESS
           AMDGPU_GEM_CREATE_CPU_ACCESS_REQUIRED = 0 ->
    host_addr bo' = NULL)).
Proof.
  unfold bo_alloc, special_domain.
  destruct (Z.eqb_spec domain AMDGPU_GEM_DOMAIN_GWS) as [Hw|Hw];
  destruct (Z.eqb_spec domain AMDGPU_GEM_DOMAIN_GDS) as [Hd|Hd];
  destruct (Z.eqb_spec domain AMDGPU_GEM_DOMAIN_OA) as [Ho|Ho];
  cbv beta iota zeta delta [negb andb].
  all: io_run.
  all: intros [= Hret Hbo]; try congruence.
  all: subst bo'; cbn [size host_addr].
  all: split; [intros Hn | intros Hsp].
  all: try (exfalso; apply Hn; tauto).
  all: try (exfalso; tauto).
  all: try reflexivity.
  all: split; [reflexivity|]; intros Hflags; try reflexivity; congruence.
Qed.

(** Claim C7, as amended.  A successful allocation of [s] bytes in a
    domain other than GWS, GDS and OA returns a region whose size is [s]
    rounded up to a multiple of 4096, hence at least [s], as long as
    [s <= 2^64 - 4096]; in one of the three domains the size is [s]
    itself and the CPU pointer is null. *)
Theorem bo_alloc_region_size (dev : amdgpu_t) (s domain : Z)
    (uncached : bool) (bo bo' : amdgpu_bo_t) (t t' : list event) :
  0 <= s < 2 ^ 64 ->
  bo_alloc K dev s domain uncached bo t = (Done (0, bo'), t') ->
  (~ special_domain domain -> s <= 2 ^ 64 - 4096 ->
   size bo' = round_up s 4096 /\ s <= size bo') /\
  (special_domain domain ->
   Z.land AMDGPU_GEM_CREATE_NO_CPU_ACCESS
          AMDGPU_GEM_CREATE_CPU_ACCESS_REQUIRED = 0 ->
   size bo' = s /\ host_addr bo' = NULL).
Proof.
  intros Hs Hrun.
  destruct (bo_alloc_success_fields dev s domain uncached bo bo' t t' Hrun)
    as [Hnormal Hspecial].
  split.
  - intros Hn Hle. rewrite (Hnormal Hn). apply ALIGN_UP_page. lia.
  - intros Hsp Hflags. destruct (Hspecial Hsp) as [Hsz Hhost].
    split; [exact Hsz | exact (Hhost Hflags)].
Qed.


(** Claim C9, as amended.  [bo_free] on a region whose allocation handle
    is not null makes teardown calls only, the last of them
    [amdgpu_bo_free], and leaves the allocation handle, the VA-range
    handle and the CPU pointer null; the kernel-space handle, the
    address and the size keep their values.  A second [bo_free] makes no
    call and changes no field. *)
Theorem bo_free_clears_handles (dev : amdgpu_t) (bo : amdgpu_bo_t)
    (t : list event) :
  bo_handle bo <> NULL ->
  exists bo1 calls,
    bo_free K dev bo t = (Done bo1, t ++ calls) /\
    bo_handle bo1 = NULL /\ va_handle bo1 = NULL /\ host_addr bo1 = NULL /\
    kms_handle bo1 = kms_handle bo /\ va_addr bo1 = va_addr bo /\
    size bo1 = size bo /\
    Forall is_teardown calls /\
    last calls = Some (Ev_amdgpu_bo_free (bo_handle bo)) /\
    forall t2, bo_free K dev bo1 t2 = (Done bo1, t2).
Proof.
  intros Hlive. unfold bo_free, NULL in *.
  destruct (Z.eqb_spec (bo_handle bo) 0) as [E|_]; [contradiction|].
  destruct (Z.eqb_spec (host_addr bo) 0) as [Hh|Hh];
  destruct (Z.eqb_spec (va_handle bo) 0) as [Hv|Hv];
  io_unfold; cbv beta iota zeta delta [negb];
  cbn [bo_handle va_handle host_addr kms_handle va_addr size];
  try (destruct (Z.eqb_spec (va_handle bo) 0) as [Hv'|Hv'];
       [|try contradiction]);
  try (destruct (Z.eqb_spec (va_handle bo) 0) as [Hv'|Hv'];
       [try contradiction|]);
  cbv beta iota zeta delta [negb];
  repeat (io_step; cbv beta iota zeta delta [negb]).
  all: rewrite <- ?app_assoc; simpl app.
  all: eexists _, _; split; [reflexivity|].
  all: cbn [bo_handle va_handle host_addr kms_handle va_addr size].
  all: repeat (split; [first [reflexivity | assumption]|]).
  all: split; [repeat constructor; unfold is_teardown; acct_simpl;
               eexists; reflexivity|].
  all: split; [reflexivity|].
  all: intros t2; rewrite Z.eqb_refl; reflexivity.
Qed.

End BoProofs.

(** A GTT allocation of 5000 bytes and a GWS allocation of 100 bytes on a
    system where every call succeeds. *)
Lemma bo_alloc_region_size_witness :
  (exists bo' t',
     bo_alloc (U := linux_uapi) happy_kernel dev0 5000 0x2 false bo0 []
     = (Done (0, bo'), t') /\
     size bo' = 8192 /\ 5000 <= size bo') /\
  (exists bo' t',
     bo_alloc (U := linux_uapi) happy_kernel dev0 100 0x10 false bo0 []
     = (Done (0, bo'), t') /\
     size bo' = 100 /\ host_addr bo' = NULL).
Proof.
  split.
  - eexists _, _. split; [vm_compute; reflexivity|].
    refine (proj1 (bo_alloc_region_size (U := linux_uapi) happy_kernel dev0
                     5000 0x2 false bo0 _ [] _ _ _) _ _).
    + lia.
    + vm_compute. reflexivity.
    + unfold special_domain. simpl. lia.
    + lia.
  - eexists _, _. split; [vm_compute; reflexivity|].
    refine (proj2 (bo_alloc_region_size (U := linux_uapi) happy_kernel dev0
                     100 0x10 false bo0 _ [] _ _ _) _ _).
    + lia.
    + vm_compute. reflexivity.
    + unfold special_domain. simpl. lia.
    + reflexivity.
Defined.

(** Claim C7 as stated fails for a size within 4095 of the top of
    [size_t]: the rounding wraps, and the region allocated for
    [2^64 - 1] bytes has size 0. *)
Lemma bo_alloc_size_wraps :
  exists bo' t',
    bo_alloc (U := linux_uapi) happy_kernel dev0 (2 ^ 64 - 1) 0x2 false bo0 []
    = (Done (0, bo'), t') /\
    size bo' = 0 /\
    size bo' <> round_up (2 ^ 64 - 1) 4096 /\
    ~ (2 ^ 64 - 1 <= size bo').
Proof.
  eexists _, _. split; [vm_compute; reflexivity|]. vm_compute.
  repeat split; intros H; discriminate H || (apply H; reflexivity).
Qed.


(** Releasing a region with all its handles set, twice. *)
Lemma bo_free_clears_handles_witness :
  exists bo1 calls,
    bo_free (U := linux_uapi) happy_kernel dev0
      {| bo_handle := 0x1000; va_handle := 0x2000; va_addr := 0x800000000;
         host_addr := 0x7F0000000000; size := 4096; kms_handle := 7 |} []
    = (Done bo1, calls) /\
    bo_handle bo1 = NULL /\ va_handle bo1 = NULL /\ host_addr bo1 = NULL /\
    kms_handle bo1 = 7 /\
    bo_free (U := linux_uapi) happy_kernel dev0 bo1 calls = (Done bo1, calls).
Proof.
  destruct (bo_free_clears_handles (U := linux_uapi) happy_kernel dev0
              {| bo_handle := 0x1000; va_handle := 0x2000;
                 va_addr := 0x800000000; host_addr := 0x7F0000000000;
                 size := 4096; kms_handle := 7 |} [])
    as (bo1 & calls & Hrun & Hb & Hv & Hh & Hk & _ & _ & _ & _ & Hagain).
  - unfold NULL. simpl. lia.
  - exists bo1, calls. repeat split; try assumption. apply Hagain.
Defined.

(** Claim C9 as stated fails on the kernel-space handle: a region
    allocated with handle 7 still has it after [bo_free]. *)
Lemma bo_free_keeps_kms_handle :
  exists bo1 t1 bo2 t2,
    bo_alloc (U := linux_uapi) happy_kernel dev0 4096 0x2 false bo0 []
    = (Done (0, bo1), t1) /\
    bo_free (U := linux_uapi) happy_kernel dev0 bo1 t1 = (Done bo2, t2) /\
    kms_handle bo2 = 7 /\
    ~ (bo_handle bo2 = NULL /\ va_handle bo2 = NULL /\ host_addr bo2 = NULL /\
       kms_handle bo2 = 0).
Proof.
  eexists _, _, _, _.
  split; [vm_compute; reflexivity|].
  split; [vm_compute; reflexivity|].
  split; [reflexivity|].
  simpl. intros (_ & _ & _ & H). discriminate H.
Qed.

(* ===================================================================== *)
(** * The trap handler (claim C10) *)
(* ===================================================================== *)

Lemma write_targets_from_app (cur : option Z) (t1 t2 : list event) :
  write_targets_from cur (t1 ++ t2)
  = write_targets_from cur t1 ++ write_targets_from (last_filter cur t1) t2.
Proof.
  revert cur. induction t1 as [|e t1 IH]; intros cur; [reflexivity|].
  destruct e; simpl; rewrite ?IH; reflexivity.
Qed.

Lemma targets_users_ret {A} (a : A) : targets_users (mret a).
Proof.
  intros t. exists (Done a), []. rewrite app_nil_r.
  split; [reflexivity|]. intros cur. constructor.
Qed.

Lemma targets_users_bind {A B} (m : io A) (f : A -> io B) :
  targets_users m -> (forall a, targets_users (f a)) ->
  targets_users (m ≫= f).
Proof.
  intros Hm Hf t. destruct (Hm t) as (res & c1 & E1 & S1).
  unfold mbind, io_mbind, io_bind. rewrite E1.
  destruct res as [a|msg|].
  - destruct (Hf a (t ++ c1)) as (res2 & c2 & E2 & S2).
    exists res2, (c1 ++ c2). rewrite E2, app_assoc. split; [reflexivity|].
    intros cur. rewrite write_targets_from_app. apply Forall_app.
    split; [apply S1 | apply S2].
  - exists (Abort msg), c1. split; [reflexivity | exact S1].
  - exists Undefined, c1. split; [reflexivity | exact S1].
Qed.

Lemma writes_exactly_ret {A} (a : A) : writes_exactly (mret a) [].
Proof.
  intros t. exists a, []. rewrite app_nil_r. split; [reflexivity|].
  intros vmid pos rest. exists vmid, pos. reflexivity.
Qed.

Lemma writes_exactly_bind {A B} (m : io A) (f : A -> io B)
    (ws1 ws2 : list reg_write) :
  writes_exactly m ws1 -> (forall a, writes_exactly (f a) ws2) ->
  writes_exactly (m ≫= f) (ws1 ++ ws2).
Proof.
  intros Hm Hf t. destruct (Hm t) as (a & c1 & E1 & W1).
  destruct (Hf a (t ++ c1)) as (b & c2 & E2 & W2).
  exists b, (c1 ++ c2). unfold mbind, io_mbind, io_bind.
  rewrite E1, E2, app_assoc. split; [reflexivity|].
  intros vmid pos rest. rewrite <- app_assoc.
  destruct (W1 vmid pos (c2 ++ rest)) as (vmid1 & pos1 & R1).
  destruct (W2 vmid1 pos1 rest) as (vmid2 & pos2 & R2).
  exists vmid2, pos2. rewrite R1, R2, app_assoc. reflexivity.
Qed.

Section RegsSafety.
Variable K : kernel.

(** Whatever the system answers, the one [write] of a register access
  comes after the filter for the context it was asked for. *)
Lemma dev_op_reg32_targets (dev : amdgpu_t) (reg : gc_11_reg_t)
  (ioc : regs2_ioc_data_t) (v : option Z) :
1 <= srbm_vmid ioc <= 8 ->
targets_users (dev_op_reg32 K dev reg ioc REG_OP_WRITE v).
Proof.
intros Hv t. unfold dev_op_reg32. io_unfold.
unfold HDB_ASSERT.
destruct (0 <=? regs2_fd dev);
  [|eexists _, []; rewrite app_nil_r; split; [reflexivity|constructor]].
destruct (reg_value reg <? reg_value REG_MAX);
  [|eexists _, []; rewrite app_nil_r; split; [reflexivity|constructor]].
destruct (match v with Some _ => true | None => false end);
  [|eexists _, []; rewrite app_nil_r; split; [reflexivity|constructor]].
match goal with
| |- context [k_regs2_ioctl ?K ?t ?f ?i] =>
    destruct (k_regs2_ioctl K t f i) as [r e]
end.
destruct (ioctl_status r e =? 0);
  [|eexists _, [_]; split; [reflexivity|]; intros cur; constructor].
match goal with
| |- context [k_lseek ?K ?t ?f ?o] =>
    destruct (k_lseek K t f o =? o);
    [|eexists _, [_; _]; rewrite <- !app_assoc; split; [reflexivity|];
      intros cur; constructor]
end.
match goal with
| |- context [k_write ?K ?t ?f ?x ?n] => destruct (k_write K t f x n =? 4)
end.
all: eexists _, [_; _; _]; rewrite <- !app_assoc; split; [reflexivity|].
all: intros cur; simpl; repeat constructor; exists (srbm_vmid ioc); auto.
Qed.

Lemma for_steps_targets (body : Z -> io unit) (n : nat) :
forall var, 1 <= var -> var + Z.of_nat n <= 9 ->
(forall i, 1 <= i <= 8 -> targets_users (body i)) ->
targets_users (for_steps n var body).
Proof.
induction n as [|n IH]; intros var Hlo Hhi Hbody; simpl.
- apply targets_users_ret.
- apply targets_users_bind; [apply Hbody; lia|].
  intros _. unfold wrap64. rewrite Z.mod_small by lia.
  apply IH; [lia | lia | exact Hbody].
Qed.

Lemma dev_setup_trap_handler_targets (dev : amdgpu_t) (tba tma : Z) :
targets_users (dev_setup_trap_handler K dev tba tma).
Proof.
unfold dev_setup_trap_handler.
apply targets_users_bind.
- intros t. eexists _, []. rewrite app_nil_r.
  split; [reflexivity | constructor].
- intros _. unfold for_range. apply for_steps_targets; [lia | simpl; lia |].
  intros i Hi.
  assert (Hw : wrap32 i = i) by (unfold wrap32; apply Z.mod_small; lia).
  repeat (apply targets_users_bind;
          [apply dev_op_reg32_targets; simpl; rewrite Hw; exact Hi
          |intros _]).
  apply targets_users_ret.
Qed.

End RegsSafety.

Section RegsRuns.
Variable K : kernel.
Hypothesis HK : obliging K.
Variable dev : amdgpu_t.
Hypothesis Hfd : 0 <= regs2_fd dev.

(** On an obliging system a register write is the three calls, and one
  dword reaches the register file. *)
Lemma dev_op_reg32_write_run (reg : gc_11_reg_t) (ioc : regs2_ioc_data_t)
  (v : Z) :
reg <> REG_MAX ->
writes_exactly (dev_op_reg32 K dev reg ioc REG_OP_WRITE (Some v))
  [ {| rw_vmid := srbm_vmid ioc;
       rw_offset :=
         reg_position dev (nth (Z.to_nat (reg_value reg))
                               gc_11_regs_offsets 0);
       rw_value := v |} ].
Proof.
intros Hreg t. destruct HK as (Hioctl & Hseek & Hwrite).
unfold dev_op_reg32. io_unfold. unfold HDB_ASSERT.
destruct (Z.leb_spec 0 (regs2_fd dev)) as [_|]; [|lia].
assert (Hr : (reg_value reg <? reg_value REG_MAX) = true)
  by (destruct reg; try reflexivity; contradiction).
rewrite Hr. cbn [default].
assert (Hinfo : nth (Z.to_nat (reg_value reg)) gc_11_regs_infos
                    {| soc_index := 0; type := REG_MMIO |}
                = {| soc_index := 0; type := REG_MMIO |})
  by (destruct reg; reflexivity).
rewrite Hinfo. cbn [soc_index type].
match goal with
| |- context [k_regs2_ioctl ?K ?t ?f ?i] =>
    pose proof (Hioctl t f i) as Hst;
    destruct (k_regs2_ioctl K t f i) as [r e]
end.
cbn [fst snd] in Hst. rewrite Hst, Hseek, !Z.eqb_refl, Hwrite.
cbn [Z.eqb Pos.eqb]. rewrite <- !app_assoc.
eexists _, _. split; [reflexivity|].
intros vmid pos rest. eexists _, _.
cbn [reg_writes_from app]. rewrite Hst, !Z.eqb_refl.
cbn [Z.eqb Pos.eqb app]. reflexivity.
Qed.

Lemma for_steps_run (body : Z -> io unit) (ws : Z -> list reg_write)
  (n : nat) :
forall var, 0 <= var -> var + Z.of_nat n < 2 ^ 64 ->
(forall i, writes_exactly (body i) (ws i)) ->
writes_exactly (for_steps n var body)
  (concat (map ws (seqZ var (Z.of_nat n)))).
Proof.
induction n as [|n IH]; intros var Hlo Hhi Hbody.
- apply writes_exactly_ret.
- replace (Z.of_nat (S n)) with (Z.succ (Z.of_nat n)) by lia.
  rewrite seqZ_cons by lia. simpl.
  apply writes_exactly_bind; [apply Hbody|].
  intros _. unfold wrap64. rewrite Z.mod_small by lia.
  replace (Z.pred (Z.succ (Z.of_nat n))) with (Z.of_nat n) by lia.
  replace (Z.succ var) with (var + 1) by lia.
  apply IH; [lia | lia | exact Hbody].
Qed.

Lemma dev_setup_trap_handler_run (tba tma : Z) :
Z.land tba 0xFF = 0 ->
writes_exactly (dev_setup_trap_handler K dev tba tma)
  (concat (map (trap_writes_for (nth 0%nat (gc_regs_base_addr dev) 0)
                                tba tma)
               [1; 2; 3; 4; 5; 6; 7; 8])).
Proof.
intros Hal. unfold dev_setup_trap_handler.
change (concat _) with ([] ++ concat (map
  (fun i => trap_writes_for (nth 0%nat (gc_regs_base_addr dev) 0) tba tma
              (wrap32 i)) (seqZ 1 (Z.of_nat 8)))).
apply writes_exactly_bind.
- intros t. unfold io_assert. rewrite Hal. exists tt, [].
  rewrite app_nil_r. split; [reflexivity|].
  intros vmid pos rest. exists vmid, pos. reflexivity.
- intros _. unfold for_range. change (Z.to_nat (9 - 1)) with 8%nat.
  apply for_steps_run; [lia | simpl; lia |].
  intros i. unfold trap_writes_for.
  repeat match goal with
         | |- writes_exactly (dev_op_reg32 _ _ _ _ _ _ ≫= _) (?w :: ?ws) =>
             change (w :: ws) with ([w] ++ ws);
             apply writes_exactly_bind;
             [apply dev_op_reg32_write_run; discriminate | intros _]
         end.
  apply writes_exactly_ret.
Qed.

End RegsRuns.

(** Claim C10.  For a 256-byte-aligned handler address and any scratch
    address, every [write] call [dev_setup_trap_handler] makes, on any
    system and even when it is cut short by an abort, follows a filter
    for one of the execution contexts 1 to 8, never 0; and when the
    register file is open and every call succeeds, it ends normally after
    exactly 32 register writes: for each of the contexts 1 to 8 in turn,
    the handler address low and high and the scratch address low and
    high. *)
Theorem trap_handler_vmids (K : kernel) (dev : amdgpu_t) (tba tma : Z)
    (t : list event) :
  Z.land tba 0xFF = 0 ->
  exists res calls,
    dev_setup_trap_handler K dev tba tma t = (res, t ++ calls) /\
    Forall user_vmid (write_targets calls) /\
    (obliging K -> 0 <= regs2_fd dev ->
     res = Done tt /\
     reg_writes calls
     = concat (map (trap_writes_for (nth 0%nat (gc_regs_base_addr dev) 0)
                                    tba tma)
                   [1; 2; 3; 4; 5; 6; 7; 8]) /\
     length (reg_writes calls) = 32%nat).
Proof.
  intros Hal.
  destruct (dev_setup_trap_handler_targets K dev tba tma t)
    as (res & calls & Hrun & Hsafe).
  exists res, calls. split; [exact Hrun|]. split; [apply Hsafe|].
  intros HK Hfd.
  destruct (dev_setup_trap_handler_run K HK dev Hfd tba tma Hal t)
    as ([] & calls' & Hrun' & Hw).
  rewrite Hrun in Hrun'. injection Hrun' as -> Hc.
  apply app_inv_head in Hc. subst calls'.
  split; [reflexivity|].
  destruct (Hw None None []) as (v' & p' & Hr).
  rewrite app_nil_r in Hr. unfold reg_writes. rewrite Hr.
  cbn [reg_writes_from]. rewrite app_nil_r. split; reflexivity.
Qed.

(** The handler at 0x7F1200 and the scratch buffer at 0x1234_5678_9000 on
    a system where every call succeeds. *)
Lemma trap_handler_vmids_witness :
  exists calls,
    dev_setup_trap_handler happy_kernel dev0 0x7F1200 0x123456789000 []
    = (Done tt, calls) /\
    map rw_vmid (reg_writes calls)
    = [1; 1; 1; 1; 2; 2; 2; 2; 3; 3; 3; 3; 4; 4; 4; 4;
       5; 5; 5; 5; 6; 6; 6; 6; 7; 7; 7; 7; 8; 8; 8; 8] /\
    firstn 4 (reg_writes calls)
    = [ {| rw_vmid := 1; rw_offset := 0xB800; rw_value := 0x7F12 |};
        {| rw_vmid := 1; rw_offset := 0xB804; rw_value := 0x80000000 |};
        {| rw_vmid := 1; rw_offset := 0xB808; rw_value := 0x56789000 |};
        {| rw_vmid := 1; rw_offset := 0xB80C; rw_value := 0x1234 |} ].
Proof.
  destruct (trap_handler_vmids happy_kernel dev0 0x7F1200 0x123456789000 [])
    as (res & calls & Hrun & _ & Hok).
  - reflexivity.
  - destruct Hok as (-> & Hw & _).
    + repeat split; intros; reflexivity.
    + simpl. lia.
    + exists calls. split; [exact Hrun|]. rewrite Hw.
      split; reflexivity.
Defined.

(* ===================================================================== *)
(** * More on the packet array, the buffer objects and the registers *)
(* ===================================================================== *)

(** [da_append] on an array with room left ([count < capacity]) is a
    store and nothing else: whatever the allocator would answer, it is
    not asked, the append succeeds, the capacity and the block keep
    their size, and the dwords are the old ones followed by the new
    one. *)
Lemma da_append_in_place (realloc_ok : Z -> bool) (p : pkt3_packets_t)
    (v n : Z) :
  fits (n + 1) p -> 0 <= n -> count p < capacity p ->
  exists p', da_append realloc_ok p v = Done p' /\
             words p' = words p ++ [v] /\
             capacity p' = capacity p /\
             length (data p') = length (data p) /\
             fits n p'.
Proof.
  intros (Hlen & Hcnt & Hroom) Hn Hlt. unfold da_append.
  destruct (Z.leb_spec (capacity p) (count p)); [lia|].
  unfold mbind, outcome_bind, Util.bind.
  destruct (Z.leb_spec 0 (count p)); [|lia].
  destruct (Z.ltb_spec (count p) (Z.of_nat (length (data p)))); [|lia]. simpl.
  eexists. split; [reflexivity|].
  destruct (da_append_store (data p) (count p) (capacity p) v n)
    as (Hw & _ & Hf); try lia.
  split; [exact Hw|]. split; [reflexivity|]. split; [|exact Hf].
  simpl. apply length_insert.
Qed.

(** A block of two dwords holding one, with an allocator that always
    fails. *)
Lemma da_append_in_place_witness :
  exists p', da_append (fun _ => false)
               {| data := [7; 0]; count := 1; capacity := 2 |} 9 = Done p' /\
             words p' = [7; 9] /\ capacity p' = 2.
Proof.
  destruct (da_append_in_place (fun _ => false)
              {| data := [7; 0]; count := 1; capacity := 2 |} 9 0)
    as (p' & E & W & C & _).
  - unfold fits. simpl. lia.
  - lia.
  - simpl. lia.
  - exists p'. split; [exact E | split; [exact W | exact C]].
Defined.

(** The capacity after an append, by cases on whether the block was
    full. *)
Lemma da_append_capacity (realloc_ok : Z -> bool) (p p' : pkt3_packets_t)
    (v : Z) :
  da_append realloc_ok p v = Done p' ->
  capacity p' = (if capacity p <=? count p
                 then if capacity p =? 0 then 64 else wrap64 (capacity p * 2)
                 else capacity p).
Proof.
  unfold da_append, HDB_ASSERT, mbind, outcome_bind, Util.bind.
  destruct (capacity p <=? count p).
  - destruct (realloc_ok _); [|discriminate]. cbn [count data capacity].
    destruct (_ && _); [|discriminate]. intros [= <-]. reflexivity.
  - destruct (_ && _); [|discriminate]. intros [= <-]. reflexivity.
Qed.

(** [grown] is kept by an append. *)
Lemma grown_append (realloc_ok : Z -> bool) (p p' : pkt3_packets_t) (v : Z) :
  grown p -> count p + 1 <= 2 ^ 60 ->
  da_append realloc_ok p v = Done p' ->
  grown p' /\ count p' = count p + 1.
Proof.
  intros Hg Hroom E.
  assert (H60 : 2 ^ 60 < 2 ^ 62) by (apply Z.pow_lt_mono_r; lia).
  assert (H62 : 2 ^ 62 * 4 = 2 ^ 64) by reflexivity.
  assert (Hf : fits 1 p).
  { destruct Hg as [(Hd & Hc & Hcap) | (Hlen & Hc & k & Hk & Hcap & Hle & _)].
    - unfold fits. rewrite Hd, Hc, Hcap. simpl. lia.
    - unfold fits. lia. }
  pose proof (da_append_capacity realloc_ok p p' v E) as Hcap'.
  destruct (da_append_cases realloc_ok p v 0 Hf)
    as [(q & Eq & _ & Cq & Fq)|(Ea & _)];
    [lia | | rewrite Ea in E; discriminate E].
  rewrite Eq in E. injection E as <-. split; [|exact Cq].
  right. destruct Fq as (Hlen' & Hcnt' & _).
  pose proof Hf as (_ & Hcp & _).
  split; [exact Hlen'|]. split; [lia|].
  rewrite Cq, Hcap'.
  destruct Hg as [(Hd & Hc & Hcap) | (Hlen & Hc & k & Hk & Hcap & Hle & Hmin)].
  - rewrite Hcap, Hc. exists 0. cbn. lia.
  - destruct (Z.leb_spec (capacity p) (count p)) as [Hfull|Hfree].
    + destruct (Z.eqb_spec (capacity p) 0) as [E0|_]; [lia|].
      unfold wrap64. rewrite Z.mod_small by lia.
      exists (k + 1). rewrite Z.pow_add_r by lia. lia.
    + exists k. lia.
Qed.

Lemma grown_append_all (realloc_ok : Z -> bool) (vs : list Z) :
  forall p p', grown p -> count p + Z.of_nat (length vs) <= 2 ^ 60 ->
  da_append_all realloc_ok p vs = Done p' ->
  grown p' /\ count p' = count p + Z.of_nat (length vs).
Proof.
  induction vs as [|v vs IH]; intros p p' Hg Hroom E; simpl in E.
  - injection E as <-. split; [exact Hg | simpl; lia].
  - simpl length in Hroom.
    destruct (da_append realloc_ok p v) as [q| |] eqn:Eq; try discriminate E.
    destruct (grown_append realloc_ok p q v Hg) as [Hq Cq]; [lia | exact Eq |].
    destruct (IH q p' Hq) as [Hp' Cp']; [lia | exact E |].
    split; [exact Hp' | simpl length; lia].
Qed.

(** Growth of the packet array.  After any non-empty run of appends from
    [pkt3_init] that ends normally, with whatever allocator, the array
    holds exactly the dwords appended, in order, and its capacity is the
    first of 64, 128, 256, ... that holds them: 64 dwords to start with,
    doubled each time the block is full, never more than needed. *)
Theorem capacity_doubles_from_64 (realloc_ok : Z -> bool) (vs : list Z)
    (p : pkt3_packets_t) :
  vs <> [] -> Z.of_nat (length vs) <= 2 ^ 60 ->
  da_append_all realloc_ok pkt3_init vs = Done p ->
  words p = vs /\ count p = Z.of_nat (length vs) /\
  settled (Z.of_nat (length vs)) (capacity p).
Proof.
  intros Hne Hlen E.
  destruct (grown_append_all realloc_ok vs pkt3_init p) as [Hg Hc];
    [left; repeat split | simpl; lia | exact E |].
  simpl in Hc.
  destruct (da_append_all_cases realloc_ok vs pkt3_init 0) as
    [(q & Eq & Wq & _) | (Ea & _)];
    [unfold fits; simpl; lia | lia | | rewrite Ea in E; discriminate E].
  rewrite Eq in E. injection E as ->.
  split; [exact Wq|]. split; [exact Hc|].
  destruct Hg as [(_ & H0 & _) | (_ & _ & Hs)].
  - destruct vs; [contradiction|]. simpl length in Hc. lia.
  - rewrite Hc in Hs. exact Hs.
Qed.

(** A hundred dwords end in a block of 128. *)
Lemma capacity_doubles_from_64_witness :
  exists p, da_append_all (fun _ => true) pkt3_init (replicate 100 0) = Done p /\
            capacity p = 128 /\ count p = 100.
Proof.
  eexists. split; [vm_compute; reflexivity|].
  destruct (capacity_doubles_from_64 (fun _ => true) (replicate 100 0)
              _ ltac:(discriminate) ltac:(simpl; lia)
              ltac:(vm_compute; reflexivity)) as (_ & Hc & _).
  split; [reflexivity | exact Hc].
Defined.

(** [pkt3_dispatch_direct] is a run of appends. *)
Lemma pkt3_dispatch_direct_unfold (realloc_ok : Z -> bool) (p : pkt3_packets_t)
    (x y z i : Z) :
  pkt3_dispatch_direct realloc_ok p x y z i
  = da_append_all realloc_ok p (dispatch_direct_words x y z i).
Proof. unfold pkt3_dispatch_direct, dispatch_direct_words. unfold_appends. Qed.

Lemma words_length (p : pkt3_packets_t) (n : Z) :
  fits n p -> Z.of_nat (length (words p)) = count p.
Proof.
  intros (Hlen & Hcnt & _). unfold words. rewrite length_take. lia.
Qed.

Lemma da_append_all_appended (realloc_ok : Z -> bool) (p : pkt3_packets_t)
    (ws : list Z) :
  fits (Z.of_nat (length ws)) p ->
  appended p ws (da_append_all realloc_ok p ws).
Proof.
  intros Hf.
  destruct (da_append_all_cases realloc_ok ws p 0)
    as [(p' & E & W & C & F) | (E & _)]; [|lia| |].
  - replace (Z.of_nat (length ws) + 0) with (Z.of_nat (length ws)) by lia.
    exact Hf.
  - left. exists p'. repeat split; try assumption; try apply F.
    rewrite <- W, (words_length p' 0 F). unfold pkt3_size, wrap64.
    destruct F as (_ & Hc & Hr).
    assert (H60 : 2 ^ 60 * 4 < 2 ^ 64) by reflexivity.
    rewrite Z.mod_small by lia. lia.
  - right. exact E.
Qed.

(** The packet builders on an array with room for eight more dwords in
    [size_t] arithmetic.  Each of [pkt3_acquire_mem], [pkt3_release_mem],
    [pkt3_dispatch_direct] and, for a register in the window,
    [pkt3_set_sh_reg] either appends all its dwords behind the old ones,
    leaving an array whose [pkt3_size] is four times the number of
    dwords, or aborts on the allocator's assertion; none stores outside
    the block. *)
Theorem builders_all_or_nothing (realloc_ok : Z -> bool) (p : pkt3_packets_t)
    (va fence reg value x y z i : Z) :
  fits 8 p ->
  appended p acquire_mem_words (pkt3_acquire_mem realloc_ok p) /\
  appended p (release_mem_words va fence)
    (pkt3_release_mem realloc_ok p va fence) /\
  appended p (dispatch_direct_words x y z i)
    (pkt3_dispatch_direct realloc_ok p x y z i) /\
  (0x2C00 <= reg < 0x3000 ->
   appended p (set_sh_reg_words reg value)
     (pkt3_set_sh_reg realloc_ok p reg value)).
Proof.
  intros (Hlen & Hcnt & Hroom).
  assert (Hf : forall n, n <= 8 -> fits n p) by (intros n Hn; unfold fits; lia).
  split; [|split; [|split]].
  - rewrite pkt3_acquire_mem_unfold. apply da_append_all_appended.
    apply Hf. simpl. lia.
  - rewrite pkt3_release_mem_unfold. apply da_append_all_appended.
    apply Hf. simpl. lia.
  - rewrite pkt3_dispatch_direct_unfold. apply da_append_all_appended.
    apply Hf. simpl. lia.
  - intros Hr. rewrite set_sh_reg_inside by exact Hr.
    apply da_append_all_appended. apply Hf. simpl. lia.
Qed.

(** The acquire barrier on the empty array, with an allocator that
    fails. *)
Lemma builders_all_or_nothing_witness :
  appended pkt3_init acquire_mem_words
    (pkt3_acquire_mem (fun _ => false) pkt3_init) /\
  pkt3_acquire_mem (fun _ => false) pkt3_init = Abort realloc_msg.
Proof.
  split; [|reflexivity].
  apply (builders_all_or_nothing (fun _ => false) pkt3_init 0 0 0 0 0 0 0 0).
  unfold fits. simpl. lia.
Defined.

(** [pkt3_dispatch_direct] with an allocator that never fails appends
    five dwords behind the old ones: the header 0xC0001503 (opcode 0x15,
    count 3, compute shader type), then the three grid dimensions and
    the dispatch initiator, in that order. *)
Theorem pkt3_dispatch_direct_appends (realloc_ok : Z -> bool)
    (p : pkt3_packets_t) (x y z i : Z) :
  granting realloc_ok -> fits 5 p ->
  exists p', pkt3_dispatch_direct realloc_ok p x y z i = Done p' /\
             words p' = words p ++ [0xC0001503; x; y; z; i] /\
             count p' = count p + 5.
Proof.
  intros Hg Hf. rewrite pkt3_dispatch_direct_unfold.
  destruct (da_append_all_ok realloc_ok (dispatch_direct_words x y z i) p 0 Hg)
    as (p' & E & W & C & _); [exact Hf | lia |].
  exists p'. split; [exact E|]. split; [exact W | exact C].
Qed.

(** A 4 x 2 x 1 grid on the empty array. *)
Lemma pkt3_dispatch_direct_appends_witness :
  exists p', pkt3_dispatch_direct (fun _ => true) pkt3_init 4 2 1 3 = Done p' /\
             words p' = [0xC0001503; 4; 2; 1; 3].
Proof.
  destruct (pkt3_dispatch_direct_appends (fun _ => true) pkt3_init 4 2 1 3)
    as (p' & E & W & _).
  - intros b. reflexivity.
  - unfold fits. simpl. lia.
  - exists p'. split; [exact E | exact W].
Defined.

(** Turn the answers named in the context into non-null handles. *)
Ltac use_non_null HK :=
  destruct HK as (Hnn_bo & Hnn_va & Hnn_cpu);
  repeat match goal with
         | H : k_amdgpu_bo_alloc ?K ?t ?d ?r = (_, _) |- _ =>
             let N := fresh "Hnn" in
             pose proof (Hnn_bo t d r) as N; rewrite H in N;
             cbn [fst snd] in N; specialize (N eq_refl); clear H
         | H : k_amdgpu_va_range_alloc ?K ?t ?d ?y ?s ?a ?b = (_, _, _) |- _ =>
             let N := fresh "Hnn" in
             pose proof (Hnn_va t d y s a b) as N; rewrite H in N;
             cbn [fst snd] in N; specialize (N eq_refl); clear H
         | H : k_amdgpu_bo_cpu_map ?K ?t ?b = (_, _) |- _ =>
             let N := fresh "Hnn" in
             pose proof (Hnn_cpu t b) as N; rewrite H in N;
             cbn [fst snd] in N; specialize (N eq_refl); clear H
         end.

Section BoMore.
Context {U : drm_uapi}.
Variable K : kernel.

(** Allocation and release balance.  On a system that hands out no null
    handle, a successful [bo_alloc] leaves held exactly the resources of
    the region it returns ([region_resources]): the buffer, its VA
    range, its VA mapping and, when there is one, its CPU mapping.
    [bo_free] on that region then issues one teardown call for each of
    them, in the order CPU mapping, VA mapping, VA range, buffer, and
    what is held afterwards is what was held before the allocation. *)
Theorem bo_alloc_free_round_trip (dev : amdgpu_t) (s domain : Z)
    (uncached : bool) (bo bo1 : amdgpu_bo_t) (t t1 : list event) :
  AMDGPU_VA_OP_MAP <> AMDGPU_VA_OP_UNMAP -> hands_out_non_null K ->
  bo_alloc K dev s domain uncached bo t = (Done (0, bo1), t1) ->
  outstanding t1 = region_resources bo1 ++ outstanding t /\
  exists bo2 calls,
    bo_free K dev bo1 t1 = (Done bo2, t1 ++ calls) /\
    map released calls = map Some (region_resources bo1) /\
    outstanding (t1 ++ calls) = outstanding t.
Proof.
  intros Hops HK.
  assert (Hmu : (AMDGPU_VA_OP_MAP =? AMDGPU_VA_OP_UNMAP) = false)
    by (apply Z.eqb_neq; exact Hops).
  assert (Hum : (AMDGPU_VA_OP_UNMAP =? AMDGPU_VA_OP_MAP) = false)
    by (apply Z.eqb_neq; intros E; apply Hops; symmetry; exact E).
  unfold bo_alloc.
  match goal with
  | |- context [if ?c then (?a, ?b, ?d) else ?e] =>
      destruct (if c then (a, b, d) else e)
        as [[actual_size alignment] flags] eqn:Hcfg
  end.
  io_run.
  all: intros E; inversion E; try congruence.
  all: clear E Hcfg; subst.
  all: use_non_null HK.
  all: unfold bo_free, region_resources, NULL in *;
       cbn [bo_handle va_handle host_addr kms_handle va_addr size].
  all: repeat match goal with
              | H : ?x <> 0 |- context [?x =? 0] =>
                  rewrite (proj2 (Z.eqb_neq x 0) H)
              end.
  all: rewrite ?Z.eqb_refl; cbn [negb app].
  all: split;
    [unfold outstanding; rewrite <- ?app_assoc; simpl app;
     rewrite outstanding_from_app;
     generalize (outstanding_from [] t); intros held; acct_simpl; reflexivity|].
  all: io_unfold; cbn [bo_handle va_handle host_addr kms_handle va_addr size];
       repeat match goal with
              | H : ?x <> 0 |- context [?x =? 0] =>
                  rewrite (proj2 (Z.eqb_neq x 0) H)
              end;
       cbv beta iota zeta delta [negb];
       repeat (io_step; cbv beta iota zeta delta [negb]).
  all: eexists _, _; rewrite <- ?app_assoc; simpl app;
       split; [reflexivity|].
  all: split; [cbn [map]; acct_simpl; reflexivity|].
  all: unfold outstanding; rewrite outstanding_from_app;
       generalize (outstanding_from [] t); intros held; acct_simpl;
       reflexivity.
Qed.

End BoMore.

Lemma lor_land_keeps (a b c d : Z) :
  Z.land (Z.lor (Z.lor a b) c) a = a /\
  Z.land (Z.lor (Z.lor (Z.lor a b) c) d) a = a.
Proof.
  split; apply Z.bits_inj'; intros i Hi;
    rewrite Z.land_spec, !Z.lor_spec;
    destruct (Z.testbit a i), (Z.testbit b i), (Z.testbit c i);
    try destruct (Z.testbit d i); reflexivity.
Qed.

Lemma ALIGN_UP_page_multiple (s : Z) : ALIGN_UP s PAGE_SIZE mod 4096 = 0.
Proof.
  unfold ALIGN_UP. rewrite land_page_mask.
  - apply Z.mod_mul. lia.
  - unfold wrap64. apply Z.mod_pos_bound. lia.
Qed.

Section BoCpu.
Context {U : drm_uapi}.
Variable K : kernel.

(** The CPU's view of a region.  A successful [bo_alloc] in a domain
    other than GWS, GDS and OA returns a region of a whole number of
    pages that has been mapped for the CPU, at the address stored in the
    region, and its last call has zeroed the whole region at that
    address.  In one of the three domains the region has no CPU address
    and no call has mapped or written it. *)
Theorem bo_alloc_cpu_view (dev : amdgpu_t) (s domain : Z) (uncached : bool)
    (bo bo1 : amdgpu_bo_t) (t t1 : list event) :
  bo_alloc K dev s domain uncached bo t = (Done (0, bo1), t1) ->
  exists calls,
    t1 = t ++ calls /\
    (~ special_domain domain -> AMDGPU_GEM_CREATE_CPU_ACCESS_REQUIRED <> 0 ->
     size bo1 mod 4096 = 0 /\
     In (Ev_amdgpu_bo_cpu_map (bo_handle bo1) 0 (host_addr bo1)) calls /\
     last calls = Some (Ev_memset (host_addr bo1) 0 (size bo1))) /\
    (special_domain domain ->
     Z.land AMDGPU_GEM_CREATE_NO_CPU_ACCESS
            AMDGPU_GEM_CREATE_CPU_ACCESS_REQUIRED = 0 ->
     host_addr bo1 = NULL /\
     Forall (fun e => touches_cpu e = false) calls).
Proof.
  unfold bo_alloc, special_domain.
  destruct (Z.eqb_spec domain AMDGPU_GEM_DOMAIN_GWS) as [Hw|Hw];
  destruct (Z.eqb_spec domain AMDGPU_GEM_DOMAIN_GDS) as [Hd|Hd];
  destruct (Z.eqb_spec domain AMDGPU_GEM_DOMAIN_OA) as [Ho|Ho];
  cbv beta iota zeta delta [negb andb].
  all: io_run.
  all: intros E; inversion E; try congruence.
  all: clear E; forget_answers; subst.
  all: rewrite <- ?app_assoc; simpl app.
  all: eexists; split; [reflexivity|].
  all: cbn [size host_addr bo_handle].
  all: split; [intros Hn Hreq | intros Hsp Hflags].
  all: try (exfalso; apply Hn; tauto).
  all: try (exfalso; tauto).
  all: try (exfalso; congruence).
  all: try (split; [reflexivity | repeat constructor]).
  all: try (split; [apply ALIGN_UP_page_multiple|];
            split; [subst; simpl; tauto | reflexivity]).
  all: exfalso; apply Hreq;
    match goal with
    | H : Z.land _ _ = 0 |- _ =>
        rewrite <- H; symmetry;
        try match goal with
            | |- context [if ?c then _ else _] => destruct c
            end;
        first [apply (proj1 (lor_land_keeps _ _ _ 0))
              |apply (proj2 (lor_land_keeps _ _ _ _))]
    end.
Qed.

End BoCpu.

Lemma writes_when_done_ret {A} (a : A) : writes_when_done (mret a) [].
Proof.
  intros t. exists (Done a), []. rewrite app_nil_r. split; [reflexivity|].
  intros _ _ vmid pos rest. exists vmid, pos. reflexivity.
Qed.

Lemma writes_when_done_bind {A B} (m : io A) (f : A -> io B)
    (ws1 ws2 : list reg_write) :
  writes_when_done m ws1 -> (forall a, writes_when_done (f a) ws2) ->
  writes_when_done (m ≫= f) (ws1 ++ ws2).
Proof.
  intros Hm Hf t. destruct (Hm t) as (res & c1 & E1 & W1).
  unfold mbind, io_mbind, io_bind. rewrite E1.
  destruct res as [a|msg|].
  - destruct (Hf a (t ++ c1)) as (res2 & c2 & E2 & W2).
    exists res2, (c1 ++ c2). rewrite E2, app_assoc. split; [reflexivity|].
    intros b Hb vmid pos rest. rewrite <- app_assoc.
    destruct (W1 a eq_refl vmid pos (c2 ++ rest)) as (vmid1 & pos1 & R1).
    destruct (W2 b Hb vmid1 pos1 rest) as (vmid2 & pos2 & R2).
    exists vmid2, pos2. rewrite R1, R2, app_assoc. reflexivity.
  - exists (Abort msg), c1. split; [reflexivity|]. discriminate.
  - exists Undefined, c1. split; [reflexivity|]. discriminate.
Qed.

Section RegsMore.
Variable K : kernel.

(** The contract of one register access. *)
Lemma dev_op_reg32_cases (dev : amdgpu_t) (reg : gc_11_reg_t)
    (ioc : regs2_ioc_data_t) (op : reg_32_op_t) (v : option Z)
    (t : list event) :
  exists res calls,
    dev_op_reg32 K dev reg ioc op v t = (res, t ++ calls) /\
    (regs2_fd dev < 0 \/ reg = REG_MAX \/ v = None ->
     calls = [] /\ exists msg, res = Abort msg) /\
    (op = REG_OP_READ -> Forall (fun e => is_write e = false) calls) /\
    (forall x, res = Done x ->
     exists r e,
       ioctl_status r e = 0 /\
       let fd := regs2_fd dev in
       let pos := reg_position dev (nth (Z.to_nat (reg_value reg))
                                        gc_11_regs_offsets 0) in
       calls = [Ev_regs2_ioctl fd ioc r e; Ev_lseek fd pos pos;
                match op with
                | REG_OP_READ => Ev_read fd 4 4 x
                | REG_OP_WRITE => Ev_write fd x 4 4
                end] /\
       (op = REG_OP_WRITE -> v = Some x)).
Proof.
  unfold dev_op_reg32. io_unfold. unfold HDB_ASSERT.
  destruct (Z.leb_spec 0 (regs2_fd dev)) as [Hfd|Hfd];
    [|eexists _, []; rewrite app_nil_r; split; [reflexivity|];
      repeat split; eauto; try constructor; discriminate].
  destruct (Z.ltb_spec (reg_value reg) (reg_value REG_MAX)) as [Hreg|Hreg];
    [|eexists _, []; rewrite app_nil_r; split; [reflexivity|];
      repeat split; eauto; try constructor; discriminate].
  assert (Hinfo : nth (Z.to_nat (reg_value reg)) gc_11_regs_infos
                      {| soc_index := 0; type := REG_MMIO |}
                  = {| soc_index := 0; type := REG_MMIO |})
    by (destruct reg; reflexivity).
  rewrite Hinfo. cbn [soc_index type].
  destruct v as [v|];
    [|eexists _, []; rewrite app_nil_r; split; [reflexivity|];
      repeat split; eauto; try constructor; discriminate].
  cbn [default].
  assert (Hpre : ~ (regs2_fd dev < 0 \/ reg = REG_MAX \/ Some v = None)).
  { intros [H|[H|H]]; [lia | subst reg; simpl in Hreg; lia | discriminate]. }
  match goal with
  | |- context [k_regs2_ioctl ?K ?t ?f ?i] =>
      destruct (k_regs2_ioctl K t f i) as [r e]
  end.
  destruct (Z.eqb_spec (ioctl_status r e) 0) as [Hst|Hst];
    [|eexists _, [_]; split; [reflexivity|];
      split; [intros H; contradiction|];
      split; [intros _; repeat constructor | discriminate]].
  match goal with
  | |- context [k_lseek ?K ?t ?f ?o] =>
      destruct (Z.eqb_spec (k_lseek K t f o) o) as [Hpos|Hpos];
      [rewrite Hpos
      |eexists _, [_; _]; rewrite <- !app_assoc; split; [reflexivity|];
       split; [intros H; contradiction|];
       split; [intros _; repeat constructor | discriminate]]
  end.
  destruct op.
  - match goal with
    | |- context [k_read ?K ?t ?f ?n] =>
        destruct (k_read K t f n) as [sz x'] eqn:Hrd
    end.
    destruct (Z.eqb_spec sz 4) as [->|Hsz];
      eexists _, [_; _; _]; rewrite <- !app_assoc;
      (split; [reflexivity|]);
      (split; [intros H; contradiction|]);
      (split; [intros _; repeat constructor|]); try discriminate.
    intros x [= <-]. exists r, e. split; [exact Hst|].
    split; [reflexivity | discriminate].
  - match goal with
    | |- context [k_write ?K ?t ?f ?y ?n] =>
        destruct (Z.eqb_spec (k_write K t f y n) 4) as [Hsz|Hsz];
        [rewrite Hsz|]
    end;
      eexists _, [_; _; _]; rewrite <- !app_assoc;
      (split; [reflexivity|]);
      (split; [intros H; contradiction|]);
      (split; [discriminate|]); try discriminate.
    intros x [= <-]. exists r, e. split; [exact Hst|].
    split; reflexivity.
Qed.

Lemma dev_op_reg32_write_when_done (dev : amdgpu_t) (reg : gc_11_reg_t)
    (ioc : regs2_ioc_data_t) (v : Z) :
  writes_when_done (dev_op_reg32 K dev reg ioc REG_OP_WRITE (Some v))
    [ {| rw_vmid := srbm_vmid ioc;
         rw_offset :=
           reg_position dev (nth (Z.to_nat (reg_value reg))
                                 gc_11_regs_offsets 0);
         rw_value := v |} ].
Proof.
  intros t.
  destruct (dev_op_reg32_cases dev reg ioc REG_OP_WRITE (Some v) t)
    as (res & calls & E & _ & _ & Hdone).
  exists res, calls. split; [exact E|].
  intros x Hx vmid pos rest.
  destruct (Hdone x Hx) as (r & e & Hst & Hcalls & Hv).
  specialize (Hv eq_refl). injection Hv as ->.
  cbv zeta in Hcalls. rewrite Hcalls.
  eexists _, _. cbn [reg_writes_from app]. rewrite Hst, !Z.eqb_refl.
  cbn [Z.eqb Pos.eqb app]. reflexivity.
Qed.

Lemma for_steps_when_done (body : Z -> io unit) (ws : Z -> list reg_write)
    (n : nat) :
  forall var, 0 <= var -> var + Z.of_nat n < 2 ^ 64 ->
  (forall i, writes_when_done (body i) (ws i)) ->
  writes_when_done (for_steps n var body)
    (concat (map ws (seqZ var (Z.of_nat n)))).
Proof.
  induction n as [|n IH]; intros var Hlo Hhi Hbody.
  - apply writes_when_done_ret.
  - replace (Z.of_nat (S n)) with (Z.succ (Z.of_nat n)) by lia.
    rewrite seqZ_cons by lia. simpl.
    apply writes_when_done_bind; [apply Hbody|].
    intros _. unfold wrap64. rewrite Z.mod_small by lia.
    replace (Z.pred (Z.succ (Z.of_nat n))) with (Z.of_nat n) by lia.
    replace (Z.succ var) with (var + 1) by lia.
    apply IH; [lia | lia | exact Hbody].
Qed.

Lemma dev_setup_trap_handler_when_done (dev : amdgpu_t) (tba tma : Z) :
  writes_when_done (dev_setup_trap_handler K dev tba tma)
    (concat (map (trap_writes_for (nth 0%nat (gc_regs_base_addr dev) 0)
                                  tba tma)
                 [1; 2; 3; 4; 5; 6; 7; 8])).
Proof.
  unfold dev_setup_trap_handler.
  change (concat _) with ([] ++ concat (map
    (fun i => trap_writes_for (nth 0%nat (gc_regs_base_addr dev) 0) tba tma
                (wrap32 i)) (seqZ 1 (Z.of_nat 8)))).
  apply writes_when_done_bind.
  - intros t. unfold io_assert. eexists _, []. rewrite app_nil_r.
    split; [reflexivity|].
    intros _ _ vmid pos rest. exists vmid, pos. reflexivity.
  - intros _. unfold for_range. change (Z.to_nat (9 - 1)) with 8%nat.
    apply for_steps_when_done; [lia | simpl; lia |].
    intros i. unfold trap_writes_for.
    repeat match goal with
           | |- writes_when_done (dev_op_reg32 _ _ _ _ _ _ ≫= _) (?w :: ?ws) =>
               change (w :: ws) with ([w] ++ ws);
               apply writes_when_done_bind;
               [apply dev_op_reg32_write_when_done | intros _]
           end.
    apply writes_when_done_ret.
Qed.

Lemma trap_handler_done_writes (dev : amdgpu_t) (tba tma : Z)
    (t t' : list event) :
  dev_setup_trap_handler K dev tba tma t = (Done tt, t') ->
  Z.land tba 0xFF = 0 /\ 0 <= regs2_fd dev /\
  exists calls,
    t' = t ++ calls /\
    reg_writes calls
    = concat (map (trap_writes_for (nth 0%nat (gc_regs_base_addr dev) 0)
                                   tba tma)
                  [1; 2; 3; 4; 5; 6; 7; 8]).
Proof.
  intros Hrun.
  destruct (dev_setup_trap_handler_when_done dev tba tma t)
    as (res & calls & E & Hw).
  rewrite Hrun in E. injection E as <- ->.
  split; [|split].
  - revert Hrun. unfold dev_setup_trap_handler.
    unfold mbind at 1. unfold io_mbind, io_bind, io_assert, HDB_ASSERT.
    destruct (Z.eqb_spec (Z.land tba 0xFF) 0); [tauto | discriminate].
  - destruct (Z.le_gt_cases 0 (regs2_fd dev)) as [H|H]; [exact H|].
    exfalso. revert Hrun. unfold dev_setup_trap_handler.
    unfold mbind at 1. unfold io_mbind, io_bind, io_assert, HDB_ASSERT.
    destruct (Z.land tba 0xFF =? 0); [|discriminate].
    unfold for_range. change (Z.to_nat (9 - 1)) with 8%nat.
    cbn [for_steps]. unfold mbind at 1. unfold io_mbind, io_bind.
    unfold mbind at 1. unfold io_mbind, io_bind.
    destruct (dev_op_reg32_cases dev REG_SQ_SHADER_TBA_LO
                (set_srbm_vmid
                   {| use_srbm := 1; use_grbm := 0; pg_lock := 0;
                      grbm_se := 0; grbm_sh := 0; grbm_instance := 0;
                      srbm_me := 0; srbm_pipe := 0; srbm_queue := 0;
                      srbm_vmid := 0; xcc_id := wrap32 (-1) |} (wrap32 1))
                REG_OP_WRITE (Some (wrap32 (Z.shiftr tba 8))) t)
      as (res & c & E & Hpre & _).
    assert (Hneg : regs2_fd dev < 0) by lia.
    destruct (Hpre (or_introl Hneg)) as (-> & msg & ->).
    rewrite E. discriminate.
  - exists calls. split; [reflexivity|].
    destruct (Hw tt eq_refl None None []) as (v' & p' & Hr).
    rewrite app_nil_r in Hr. unfold reg_writes. rewrite Hr.
    cbn [reg_writes_from]. apply app_nil_r.
Qed.

(** [dev_setup_trap_handler] with a handler address that is not
    256-byte aligned, or on a device whose register file is not open,
    aborts before any call: no register is written. *)
Theorem trap_handler_refuses_without_calls (dev : amdgpu_t) (tba tma : Z)
    (t : list event) :
  Z.land tba 0xFF <> 0 \/ regs2_fd dev < 0 ->
  exists msg, dev_setup_trap_handler K dev tba tma t = (Abort msg, t).
Proof.
  intros Hbad. unfold dev_setup_trap_handler.
  unfold mbind at 1. unfold io_mbind, io_bind, io_assert, HDB_ASSERT.
  destruct (Z.eqb_spec (Z.land tba 0xFF) 0) as [Hal|Hal];
    [|eexists; reflexivity].
  destruct Hbad as [Hbad|Hfd]; [contradiction|].
  unfold for_range. change (Z.to_nat (9 - 1)) with 8%nat.
  cbn [for_steps]. unfold mbind at 1. unfold io_mbind, io_bind.
  unfold mbind at 1. unfold io_mbind, io_bind.
  match goal with
  | |- context [dev_op_reg32 K dev ?r ?i ?o ?v t] =>
      destruct (dev_op_reg32_cases dev r i o v t)
        as (res & c & E & Hpre & _)
  end.
  destruct (Hpre (or_introl Hfd)) as (-> & msg & ->).
  rewrite E, app_nil_r. exists msg. reflexivity.
Qed.

End RegsMore.

Lemma trap_enable_bit (a : Z) :
  0 <= a < 2 ^ 31 ->
  Z.testbit (Z.lor a (Z.shiftl 1 31)) 31 = true /\
  Z.land (Z.lor a (Z.shiftl 1 31)) 0x7FFFFFFF = a.
Proof.
  intros Ha. split.
  - rewrite Z.lor_spec, Z.shiftl_spec by lia. simpl Z.testbit at 2.
    apply orb_true_r.
  - apply Z.bits_inj'; intros i Hi.
    change 0x7FFFFFFF with (Z.ones 31).
    rewrite Z.land_spec, Z.lor_spec, Z.shiftl_spec, Z.testbit_ones by lia.
    change 1 with (Z.ones 1) at 1. rewrite Z.testbit_ones by lia.
    destruct (Z.ltb_spec i 31) as [H31|H31].
    + destruct (Z.testbit a i); split_cmp; simpl; try reflexivity; lia.
    + rewrite (high_bits_clear a 31 i) by lia.
      split_cmp; simpl; rewrite ?andb_false_r; reflexivity.
Qed.

Lemma halves_decode (x : Z) :
  0 <= x < 2 ^ 64 ->
  Z.lor (wrap32 x) (Z.shiftl (wrap32 (Z.shiftr x 32)) 32) = x.
Proof.
  intros Hx. unfold wrap32. rewrite <- !Z.land_ones by lia.
  apply Z.bits_inj'; intros i Hi.
  rewrite Z.lor_spec, Z.shiftl_spec, Z.land_spec, Z.testbit_ones by lia.
  destruct (Z.ltb_spec i 32) as [H32|H32].
  - rewrite (Z.testbit_neg_r _ (i - 32)) by lia.
    destruct (Z.testbit x i); split_cmp; simpl; try reflexivity; lia.
  - rewrite Z.land_spec, Z.shiftr_spec, Z.testbit_ones by lia.
    replace (i - 32 + 32) with i by lia.
    destruct (Z.ltb_spec i 64) as [H64|H64].
    + destruct (Z.testbit x i); split_cmp; simpl; try reflexivity; lia.
    + rewrite (high_bits_clear x 64 i) by lia.
      split_cmp; simpl; rewrite ?andb_false_r; reflexivity.
Qed.

Lemma shiftr_bound (x n m : Z) :
  0 <= x < 2 ^ (n + m) -> 0 <= n -> 0 <= m -> 0 <= Z.shiftr x n < 2 ^ m.
Proof.
  intros Hx Hn Hm. rewrite Z.shiftr_div_pow2 by lia.
  split; [apply Z.div_pos; lia|].
  apply Z.div_lt_upper_bound; [lia|]. rewrite <- Z.pow_add_r by lia. lia.
Qed.

Section RegsValues.
Variable K : kernel.

(** The values [dev_setup_trap_handler] writes.  In a run that ends
    normally the same four values go to each of the eight contexts.
    The handler's high word has bit 31, the trap enable, set; the low
    word and the rest of the high word are the address shifted right by
    8 and by 40, so that they give the address back, and for an address
    below 2^48 the high part fits the eight bits, [47:40], that the
    code's comment gives it.
    The two scratch words are the two halves of the scratch address. *)
Theorem trap_handler_values_decode (dev : amdgpu_t) (tba tma : Z)
    (t t' : list event) :
  0 <= tba < 2 ^ 64 -> 0 <= tma < 2 ^ 64 ->
  dev_setup_trap_handler K dev tba tma t = (Done tt, t') ->
  exists calls lo hi tlo thi,
    t' = t ++ calls /\
    map rw_value (reg_writes calls) = concat (replicate 8 [lo; hi; tlo; thi]) /\
    Z.testbit hi 31 = true /\
    Z.lor (Z.shiftl lo 8) (Z.shiftl (Z.land hi 0x7FFFFFFF) 40) = tba /\
    (tba < 2 ^ 48 -> Z.land hi 0x7FFFFFFF < 256) /\
    Z.lor tlo (Z.shiftl thi 32) = tma.
Proof.
  intros Htba Htma Hrun.
  destruct (trap_handler_done_writes K dev tba tma t t' Hrun)
    as (Hal & _ & calls & -> & Hw).
  exists calls, (wrap32 (Z.shiftr tba 8)),
    (Z.lor (wrap32 (Z.shiftr tba 40)) (Z.shiftl 1 31)),
    (wrap32 tma), (wrap32 (Z.shiftr tma 32)).
  split; [reflexivity|]. split; [rewrite Hw; reflexivity|].
  assert (Hhi : 0 <= Z.shiftr tba 40 < 2 ^ 24)
    by (apply shiftr_bound; [exact Htba | lia | lia]).
  assert (Hwhi : wrap32 (Z.shiftr tba 40) = Z.shiftr tba 40)
    by (unfold wrap32; apply Z.mod_small; lia).
  destruct (trap_enable_bit (wrap32 (Z.shiftr tba 40))) as [Hbit Hland];
    [rewrite Hwhi; lia|].
  split; [exact Hbit|]. rewrite Hland.
  split; [apply pgm_split_decodes; assumption|].
  split; [|apply halves_decode; exact Htma].
  intros H48. rewrite Hwhi.
  apply (shiftr_bound tba 40 8); [simpl; lia | lia | lia].
Qed.

End RegsValues.

(** One register access, [dev_op_reg32].  With the register file not
    open, the register out of range or no value given, it aborts before
    any call.  A read never issues a [write].  When it returns [x], it
    has made exactly three calls: the filter ioctl, which succeeded, the
    seek to the register's position, which landed there, and the
    four-byte transfer, which was complete; for a write, [x] is the
    value given. *)
Theorem dev_op_reg32_contract (K : kernel) (dev : amdgpu_t)
    (reg : gc_11_reg_t) (ioc : regs2_ioc_data_t) (op : reg_32_op_t)
    (v : option Z) (t : list event) :
  exists res calls,
    dev_op_reg32 K dev reg ioc op v t = (res, t ++ calls) /\
    (regs2_fd dev < 0 \/ reg = REG_MAX \/ v = None ->
     calls = [] /\ exists msg, res = Abort msg) /\
    (op = REG_OP_READ -> Forall (fun e => is_write e = false) calls) /\
    (forall x, res = Done x ->
     exists r e,
       ioctl_status r e = 0 /\
       let fd := regs2_fd dev in
       let pos := reg_position dev (nth (Z.to_nat (reg_value reg))
                                        gc_11_regs_offsets 0) in
       calls = [Ev_regs2_ioctl fd ioc r e; Ev_lseek fd pos pos;
                match op with
                | REG_OP_READ => Ev_read fd 4 4 x
                | REG_OP_WRITE => Ev_write fd x 4 4
                end] /\
       (op = REG_OP_WRITE -> v = Some x)).
Proof. exact (dev_op_reg32_cases K dev reg ioc op v t). Qed.

(** A run of [dev_setup_trap_handler] that ends normally, on any system
    whatever: the handler address was 256-byte aligned, the register
    file was open, and the 32 register writes were all made, for the
    contexts 1 to 8 in turn.  A short count or a failed call on the way
    never ends in a normal return. *)
Theorem trap_handler_done_means_written (K : kernel) (dev : amdgpu_t)
    (tba tma : Z) (t t' : list event) :
  dev_setup_trap_handler K dev tba tma t = (Done tt, t') ->
  Z.land tba 0xFF = 0 /\ 0 <= regs2_fd dev /\
  exists calls,
    t' = t ++ calls /\
    reg_writes calls
    = concat (map (trap_writes_for (nth 0%nat (gc_regs_base_addr dev) 0)
                                   tba tma)
                  [1; 2; 3; 4; 5; 6; 7; 8]).
Proof. exact (trap_handler_done_writes K dev tba tma t t'). Qed.

(* ===================================================================== *)
(** * The device layer: amdgpu_device.c, debugger_main.c, bo_upload *)
(* ===================================================================== *)

Section BoEffects.
Context {U : drm_uapi}.
Variable K : kernel.
Hypothesis Hops : AMDGPU_VA_OP_MAP <> AMDGPU_VA_OP_UNMAP.
Hypothesis HK : hands_out_non_null K.

(** What [bo_alloc] does to the resources held. *)
Lemma bo_alloc_effect (dev : amdgpu_t) (s domain : Z) (uncached : bool)
    (bo : amdgpu_bo_t) (t : list event) :
  exists ret bo' calls,
    bo_alloc K dev s domain uncached bo t = (Done (ret, bo'), t ++ calls) /\
    ((ret <> 0 /\ bo' = bo /\
      forall held, outstanding_from held calls = held) \/
     (ret = 0 /\ bo_handle bo' <> NULL /\ va_handle bo' <> NULL /\
      (forall held,
         outstanding_from held calls = region_resources bo' ++ held) /\
      (~ special_domain domain ->
       size bo' = ALIGN_UP s PAGE_SIZE /\
       (AMDGPU_GEM_CREATE_CPU_ACCESS_REQUIRED <> 0 ->
        host_addr bo' <> NULL)))).
Proof.
  assert (Hmu : (AMDGPU_VA_OP_MAP =? AMDGPU_VA_OP_UNMAP) = false)
    by (apply Z.eqb_neq; exact Hops).
  assert (Hum : (AMDGPU_VA_OP_UNMAP =? AMDGPU_VA_OP_MAP) = false)
    by (apply Z.eqb_neq; intros E; apply Hops; symmetry; exact E).
  unfold bo_alloc, special_domain.
  destruct (Z.eqb_spec domain AMDGPU_GEM_DOMAIN_GWS) as [Hw|Hw];
  destruct (Z.eqb_spec domain AMDGPU_GEM_DOMAIN_GDS) as [Hd|Hd];
  destruct (Z.eqb_spec domain AMDGPU_GEM_DOMAIN_OA) as [Ho|Ho];
  cbv beta iota zeta delta [negb andb].
  all: io_run.
  all: rewrite <- ?app_assoc; simpl app.
  all: eexists _, _, _; (split; [reflexivity|]).
  all: destruct HK as (Hnn_bo & Hnn_va & Hnn_cpu).
  all: repeat match goal with
         | H : k_amdgpu_bo_alloc ?K ?t ?d ?r = (_, _) |- _ =>
             let N := fresh "Hnn" in
             pose proof (Hnn_bo t d r) as N; rewrite H in N;
             cbn [fst snd] in N;
             first [specialize (N ltac:(assumption)) | clear N]; clear H
         | H : k_amdgpu_va_range_alloc ?K ?t ?d ?y ?s ?a ?b = (_, _, _) |- _ =>
             let N := fresh "Hnn" in
             pose proof (Hnn_va t d y s a b) as N; rewrite H in N;
             cbn [fst snd] in N;
             first [specialize (N ltac:(assumption)) | clear N]; clear H
         | H : k_amdgpu_bo_cpu_map ?K ?t ?b = (_, _) |- _ =>
             let N := fresh "Hnn" in
             pose proof (Hnn_cpu t b) as N; rewrite H in N;
             cbn [fst snd] in N;
             first [specialize (N ltac:(assumption)) | clear N]; clear H
         end.
  all: forget_answers; clear Hnn_bo Hnn_va Hnn_cpu.
  all: try solve [left; split; [assumption|]; split; [reflexivity|];
                  intros held; subst; acct_simpl; reflexivity].
  all: right; split; [reflexivity|].
  all: unfold region_resources, NULL in *;
       cbn [bo_handle va_handle host_addr kms_handle va_addr size].
  all: split; [assumption|]; split; [assumption|].
  all: repeat match goal with
              | H : ?x <> 0 |- context [?x =? 0] =>
                  rewrite (proj2 (Z.eqb_neq x 0) H)
              end.
  all: rewrite ?Z.eqb_refl; cbn [negb app].
  all: split; [intros held; subst; acct_simpl; reflexivity|].
  all: intros Hn.
  all: try (exfalso; apply Hn; tauto).
  all: split; [reflexivity|]; intros Hreq; try assumption.
  all: exfalso; apply Hreq;
    match goal with
    | H : Z.land _ _ = 0 |- _ =>
        rewrite <- H; symmetry;
        try match goal with
            | |- context [if ?c then _ else _] => destruct c
            end;
        first [apply (proj1 (lor_land_keeps _ _ _ 0))
              |apply (proj2 (lor_land_keeps _ _ _ _))]
    end.
Qed.

(** What [bo_free] does to them, for a region with its handles. *)
Lemma bo_free_effect (dev : amdgpu_t) (bo : amdgpu_bo_t) (t : list event) :
  bo_handle bo <> NULL -> va_handle bo <> NULL ->
  exists bo' calls,
    bo_free K dev bo t = (Done bo', t ++ calls) /\
    bo_handle bo' = NULL /\ va_handle bo' = NULL /\ host_addr bo' = NULL /\
    forall held, outstanding_from (region_resources bo ++ held) calls = held.
Proof.
  assert (Hum : (AMDGPU_VA_OP_UNMAP =? AMDGPU_VA_OP_MAP) = false)
    by (apply Z.eqb_neq; intros E; apply Hops; symmetry; exact E).
  intros Hb Hv. unfold bo_free, region_resources, NULL in *.
  rewrite (proj2 (Z.eqb_neq _ 0) Hb).
  destruct (Z.eqb_spec (host_addr bo) 0) as [Hh|Hh];
    cbv beta iota zeta delta [negb];
    io_unfold; cbn [bo_handle va_handle host_addr kms_handle va_addr size];
    rewrite (proj2 (Z.eqb_neq _ 0) Hv);
    cbv beta iota zeta delta [negb];
    repeat (io_step; cbv beta iota zeta delta [negb]).
  all: rewrite <- ?app_assoc; simpl app.
  all: eexists _, _; (split; [reflexivity|]).
  all: cbn [bo_handle va_handle host_addr];
       repeat (split; [first [reflexivity | assumption]|]).
  all: intros held; cbn [app]; acct_simpl; reflexivity.
Qed.

(** A region that [bo_free] has been through is left alone. *)
Lemma bo_free_null (dev : amdgpu_t) (bo : amdgpu_bo_t) (t : list event) :
  bo_handle bo = NULL -> bo_free K dev bo t = (Done bo, t).
Proof.
  intros Hb. unfold bo_free. rewrite Hb. reflexivity.
Qed.

End BoEffects.

(** ** The handle block of [dev_submit] *)

Lemma wrap64_succ (j : nat) :
  Z.of_nat j + 1 < 2 ^ 64 -> wrap64 (Z.of_nat j + 1) = Z.of_nat (S j).
Proof. intros Hj. unfold wrap64. rewrite Z.mod_small by lia. lia. Qed.

(** The copy loop, when it ends: the caller's handles sit behind slot
    [j], and the loop has read and stored within bounds. *)
Lemma fill_handles_done (buffers : list Z) (k : nat) :
  forall (j : nat) (block blk : list Z),
    Z.of_nat j + Z.of_nat k < 2 ^ 64 ->
    fill_handles k (Z.of_nat j) buffers block = Done blk ->
    (k <= length buffers - j)%nat /\
    (k <> 0%nat -> (j + k < length block)%nat) /\
    blk = take (S j) block ++ take k (drop j buffers) ++ drop (S j + k) block.
Proof.
  induction k as [|k IH]; intros j block blk Hj.
  - cbn [fill_handles]. intros [= <-]. split; [lia|]. split.
    + intros E; contradiction.
    + rewrite Nat.add_0_r, take_0. cbn [app]. rewrite take_drop. reflexivity.
  - cbn [fill_handles]. rewrite Nat2Z.id.
    destruct (buffers !! j) as [b|] eqn:Hb; [|discriminate].
    rewrite wrap64_succ by lia.
    destruct (Z.ltb_spec (Z.of_nat (S j)) (Z.of_nat (length block)))
      as [Hlt|Hlt]; [|discriminate].
    rewrite Nat2Z.id. intros Hrun.
    apply IH in Hrun; [|lia].
    destruct Hrun as (Hlen & Hblk & ->).
    rewrite length_insert in Hblk.
    pose proof (lookup_lt_Some _ _ _ Hb) as Hjb.
    split; [lia|].
    split; [intros _; destruct k; [lia | specialize (Hblk ltac:(lia)); lia]|].
    rewrite take_S_insert by lia.
    rewrite drop_insert_lt by lia.
    rewrite (drop_S buffers b j Hb). cbn [take].
    rewrite <- app_assoc. cbn [app].
    replace (S (S j) + k)%nat with (S j + S k)%nat by lia.
    reflexivity.
Qed.

(** The copy loop ends when the caller's array and the block are long
    enough. *)
Lemma fill_handles_runs (buffers : list Z) (k : nat) :
  forall (j : nat) (block : list Z),
    Z.of_nat j + Z.of_nat k < 2 ^ 64 ->
    (j + k <= length buffers)%nat -> (j + k < length block)%nat ->
    exists blk, fill_handles k (Z.of_nat j) buffers block = Done blk.
Proof.
  induction k as [|k IH]; intros j block Hj Hb Hl.
  - eexists. reflexivity.
  - cbn [fill_handles]. rewrite Nat2Z.id.
    destruct (lookup_lt_is_Some_2 buffers j ltac:(lia)) as [b Hbj].
    rewrite Hbj, wrap64_succ by lia.
    destruct (Z.ltb_spec (Z.of_nat (S j)) (Z.of_nat (length block)))
      as [Hlt|Hlt]; [|lia].
    rewrite Nat2Z.id. apply IH; rewrite ?length_insert; lia.
Qed.

(** The block [dev_submit] hands to [amdgpu_bo_list_create]: the
    indirect buffer first, then the caller's handles in order. *)
Lemma handle_block (buffers : list Z) (n ib_handle : Z) (blk : list Z) :
  0 <= n -> n + 1 < 2 ^ 32 ->
  fill_handles (Z.to_nat n) 0 buffers
    (<[0%nat := ib_handle]> (replicate (Z.to_nat (n + 1)) 0)) = Done blk ->
  (Z.to_nat n <= length buffers)%nat /\
  take (Z.to_nat (n + 1)) blk = ib_handle :: take (Z.to_nat n) buffers.
Proof.
  intros Hn Hn1 Hrun.
  apply (fill_handles_done buffers (Z.to_nat n) 0) in Hrun; [|lia].
  destruct Hrun as (Hlen & _ & ->).
  split; [lia|].
  replace (Z.to_nat (n + 1)) with (S (Z.to_nat n)) by lia.
  cbn [replicate]. rewrite drop_0. simpl.
  rewrite drop_replicate, Nat.sub_diag. cbn [replicate].
  rewrite app_nil_r, take_idemp. reflexivity.
Qed.

(** ** Traces of the device layer *)

Lemma base_events_app (t1 t2 : list call) :
  base_events (t1 ++ t2) = base_events t1 ++ base_events t2.
Proof.
  induction t1 as [|c t1 IH]; [reflexivity|].
  destruct c; simpl; rewrite ?IH; reflexivity.
Qed.

Lemma base_events_Base (l : list event) : base_events (map Base l) = l.
Proof. induction l as [|e l IH]; simpl; [|rewrite IH]; reflexivity. Qed.

Lemma holdings_from_app (held : list holding) (t1 t2 : list call) :
  holdings_from held (t1 ++ t2) = holdings_from (holdings_from held t1) t2.
Proof.
  revert held. induction t1 as [|c t1 IH]; intros held; simpl;
    [reflexivity | apply IH].
Qed.

Lemma holdings_from_Base (held : list holding) (l : list event) :
  holdings_from held (map Base l) = held.
Proof. induction l as [|e l IH]; simpl; [reflexivity | exact IH]. Qed.

Lemma drop_first_head (h : holding) (l : list holding) :
  drop_first h (h :: l) = l.
Proof. simpl. rewrite decide_True by reflexivity. reflexivity. Qed.

Lemma drop_first_skip (h x : holding) (l : list holding) :
  x <> h -> drop_first h (x :: l) = x :: drop_first h l.
Proof. intros Hx. simpl. rewrite decide_False by exact Hx. reflexivity. Qed.

(** A function of [bo.c] run from the device layer. *)
Lemma lift_run {A} (m : io A) (t : list call) (r : outcome A)
    (calls : list event) :
  m (base_events t) = (r, base_events t ++ calls) ->
  lift m t = (r, t ++ map Base calls).
Proof.
  intros Hm. unfold lift. rewrite Hm.
  rewrite drop_app_length. reflexivity.
Qed.

Lemma probe_calls_app {C : host_consts} (a b : list (Z * Z)) (i : Z) :
  probe_calls i (a ++ b)
  = probe_calls i a ++ probe_calls (i + Z.of_nat (length a)) b.
Proof.
  revert i. induction a as [|[r e] a IH]; intros i.
  - simpl. rewrite Z.add_0_r. reflexivity.
  - cbn [app probe_calls length]. rewrite IH.
    replace (i + 1 + Z.of_nat (length a)) with (i + Z.of_nat (S (length a)))
      by lia.
    reflexivity.
Qed.

Lemma probe_calls_failed {C : host_consts} (fails : list (Z * Z)) (i : Z)
    (held : list holding) :
  Forall (fun a => fst a < 0) fails ->
  holdings_from held (probe_calls i fails) = held /\
  base_events (probe_calls i fails) = [].
Proof.
  intros Hf. revert i. induction Hf as [|[r e] fails Hr _ IH]; intros i.
  - split; reflexivity.
  - cbn [probe_calls holdings_from taken given_back base_events].
    cbn [fst] in Hr.
    destruct (Z.leb_spec 0 r); [lia|]. apply IH.
Qed.

Ltac run_unfold :=
  cbv beta iota zeta delta
    [mbind mret run_mbind run_mret run_bind run_ret run_assert run_pure
     open close amdgpu_device_initialize amdgpu_query_gpu_info
     amdgpu_device_deinitialize amdgpu_cs_ctx_create amdgpu_cs_ctx_free
     malloc free memcpy amdgpu_bo_list_create amdgpu_bo_list_destroy
     amdgpu_cs_submit amdgpu_cs_query_fence_status].

(** One step of a run of the device layer. *)
Ltac run_step :=
  match goal with
  | |- context [h_open ?H ?t ?p ?f] =>
      destruct (h_open H t p f) as [? ?] eqn:?
  | |- context [h_amdgpu_device_initialize ?H ?t ?f] =>
      destruct (h_amdgpu_device_initialize H t f) as [[[? ?] ?] ?] eqn:?
  | |- context [h_amdgpu_query_gpu_info ?H ?t ?d] =>
      destruct (h_amdgpu_query_gpu_info H t d) as [? ?] eqn:?
  | |- context [h_amdgpu_cs_ctx_create ?H ?t ?d] =>
      destruct (h_amdgpu_cs_ctx_create H t d) as [? ?] eqn:?
  | |- context [h_amdgpu_bo_list_create ?H ?t ?d ?n ?l] =>
      destruct (h_amdgpu_bo_list_create H t d n l) as [? ?] eqn:?
  | |- context [h_amdgpu_cs_submit ?H ?t ?c ?f ?r ?n] =>
      destruct (h_amdgpu_cs_submit H t c f r n) as [? ?] eqn:?
  | |- context [h_amdgpu_cs_query_fence_status ?H ?t ?f ?o ?g] =>
      destruct (h_amdgpu_cs_query_fence_status H t f o g) as [? ?] eqn:?
  | |- context [?r =? 0] => destruct (Z.eqb_spec r 0)
  | |- context [?r <? 0] => destruct (Z.ltb_spec r 0)
  | |- context [0 <=? ?r] => destruct (Z.leb_spec 0 r)
  end.

(** Evaluate the bookkeeping of the device layer on a known trace. *)
Ltac held_simpl :=
  repeat first
    [ progress cbn [holdings_from taken given_back app base_events]
    | rewrite Z.eqb_refl
    | rewrite drop_first_head
    | rewrite drop_first_skip by discriminate
    | rewrite holdings_from_app
    | rewrite holdings_from_Base
    | match goal with
      | H : ?r <> 0 |- context [?r =? 0] => rewrite (proj2 (Z.eqb_neq r 0) H)
      | H : ?r < 0 |- context [0 <=? ?r] => rewrite (proj2 (Z.leb_gt 0 r) H)
      | H : 0 <= ?r |- context [0 <=? ?r] => rewrite (proj2 (Z.leb_le 0 r) H)
      end ].

Section DeviceProofs.
Context {U : drm_uapi} {C : host_consts}.
Variable H : host.

(** The loop over the debugfs directories: they are tried in order, one
    [open] each, until a descriptor comes back or [n] have failed. *)
Lemma open_regs2_spec (n : nat) (i fd0 : Z) (t : list call) :
  fd0 < 0 ->
  exists fd fails,
    Forall (fun a => fst a < 0) fails /\
    ((fd < 0 /\ length fails = n /\
      open_regs2 H n i fd0 t = (Done fd, t ++ probe_calls i fails)) \/
     (0 <= fd /\ (length fails < n)%nat /\
      exists e, open_regs2 H n i fd0 t
                = (Done fd, t ++ probe_calls i (fails ++ [(fd, e)])))).
Proof.
  revert i fd0 t. induction n as [|n IH]; intros i fd0 t Hfd0.
  - exists fd0, []. split; [constructor|]. left.
    split; [exact Hfd0|]. split; [reflexivity|].
    simpl. rewrite app_nil_r. reflexivity.
  - cbn [open_regs2]. run_unfold.
    destruct (h_open H t (regs2_path i) O_RDWR) as [r e] eqn:Hopen.
    destruct (Z.leb_spec 0 r) as [Hr|Hr].
    + exists r, []. split; [constructor|]. right.
      split; [exact Hr|]. split; [simpl; lia|]. exists e. reflexivity.
    + destruct (IH (i + 1) r (t ++ [Call_open (regs2_path i) O_RDWR r e]) Hr)
        as (fd & fails & Hf & Hcase).
      exists fd, ((r, e) :: fails). split; [constructor; [exact Hr|exact Hf]|].
      destruct Hcase as [(Hneg & Hlen & Hrun)|(Hpos & Hlen & e' & Hrun)].
      * left. split; [exact Hneg|]. split; [simpl; lia|].
        rewrite Hrun, <- app_assoc. reflexivity.
      * right. split; [exact Hpos|]. split; [simpl; lia|]. exists e'.
        rewrite Hrun, <- app_assoc. reflexivity.
Qed.

(** What [amdgpu_device_init] leaves held: nothing and an untouched
    structure, or the four handles of the structure it fills. *)
Lemma amdgpu_device_init_effect (device_path : option string)
    (dev : amdgpu_t) (t : list call) :
  exists ret dev' calls,
    amdgpu_device_init H device_path dev t = (Done (ret, dev'), t ++ calls) /\
    base_events calls = [] /\
    ((dev' = dev /\ (forall held, holdings_from held calls = held) /\
      (ret = 0 -> exists p f r, r < 0 /\ h_open H t p f = (r, 0))) \/
     (ret = 0 /\ 0 <= drm_fd dev' /\
      init_calls (match device_path with
                  | Some p => p
                  | None => "/dev/dri/card0"
                  end) dev' calls /\
      (well_behaved H ->
       dev_handle dev' <> NULL /\ ctx_handle dev' <> NULL) /\
      forall held,
        holdings_from held calls
        = (if 0 <=? regs2_fd dev' then [Held_fd (regs2_fd dev')] else []) ++
          [Held_context (ctx_handle dev'); Held_device (dev_handle dev');
           Held_fd (drm_fd dev')] ++ held)).
Proof.
  unfold amdgpu_device_init. run_unfold.
  destruct (h_open H t _ O_RDWR) as [fd e] eqn:Hopen.
  destruct (Z.ltb_spec fd 0) as [Hfd|Hfd].
  { eexists _, _, [_]. split; [reflexivity|]. split; [reflexivity|]. left.
    split; [reflexivity|]. split.
    - intros held. held_simpl. reflexivity.
    - intros He. eexists _, _, fd. split; [exact Hfd|].
      rewrite Hopen. f_equal. lia. }
  destruct (h_amdgpu_device_initialize H _ fd) as [[[r1 major] minor] h] eqn:Hi.
  destruct (Z.eqb_spec r1 0) as [Hr1|Hr1]; cbv beta iota zeta delta [negb].
  2:{ rewrite <- !app_assoc. eexists _, _, _. split; [reflexivity|].
      split; [reflexivity|]. left. split; [reflexivity|]. split.
      - intros held. cbn [app]. held_simpl. reflexivity.
      - intros He. contradiction. }
  destruct (h_amdgpu_query_gpu_info H _ h) as [r2 info] eqn:Hq.
  destruct (Z.eqb_spec r2 0) as [Hr2|Hr2]; cbv beta iota zeta delta [negb].
  2:{ rewrite <- !app_assoc. eexists _, _, _. split; [reflexivity|].
      split; [reflexivity|]. left. split; [reflexivity|]. split.
      - intros held. subst r1. cbn [app]. held_simpl. reflexivity.
      - intros He. contradiction. }
  destruct (h_amdgpu_cs_ctx_create H _ h) as [r3 ctx] eqn:Hc.
  destruct (Z.eqb_spec r3 0) as [Hr3|Hr3]; cbv beta iota zeta delta [negb].
  2:{ rewrite <- !app_assoc. eexists _, _, _. split; [reflexivity|].
      split; [reflexivity|]. left. split; [reflexivity|]. split.
      - intros held. subst r1. cbn [app]. held_simpl. reflexivity.
      - intros He. contradiction. }
  subst r1 r2 r3.
  match goal with
  | |- context [open_regs2 H 8 0 (-1) ?t1] =>
      destruct (open_regs2_spec 8 0 (-1) t1 ltac:(lia))
        as (rfd & fails & Hfails & Hcase)
  end.
  destruct Hcase as [(Hneg & Hlen & Hrun)|(Hpos & Hlen & e' & Hrun)];
    rewrite Hrun; rewrite <- !app_assoc; cbn [app].
  - eexists _, _, _. split; [reflexivity|].
    split; [cbn [base_events];
            apply (proj2 (probe_calls_failed fails 0 [] Hfails))|].
    right. cbn [drm_fd regs2_fd ctx_handle dev_handle].
    split; [reflexivity|]. split; [exact Hfd|].
    split.
    { exists e, major, minor, info, fails, (probe_calls 0 fails).
      cbn [drm_fd regs2_fd ctx_handle dev_handle device_id chip_rev
           chip_external_rev gc_regs_base_addr].
      repeat (split; [reflexivity|]). split; [exact Hfails|].
      left. split; [exact Hneg|]. split; [exact Hlen|reflexivity]. }
    split.
    { intros (_ & _ & Hnn_dev & Hnn_ctx & _). split.
      - match type of Hi with
        | h_amdgpu_device_initialize _ ?t1 _ = _ =>
            pose proof (Hnn_dev t1 fd) as N
        end.
        rewrite Hi in N. exact (N eq_refl).
      - match type of Hc with
        | h_amdgpu_cs_ctx_create _ ?t1 _ = _ =>
            pose proof (Hnn_ctx t1 h) as N
        end.
        rewrite Hc in N. exact (N eq_refl). }
    intros held. held_simpl.
    rewrite (proj1 (probe_calls_failed fails 0 _ Hfails)). reflexivity.
  - eexists _, _, _. split; [reflexivity|].
    rewrite probe_calls_app.
    split; [cbn [base_events]; rewrite base_events_app;
            rewrite (proj2 (probe_calls_failed fails 0 [] Hfails));
            reflexivity|].
    right. cbn [drm_fd regs2_fd ctx_handle dev_handle].
    split; [reflexivity|]. split; [exact Hfd|].
    split.
    { exists e, major, minor, info, fails,
        (probe_calls 0 (fails ++ [(rfd, e')])).
      cbn [drm_fd regs2_fd ctx_handle dev_handle device_id chip_rev
           chip_external_rev gc_regs_base_addr].
      split; [rewrite probe_calls_app; reflexivity|].
      repeat (split; [reflexivity|]). split; [exact Hfails|].
      right. split; [exact Hpos|]. split; [exact Hlen|].
      exists e'. reflexivity. }
    split.
    { intros (_ & _ & Hnn_dev & Hnn_ctx & _). split.
      - match type of Hi with
        | h_amdgpu_device_initialize _ ?t1 _ = _ =>
            pose proof (Hnn_dev t1 fd) as N
        end.
        rewrite Hi in N. exact (N eq_refl).
      - match type of Hc with
        | h_amdgpu_cs_ctx_create _ ?t1 _ = _ =>
            pose proof (Hnn_ctx t1 h) as N
        end.
        rewrite Hc in N. exact (N eq_refl). }
    intros held. held_simpl.
    rewrite (proj1 (probe_calls_failed fails 0 _ Hfails)).
    cbn [probe_calls]. held_simpl. reflexivity.
Qed.

(** [amdgpu_device_cleanup] gives back what the structure holds and
    leaves no handle in it. *)
Lemma amdgpu_device_cleanup_effect (dev : amdgpu_t) (t : list call) :
  exists dev' calls,
    amdgpu_device_cleanup dev t = (Done dev', t ++ calls) /\
    base_events calls = [] /\
    ctx_handle dev' = NULL /\ dev_handle dev' = NULL /\
    regs2_fd dev' < 0 /\ drm_fd dev' < 0 /\
    forall held, holdings_from (device_holdings dev ++ held) calls = held.
Proof.
  unfold amdgpu_device_cleanup, device_holdings, NULL. run_unfold.
  destruct (Z.eqb_spec (ctx_handle dev) 0) as [Hc|Hc];
  destruct (Z.eqb_spec (dev_handle dev) 0) as [Hd|Hd];
  destruct (Z.leb_spec 0 (regs2_fd dev)) as [Hr|Hr];
  destruct (Z.leb_spec 0 (drm_fd dev)) as [Hf|Hf];
  cbn [ctx_handle dev_handle regs2_fd drm_fd negb];
  repeat first
    [ progress cbn [ctx_handle dev_handle regs2_fd drm_fd negb]
    | rewrite Hc | rewrite Hd | rewrite Z.eqb_refl
    | match goal with
      | N : ?r <> 0 |- context [?r =? 0] => rewrite (proj2 (Z.eqb_neq r 0) N)
      | N : ?r < 0 |- context [0 <=? ?r] => rewrite (proj2 (Z.leb_gt 0 r) N)
      | N : 0 <= ?r |- context [0 <=? ?r] => rewrite (proj2 (Z.leb_le 0 r) N)
      end ];
  rewrite <- ?app_assoc; cbn [app].
  all: first [eexists _, _; split; [reflexivity|]
             |exists dev, []; split; [rewrite app_nil_r; reflexivity|]].
  all: cbn [ctx_handle dev_handle regs2_fd drm_fd].
  all: split; [reflexivity|].
  all: repeat (split; [first [reflexivity | assumption | lia]|]).
  all: intros held; held_simpl; reflexivity.
Qed.

(** Nothing is done to a structure without handles. *)
Lemma amdgpu_device_cleanup_idle (dev : amdgpu_t) (t : list call) :
  ctx_handle dev = NULL -> dev_handle dev = NULL ->
  regs2_fd dev < 0 -> drm_fd dev < 0 ->
  amdgpu_device_cleanup dev t = (Done dev, t).
Proof.
  intros Hc Hd Hr Hf. unfold amdgpu_device_cleanup. run_unfold.
  unfold NULL in *.
  repeat first
    [ progress cbn [ctx_handle dev_handle regs2_fd drm_fd negb]
    | rewrite Hc | rewrite Hd | rewrite Z.eqb_refl
    | rewrite (proj2 (Z.leb_gt 0 _) Hr)
    | rewrite (proj2 (Z.leb_gt 0 _) Hf) ].
  reflexivity.
Qed.

(** [bo_upload] on a mapped region that is large enough. *)
Lemma bo_upload_run (bo : amdgpu_bo_t) (data : list Z) (n : Z)
    (t : list call) :
  host_addr bo <> NULL -> n <= size bo ->
  bo_upload bo data n t = (Done tt, t ++ [Call_memcpy (host_addr bo) data n]).
Proof.
  intros Hh Hn. unfold bo_upload, NULL in *. run_unfold. unfold HDB_ASSERT.
  rewrite (proj2 (Z.eqb_neq _ 0) Hh), (proj2 (Z.leb_le _ _) Hn).
  reflexivity.
Qed.

(** The argument loop ends [main] with 0 or 1 only. *)
Lemma parse_args_exit_code (n : nat) :
  forall (args : list string) (device_path : option string)
         (test_init : bool) (code : Z),
    (length args <= n)%nat ->
    parse_args args device_path test_init = Cli_exit code ->
    code = 0 \/ code = 1.
Proof.
  induction n as [|n IH]; intros args d ti code Hlen.
  - destruct args; [discriminate | simpl in Hlen; lia].
  - destruct args as [|a rest]; [discriminate|].
    simpl in Hlen. cbn [parse_args].
    destruct (String.eqb a "--device"), rest as [|p rest'].
    all: try (apply IH; simpl in *; lia).
    all: destruct (String.eqb a "--test-init");
         [apply IH; simpl in *; lia|].
    all: destruct (String.eqb a "--help"); intros [= <-]; tauto.
Qed.

(** What an initialised structure holds, when no handle is null. *)
Lemma device_holdings_full (dev : amdgpu_t) :
  0 <= drm_fd dev -> dev_handle dev <> NULL -> ctx_handle dev <> NULL ->
  device_holdings dev
  = (if 0 <=? regs2_fd dev then [Held_fd (regs2_fd dev)] else []) ++
    [Held_context (ctx_handle dev); Held_device (dev_handle dev);
     Held_fd (drm_fd dev)].
Proof.
  intros Hf Hd Hc. unfold device_holdings, NULL in *.
  rewrite (proj2 (Z.eqb_neq _ 0) Hd), (proj2 (Z.eqb_neq _ 0) Hc),
          (proj2 (Z.leb_le 0 _) Hf).
  reflexivity.
Qed.

Hypothesis Hops : AMDGPU_VA_OP_MAP <> AMDGPU_VA_OP_UNMAP.
Hypothesis HH : well_behaved H.

Lemma main_effect (argv : list string) (t : list call) :
  AMDGPU_GEM_CREATE_CPU_ACCESS_REQUIRED <> 0 ->
  ~ special_domain AMDGPU_GEM_DOMAIN_GTT ->
  exists code calls,
    main H argv t = (Done code, t ++ calls) /\
    (code = 0 \/ code = 1) /\
    (forall c, parse_args (tail argv) None false = Cli_exit c ->
               code = c /\ calls = []) /\
    (forall held, holdings_from held calls = held) /\
    (forall held, outstanding_from held (base_events calls) = held).
Proof.
  intros Hreq Hgtt.
  pose proof HH as (HK & Herrno & _).
  unfold main.
  destruct (parse_args (tail argv) None false) as [code|path ti] eqn:Hparse.
  { exists code, []. rewrite app_nil_r. split; [reflexivity|].
    split; [exact (parse_args_exit_code _ _ _ _ _ (le_n _) Hparse)|].
    split; [intros c [= <-]; split; reflexivity|].
    split; intros held; reflexivity. }
  destruct (amdgpu_device_init_effect path dev_zero t)
    as (ret & dev & icalls & Hinit & Hbase & Hcase).
  run_unfold. rewrite Hinit. cbv beta iota.
  destruct Hcase
    as [(Hdev & Hheld & Hzero)|(Hret & Hfd & Hcalls & Hnn & Hheld)].
  { destruct (Z.eqb_spec ret 0) as [Hr|Hr]; cbv beta iota zeta delta [negb].
    - exfalso. destruct (Hzero Hr) as (p & f & r & Hneg & Hopen).
      apply (Herrno t p f); rewrite Hopen; [exact Hneg | reflexivity].
    - exists 1, icalls. split; [reflexivity|]. split; [tauto|].
      split; [intros c [=]|]. split; [exact Hheld|].
      intros held. rewrite Hbase. reflexivity. }
  subst ret. change (0 =? 0) with true; cbv beta iota zeta delta [negb].
  destruct (Hnn HH) as (Hd & Hc).
  assert (Hdh : forall held,
             holdings_from held icalls = device_holdings dev ++ held).
  { intros held. rewrite Hheld, (device_holdings_full dev Hfd Hd Hc).
    rewrite <- app_assoc. reflexivity. }
  clear Hheld Hcalls Hnn.
  destruct ti.
  { destruct (amdgpu_device_cleanup_effect dev (t ++ icalls))
      as (dev' & ccalls & Hclean & Hcb & _ & _ & _ & _ & Hch).
    rewrite Hclean. rewrite <- app_assoc.
    eexists _, _. split; [reflexivity|]. split; [tauto|].
    split; [intros c [=]|]. split.
    - intros held. rewrite holdings_from_app, Hdh. apply Hch.
    - intros held. rewrite base_events_app, Hbase, Hcb. reflexivity. }
  destruct (bo_alloc_effect (h_kernel H) Hops HK dev 4096
              AMDGPU_GEM_DOMAIN_GTT false bo_zero (base_events (t ++ icalls)))
    as (ret & bo & acalls & Halloc & Hacase).
  rewrite (lift_run _ _ _ _ Halloc). cbv beta iota.
  destruct Hacase
    as [(Hret & _ & Hah)|(Hret & Hb & Hv & Hah & Hfields)].
  { rewrite (proj2 (Z.eqb_neq _ 0) Hret). cbv beta iota zeta delta [negb].
    destruct (amdgpu_device_cleanup_effect dev
                ((t ++ icalls) ++ map Base acalls))
      as (dev' & ccalls & Hclean & Hcb & _ & _ & _ & _ & Hch).
    rewrite Hclean. rewrite <- !app_assoc.
    eexists _, _. split; [reflexivity|]. split; [tauto|].
    split; [intros c [=]|]. split.
    - intros held. rewrite !holdings_from_app, Hdh, holdings_from_Base.
      apply Hch.
    - intros held.
      rewrite !base_events_app, Hbase, Hcb, base_events_Base, app_nil_r.
      apply Hah. }
  subst ret. change (0 =? 0) with true; cbv beta iota zeta delta [negb].
  destruct (Hfields Hgtt) as (Hsize & Hhost). specialize (Hhost Hreq).
  rewrite (bo_upload_run bo _ 16) by
    (try exact Hhost; rewrite Hsize; vm_compute; discriminate).
  match goal with
  | |- context [block_read ?b 16] =>
      change (block_read b 16) with (@Done unit tt)
  end.
  cbv beta iota.
  match goal with
  | |- context [lift (bo_free ?K ?d ?b) ?t1] =>
      destruct (bo_free_effect K Hops d b (base_events t1) Hb Hv)
        as (bo2 & fcalls & Hfree & _ & _ & _ & Hfh);
      rewrite (lift_run _ _ _ _ Hfree)
  end.
  cbv beta iota.
  match goal with
  | |- context [amdgpu_device_cleanup dev ?t1] =>
      destruct (amdgpu_device_cleanup_effect dev t1)
        as (dev' & ccalls & Hclean & Hcb & _ & _ & _ & _ & Hch);
      rewrite Hclean
  end.
  rewrite <- !app_assoc.
  eexists _, _. split; [reflexivity|]. split; [tauto|].
  split; [intros c [=]|]. split.
  - intros held.
    rewrite !holdings_from_app, Hdh, !holdings_from_Base.
    cbn [holdings_from taken given_back]. apply Hch.
  - intros held.
    rewrite !base_events_app, Hbase, Hcb, !base_events_Base.
    cbn [base_events app]. rewrite app_nil_r.
    rewrite outstanding_from_app, Hah. apply Hfh.
Qed.

(** The bytes of a packet array that holds a dword are within its
    block. *)
Lemma block_read_within (packets : pkt3_packets_t) :
  fits 0 packets -> 1 <= count packets ->
  block_read (data packets) (pkt3_size packets) = Done tt.
Proof.
  intros (Hlen & Hcount & H60) Hone. unfold block_read, pkt3_size, wrap64.
  rewrite Z.mod_small by lia.
  destruct (Z.ltb_spec 0 (Z.of_nat (length (data packets)))); [|lia].
  destruct (Z.leb_spec (count packets * 4)
              (4 * Z.of_nat (length (data packets)))); [|lia].
  reflexivity.
Qed.

Lemma bo_upload_cases (bo : amdgpu_bo_t) (data : list Z) (n : Z)
    (t : list call) :
  bo_upload bo data n t
  = if host_addr bo =? NULL then (Abort not_mapped_msg, t)
    else if n <=? size bo
         then (Done tt, t ++ [Call_memcpy (host_addr bo) data n])
         else (Abort upload_size_msg, t).
Proof.
  unfold bo_upload. run_unfold. unfold HDB_ASSERT.
  destruct (host_addr bo =? NULL); [reflexivity|].
  destruct (n <=? size bo); reflexivity.
Qed.

Lemma dev_submit_effect (dev : amdgpu_t) (packets : pkt3_packets_t)
    (buffers : list Z) (n : Z) (submit : amdgpu_submit_t) (t : list call) :
  0 <= n < 2 ^ 32 ->
  exists r calls,
    dev_submit H dev packets buffers n submit t = (r, t ++ calls) /\
    (forall ret s', r = Done (ret, s') ->
       (s' = submit /\ (ret = 0 -> ENOMEM = 0) /\
        (forall held, holdings_from held calls = held) /\
        (forall held, outstanding_from held (base_events calls) = held)) \/
       (ret = 0 /\ submit_calls dev packets buffers n s' calls /\
        bo_handle (ib s') <> NULL /\ va_handle (ib s') <> NULL /\
        bo_list s' <> NULL /\
        (~ special_domain AMDGPU_GEM_DOMAIN_GTT ->
         size (ib s') = ALIGN_UP (pkt3_size packets) PAGE_SIZE) /\
        (forall held,
           holdings_from held calls = Held_bo_list (bo_list s') :: held) /\
        (forall held,
           outstanding_from held (base_events calls)
           = region_resources (ib s') ++ held))) /\
    (~ special_domain AMDGPU_GEM_DOMAIN_GTT ->
     AMDGPU_GEM_CREATE_CPU_ACCESS_REQUIRED <> 0 ->
     fits 0 packets -> 1 <= count packets ->
     n + 1 < 2 ^ 32 -> (Z.to_nat n <= length buffers)%nat ->
     exists ret s', r = Done (ret, s')).
Proof.
  intros Hn.
  pose proof HH as (HK & _).
  unfold dev_submit.
  destruct (bo_alloc_effect (h_kernel H) Hops HK dev (pkt3_size packets)
              AMDGPU_GEM_DOMAIN_GTT false bo_zero (base_events t))
    as (ret & bo & acalls & Halloc & Hacase).
  run_unfold. rewrite (lift_run _ _ _ _ Halloc). cbv beta iota.
  destruct Hacase
    as [(Hret & _ & Hah)|(Hret & Hb & Hv & Hah & Hfields)].
  { rewrite (proj2 (Z.eqb_neq _ 0) Hret). cbv beta iota zeta delta [negb].
    eexists _, _. split; [reflexivity|]. split.
    - intros ret' s' [= <- <-]. left. split; [reflexivity|].
      split; [intros E; contradiction|]. split; intros held.
      + apply holdings_from_Base.
      + rewrite base_events_Base. apply Hah.
    - intros _ _ _ _ _ _. eexists _, _. reflexivity. }
  subst ret. change (0 =? 0) with true; cbv beta iota zeta delta [negb].
  rewrite bo_upload_cases.
  destruct (Z.eqb_spec (host_addr bo) NULL) as [Hh|Hh].
  { eexists _, _. split; [reflexivity|]. split; [intros ? ? [=]|].
    intros Hgtt Hreq _ _ _ _. exfalso.
    exact (proj2 (Hfields Hgtt) Hreq Hh). }
  destruct (Z.leb_spec (pkt3_size packets) (size bo)) as [Hsz|Hsz].
  2:{ eexists _, _. split; [reflexivity|]. split; [intros ? ? [=]|].
      intros Hgtt _ (_ & Hcount & H60) _ _ _. exfalso.
      rewrite (proj1 (Hfields Hgtt)) in Hsz.
      assert (Hps : pkt3_size packets = count packets * 4).
      { unfold pkt3_size, wrap64. apply Z.mod_small. lia. }
      pose proof (ALIGN_UP_page (pkt3_size packets) ltac:(lia)) as (_ & Hle).
      lia. }
  cbv beta iota.
  destruct (block_read (data packets) (pkt3_size packets)) as [[]| |]
    eqn:Hread.
  2,3: rewrite <- !app_assoc;
       eexists _, _; (split; [reflexivity|]); (split; [intros ? ? [=]|]);
       intros _ _ Hfit Hone _ _; exfalso;
       rewrite (block_read_within packets Hfit Hone) in Hread;
       discriminate Hread.
  cbv beta iota.
  assert (Hdrop : forall (mid : list call) (fcalls : list event) held,
             base_events mid = [] ->
             (forall held,
                outstanding_from (region_resources bo ++ held) fcalls = held) ->
             outstanding_from held
               (base_events (map Base acalls ++ mid ++ map Base fcalls))
             = held).
  { intros mid fcalls held Hmid Hfh.
    rewrite !base_events_app, !base_events_Base, Hmid. cbn [app].
    rewrite outstanding_from_app, Hah. apply Hfh. }
  match goal with
  | |- context [h_malloc H ?t1 ?b =? NULL] => set (ptr := h_malloc H t1 b)
  end.
  destruct (Z.eqb_spec ptr NULL) as [Hp|Hp].
  { match goal with
    | |- context [lift (bo_free ?K ?d ?b) ?t1] =>
        destruct (bo_free_effect K Hops d b (base_events t1) Hb Hv)
          as (bo2 & fcalls & Hfree & _ & _ & _ & Hfh);
        rewrite (lift_run _ _ _ _ Hfree); cbv beta iota
    end.
    rewrite <- !app_assoc. cbn [app].
    eexists _, _. split; [reflexivity|]. split.
    - intros ret' s' [= <- <-]. left. split; [reflexivity|].
      split; [lia|]. split; intros held.
      + held_simpl. rewrite Hp. reflexivity.
      + apply (Hdrop [_; _]); [reflexivity | exact Hfh].
    - intros _ _ _ _ _ _. eexists _, _. reflexivity. }
  destruct (Z.eq_dec n (2 ^ 32 - 1)) as [Hmax|Hmax].
  { assert (Hnum : wrap32 (n + 1) = 0) by (subst n; reflexivity).
    rewrite Hnum.
    change (0 <? Z.of_nat (length (replicate (Z.to_nat 0) 0))) with false.
    cbv beta iota. rewrite <- !app_assoc. eexists _, _. split; [reflexivity|]. split; [intros ? ? [=]|].
    intros _ _ _ _ Hn1 _. lia. }
  assert (Hn1 : n + 1 < 2 ^ 32) by lia.
  assert (Hnum : wrap32 (n + 1) = n + 1)
    by (unfold wrap32; apply Z.mod_small; lia).
  assert (Hbytes : wrap64 (sizeof_amdgpu_bo_handle * wrap32 (n + 1))
                   = sizeof_amdgpu_bo_handle * (n + 1)).
  { rewrite Hnum. unfold wrap64, sizeof_amdgpu_bo_handle.
    apply Z.mod_small. lia. }
  rewrite Hnum in *. rewrite length_replicate.
  destruct (Z.ltb_spec 0 (Z.of_nat (Z.to_nat (n + 1)))) as [_|Hbad]; [|lia].
  destruct (fill_handles (Z.to_nat n) 0 buffers _) as [blk| |] eqn:Hfill.
  2,3: rewrite <- !app_assoc;
       eexists _, _; (split; [reflexivity|]); (split; [intros ? ? [=]|]);
       intros _ _ _ _ _ Hlen;
       match type of Hfill with
       | fill_handles _ _ _ ?block = _ =>
           destruct (fill_handles_runs buffers (Z.to_nat n) 0 block)
             as [blk Hblk];
           [lia | lia | rewrite length_insert, length_replicate; lia
           | change (Z.of_nat 0) with 0 in Hblk; congruence]
       end.
  destruct (handle_block buffers n _ blk ltac:(lia) Hn1 Hfill)
    as (Hlen & Htake).
  rewrite Htake.
  match goal with
  | |- context [h_amdgpu_bo_list_create H ?t1 ?d ?m ?l] =>
      destruct (h_amdgpu_bo_list_create H t1 d m l) as [r1 bl] eqn:Hl
  end.
  cbv beta iota.
  destruct (Z.eqb_spec r1 0) as [Hr1|Hr1].
  2:{ match goal with
      | |- context [lift (bo_free ?K ?d ?b) ?t1] =>
          destruct (bo_free_effect K Hops d b (base_events t1) Hb Hv)
            as (bo2 & fcalls & Hfree & _ & _ & _ & Hfh);
          rewrite (lift_run _ _ _ _ Hfree); cbv beta iota
      end.
      rewrite <- !app_assoc. cbn [app].
      eexists _, _. split; [reflexivity|]. split.
      - intros ret' s' [= <- <-]. left. split; [reflexivity|].
        split; [intros E; contradiction|]. split; intros held.
        + held_simpl. fold ptr.
          rewrite (proj2 (Z.eqb_neq ptr NULL) Hp). held_simpl. reflexivity.
        + apply (Hdrop [_; _; _; _]); [reflexivity | exact Hfh].
      - intros _ _ _ _ _ _. eexists _, _. reflexivity. }
  subst r1.
  match goal with
  | |- context [h_amdgpu_cs_submit H ?t1 ?c ?f ?r ?m] =>
      destruct (h_amdgpu_cs_submit H t1 c f r m) as [r2 seq] eqn:Hs
  end.
  cbv beta iota.
  destruct (Z.eqb_spec r2 0) as [Hr2|Hr2].
  2:{ match goal with
      | |- context [lift (bo_free ?K ?d ?b) ?t1] =>
          destruct (bo_free_effect K Hops d b (base_events t1) Hb Hv)
            as (bo2 & fcalls & Hfree & _ & _ & _ & Hfh);
          rewrite (lift_run _ _ _ _ Hfree); cbv beta iota
      end.
      rewrite <- !app_assoc. cbn [app].
      eexists _, _. split; [reflexivity|]. split.
      - intros ret' s' [= <- <-]. left. split; [reflexivity|].
        split; [intros E; contradiction|]. split; intros held.
        + held_simpl. fold ptr.
          rewrite (proj2 (Z.eqb_neq ptr NULL) Hp). held_simpl. reflexivity.
        + apply (Hdrop [_; _; _; _; _; _]); [reflexivity | exact Hfh].
      - intros _ _ _ _ _ _. eexists _, _. reflexivity. }
  subst r2.
  rewrite <- !app_assoc. cbn [app].
  eexists _, _. split; [reflexivity|]. split.
  - intros ret' s' [= <- <-]. right. split; [reflexivity|].
    cbn [ib bo_list fence f_fence f_context f_ip_type f_ip_instance f_ring].
    split.
    { exists acalls, ptr. fold ptr. rewrite Hbytes.
      split; [reflexivity|]. repeat (split; [assumption|]).
      repeat (split; [reflexivity|]). reflexivity. }
    split; [exact Hb|]. split; [exact Hv|].
    split.
    { destruct HH as (_ & _ & _ & _ & Hnn_list).
      match type of Hl with
      | h_amdgpu_bo_list_create _ ?t1 ?d ?m ?l = _ =>
          pose proof (Hnn_list t1 d m l) as N
      end.
      rewrite Hl in N. exact (N eq_refl). }
    split; [intros Hgtt; exact (proj1 (Hfields Hgtt))|].
    split; intros held.
    + held_simpl. fold ptr.
      rewrite (proj2 (Z.eqb_neq ptr NULL) Hp). held_simpl. reflexivity.
    + rewrite !base_events_app, !base_events_Base. cbn [base_events].
      rewrite app_nil_r. apply Hah.
  - intros _ _ _ _ _ _. eexists _, _. reflexivity.
Qed.

(** [dev_submit_cleanup] on a structure whose indirect buffer has its
    handles. *)
Lemma dev_submit_cleanup_effect (dev : amdgpu_t) (s : amdgpu_submit_t)
    (t : list call) :
  bo_handle (ib s) <> NULL -> va_handle (ib s) <> NULL ->
  exists s' calls,
    dev_submit_cleanup H dev s t = (Done s', t ++ calls) /\
    bo_list s' = NULL /\ bo_handle (ib s') = NULL /\
    va_handle (ib s') = NULL /\ host_addr (ib s') = NULL /\
    fence s' = fence s /\
    (forall held,
       holdings_from
         ((if bo_list s =? NULL then [] else [Held_bo_list (bo_list s)])
          ++ held) calls = held) /\
    (forall held,
       outstanding_from (region_resources (ib s) ++ held) (base_events calls)
       = held) /\
    dev_submit_cleanup H dev s' (t ++ calls) = (Done s', t ++ calls).
Proof.
  intros Hb Hv. pose proof HH as (HK & _).
  unfold dev_submit_cleanup. run_unfold.
  destruct (Z.eqb_spec (bo_list s) NULL) as [Hl|Hl];
    cbv beta iota zeta delta [negb]; cbn [ib bo_list fence].
  all: match goal with
       | |- context [lift (bo_free ?K ?d ?b) ?t1] =>
           destruct (bo_free_effect K Hops d b (base_events t1) Hb Hv)
             as (bo2 & fcalls & Hfree & Hb2 & Hv2 & Hh2 & Hfh);
           rewrite (lift_run _ _ _ _ Hfree); cbv beta iota
       end.
  all: rewrite <- ?app_assoc; cbn [app].
  all: eexists _, _; (split; [reflexivity|]).
  all: cbn [ib bo_list fence].
  all: split; [first [reflexivity | assumption]|].
  all: split; [exact Hb2|]. all: split; [exact Hv2|].
  all: split; [exact Hh2|]. all: split; [reflexivity|].
  all: split; [intros held; held_simpl; reflexivity|].
  all: split;
    [intros held; cbn [base_events app];
     rewrite ?base_events_app, ?base_events_Base;
     cbn [base_events app]; apply Hfh|].
  all: rewrite ?Hl; change (NULL =? NULL) with true.
  all: cbv beta iota zeta delta [negb].
  all: rewrite (lift_run _ _ (Done bo2) [])
         by (rewrite app_nil_r; apply bo_free_null; exact Hb2).
  all: cbv beta iota; cbn [map]; rewrite app_nil_r.
  all: rewrite Hl || idtac; reflexivity.
Qed.

End DeviceProofs.

(** The argument loop reads its arguments in groups: what it has made
    of a run of arguments is where it starts on the rest. *)
Lemma parse_args_app (n : nat) :
  forall (args more : list string) (d d' : option string) (ti ti' : bool),
    (length args <= n)%nat ->
    parse_args args d ti = Cli_run d' ti' ->
    parse_args (args ++ more) d ti = parse_args more d' ti' /\
    (ti = true -> ti' = true).
Proof.
  induction n as [|n IH]; intros args more d d' ti ti' Hlen.
  - destruct args; [|simpl in Hlen; lia].
    cbn [parse_args app]. intros [= <- <-]. split; [reflexivity | tauto].
  - destruct args as [|a rest].
    { cbn [parse_args app]. intros [= <- <-]. split; [reflexivity | tauto]. }
    simpl in Hlen. cbn [parse_args app].
    destruct (String.eqb_spec a "--device") as [->|Hdev].
    + destruct rest as [|p rest']; [discriminate|].
      cbn [app]. apply IH. simpl in *. lia.
    + destruct (String.eqb a "--test-init");
        [|destruct (String.eqb a "--help"); destruct rest; discriminate].
      intros Hrun.
      assert (Hrest : parse_args rest d true = Cli_run d' ti')
        by (destruct rest; exact Hrun).
      apply (IH _ more) in Hrest; [|lia].
      destruct Hrest as (Hrest & Hti).
      split; [|intros _; apply Hti; reflexivity].
      destruct (rest ++ more); exact Hrest.
Qed.

(* ===================================================================== *)
(** * The device layer: what the functions guarantee *)
(* ===================================================================== *)

Lemma holdings_app (t calls : list call) (l : list holding) :
  (forall held, holdings_from held calls = l ++ held) ->
  holdings (t ++ calls) = l ++ holdings t.
Proof.
  intros Hc. unfold holdings. rewrite holdings_from_app. apply Hc.
Qed.

Lemma outstanding_base_app {U : drm_uapi} (t calls : list call)
    (l : list resource) :
  (forall held, outstanding_from held (base_events calls) = l ++ held) ->
  outstanding (base_events (t ++ calls)) = l ++ outstanding (base_events t).
Proof.
  intros Hc. unfold outstanding.
  rewrite base_events_app, outstanding_from_app. apply Hc.
Qed.

Section DeviceTheorems.
Context {U : drm_uapi} {C : host_consts}.
Variable H : host.

(** A region from a successful [bo_alloc] of [s] bytes in a domain other
    than GWS, GDS and OA takes an upload of any [n <= s] bytes: the
    assertions of [bo_upload] hold and one [memcpy] to the CPU pointer
    is made.  A region in one of the three domains takes none:
    [bo_upload] aborts on its first assertion, whatever [n]. *)
Theorem bo_upload_after_alloc (dev : amdgpu_t) (s domain : Z)
    (uncached : bool) (bo bo1 : amdgpu_bo_t) (t t1 : list event)
    (data : list Z) (n : Z) (tr : list call) :
  AMDGPU_VA_OP_MAP <> AMDGPU_VA_OP_UNMAP ->
  hands_out_non_null (h_kernel H) ->
  bo_alloc (h_kernel H) dev s domain uncached bo t = (Done (0, bo1), t1) ->
  (~ special_domain domain -> AMDGPU_GEM_CREATE_CPU_ACCESS_REQUIRED <> 0 ->
   0 <= s <= 2 ^ 64 - 4096 -> n <= s ->
   bo_upload bo1 data n tr
   = (Done tt, tr ++ [Call_memcpy (host_addr bo1) data n])) /\
  (special_domain domain ->
   Z.land AMDGPU_GEM_CREATE_NO_CPU_ACCESS
          AMDGPU_GEM_CREATE_CPU_ACCESS_REQUIRED = 0 ->
   bo_upload bo1 data n tr = (Abort not_mapped_msg, tr)).
Proof.
  intros Hops HK Hrun.
  destruct (bo_alloc_effect (h_kernel H) Hops HK dev s domain uncached bo t)
    as (ret & bo' & calls & Hrun' & Hcase).
  rewrite Hrun in Hrun'. injection Hrun' as <- <- _.
  destruct Hcase as [(Hret & _)|(_ & _ & _ & _ & Hfields)];
    [contradiction|].
  split.
  - intros Hn Hreq Hs Hle. destruct (Hfields Hn) as (Hsize & Hhost).
    apply bo_upload_run; [exact (Hhost Hreq)|].
    rewrite Hsize. pose proof (ALIGN_UP_page s Hs) as (_ & Hge). lia.
  - intros Hsp Hflags.
    destruct (bo_alloc_success_fields (h_kernel H) dev s domain uncached
                bo bo1 t t1 Hrun) as (_ & Hspec).
    destruct (Hspec Hsp) as (_ & Hnull).
    rewrite bo_upload_cases, (Hnull Hflags). reflexivity.
Qed.

(** [amdgpu_device_init] that returns a non-zero value has left the
    structure as it was, has made no call of [bo.c], and holds nothing
    it did not hold before: every descriptor and handle obtained on the
    way has been given back. *)
Theorem amdgpu_device_init_failure_unwinds (device_path : option string)
    (dev dev' : amdgpu_t) (ret : Z) (t t' : list call) :
  amdgpu_device_init H device_path dev t = (Done (ret, dev'), t') ->
  ret <> 0 ->
  dev' = dev /\
  exists calls,
    t' = t ++ calls /\ base_events calls = [] /\
    holdings t' = holdings t.
Proof.
  intros Hrun Hret.
  destruct (amdgpu_device_init_effect H device_path dev t)
    as (ret0 & dev0 & calls & Hrun' & Hbase & Hcase).
  rewrite Hrun in Hrun'. injection Hrun' as <- <- ->.
  destruct Hcase as [(Hdev & Hheld & _)|(Hzero & _)]; [|contradiction].
  split; [exact Hdev|]. exists calls. split; [reflexivity|].
  split; [exact Hbase|]. apply (holdings_app t calls []). exact Hheld.
Qed.

(** [amdgpu_device_init] that returns 0 on a well-behaved host has made
    the calls of [init_calls], in that order: the device node, the three
    libdrm calls, then the debugfs directories 0, 1, ... until one opens
    or all eight have failed, which is no error.  The structure has a
    descriptor and two non-null handles, its register bases are sixteen
    zeros, and it holds what [device_holdings] lists. *)
Theorem amdgpu_device_init_success (device_path : option string)
    (dev dev' : amdgpu_t) (t t' : list call) :
  well_behaved H ->
  amdgpu_device_init H device_path dev t = (Done (0, dev'), t') ->
  0 <= drm_fd dev' /\ dev_handle dev' <> NULL /\ ctx_handle dev' <> NULL /\
  exists calls,
    t' = t ++ calls /\
    init_calls (match device_path with
                | Some p => p
                | None => "/dev/dri/card0"
                end) dev' calls /\
    holdings t' = device_holdings dev' ++ holdings t.
Proof.
  intros HH Hrun.
  destruct (amdgpu_device_init_effect H device_path dev t)
    as (ret0 & dev0 & calls & Hrun' & Hbase & Hcase).
  rewrite Hrun in Hrun'. injection Hrun' as <- <- ->.
  destruct Hcase as [(_ & _ & Hzero)|(_ & Hfd & Hcalls & Hnn & Hheld)].
  { exfalso. destruct (Hzero eq_refl) as (p & f & r & Hneg & Hopen).
    destruct HH as (_ & Herrno & _).
    apply (Herrno t p f); rewrite Hopen; [exact Hneg | reflexivity]. }
  destruct (Hnn HH) as (Hd & Hc).
  split; [exact Hfd|]. split; [exact Hd|]. split; [exact Hc|].
  exists calls. split; [reflexivity|]. split; [exact Hcalls|].
  apply holdings_app. intros held.
  rewrite Hheld, (device_holdings_full dev' Hfd Hd Hc), <- app_assoc.
  reflexivity.
Qed.

(** [amdgpu_device_cleanup] always returns; it gives back everything
    the structure holds, leaves both handles null and both descriptors
    negative, and a second call on the structure it leaves makes no
    call at all. *)
Theorem amdgpu_device_cleanup_releases (dev : amdgpu_t) (t : list call) :
  exists dev' calls,
    amdgpu_device_cleanup dev t = (Done dev', t ++ calls) /\
    ctx_handle dev' = NULL /\ dev_handle dev' = NULL /\
    regs2_fd dev' < 0 /\ drm_fd dev' < 0 /\
    (forall held, holdings_from (device_holdings dev ++ held) calls = held) /\
    amdgpu_device_cleanup dev' (t ++ calls) = (Done dev', t ++ calls).
Proof.
  destruct (amdgpu_device_cleanup_effect dev t)
    as (dev' & calls & Hrun & _ & Hc & Hd & Hr & Hf & Hheld).
  exists dev', calls. repeat (split; [assumption|]).
  apply amdgpu_device_cleanup_idle; assumption.
Qed.

(** [dev_submit] that returns a non-zero value has left the structure
    [submit] points to as it was and holds nothing it did not hold
    before: the indirect buffer, the handle block and the buffer list
    have been given back. *)
Theorem dev_submit_failure_unwinds (dev : amdgpu_t)
    (packets : pkt3_packets_t) (buffers : list Z) (n : Z)
    (submit s' : amdgpu_submit_t) (ret : Z) (t t' : list call) :
  AMDGPU_VA_OP_MAP <> AMDGPU_VA_OP_UNMAP -> well_behaved H ->
  0 <= n < 2 ^ 32 ->
  dev_submit H dev packets buffers n submit t = (Done (ret, s'), t') ->
  ret <> 0 ->
  s' = submit /\
  holdings t' = holdings t /\
  outstanding (base_events t') = outstanding (base_events t).
Proof.
  intros Hops HH Hn Hrun Hret.
  destruct (dev_submit_effect H Hops HH dev packets buffers n submit t Hn)
    as (r & calls & Hrun' & Hdone & _).
  rewrite Hrun in Hrun'. injection Hrun' as <- ->.
  destruct (Hdone ret s' eq_refl)
    as [(Hs & _ & Hheld & Hout)|(Hzero & _)]; [|contradiction].
  split; [exact Hs|]. split.
  - apply (holdings_app t calls []). exact Hheld.
  - apply (outstanding_base_app t calls []). exact Hout.
Qed.

(** [dev_submit] that returns 0 has made the calls of [submit_calls], in
    that order: the buffer list it creates counts [n + 1] handles, the
    indirect buffer first and the caller's [n] handles behind it; the
    one indirect buffer it submits has the address of the region the
    packets were copied to and [count] dwords.  What it holds more than
    before is that region and the buffer list; the handle block has
    been freed. *)
Theorem dev_submit_success (dev : amdgpu_t) (packets : pkt3_packets_t)
    (buffers : list Z) (n : Z) (submit s' : amdgpu_submit_t)
    (t t' : list call) :
  AMDGPU_VA_OP_MAP <> AMDGPU_VA_OP_UNMAP -> well_behaved H ->
  ENOMEM <> 0 -> 0 <= n < 2 ^ 32 ->
  dev_submit H dev packets buffers n submit t = (Done (0, s'), t') ->
  exists calls,
    t' = t ++ calls /\
    submit_calls dev packets buffers n s' calls /\
    holdings t' = Held_bo_list (bo_list s') :: holdings t /\
    outstanding (base_events t')
    = region_resources (ib s') ++ outstanding (base_events t).
Proof.
  intros Hops HH Henomem Hn Hrun.
  destruct (dev_submit_effect H Hops HH dev packets buffers n submit t Hn)
    as (r & calls & Hrun' & Hdone & _).
  rewrite Hrun in Hrun'. injection Hrun' as <- ->.
  destruct (Hdone 0 s' eq_refl)
    as [(_ & Hz & _)|(_ & Hcalls & _ & _ & _ & _ & Hheld & Hout)].
  { exfalso. apply Henomem, Hz. reflexivity. }
  exists calls. split; [reflexivity|]. split; [exact Hcalls|]. split.
  - apply (holdings_app t calls [_]). exact Hheld.
  - apply outstanding_base_app. exact Hout.
Qed.

(** [dev_submit] returns, with neither a failed assertion nor a read
    or a store outside a block, when the packet array is well formed
    and holds at least one dword (so that the bytes [bo_upload] copies
    are in its block), the caller's array has the [n] handles announced
    and [n + 1] fits 32 bits, on a system that maps GTT regions for the
    CPU. *)
Theorem dev_submit_returns (dev : amdgpu_t) (packets : pkt3_packets_t)
    (buffers : list Z) (n : Z) (submit : amdgpu_submit_t) (t : list call) :
  AMDGPU_VA_OP_MAP <> AMDGPU_VA_OP_UNMAP -> well_behaved H ->
  ~ special_domain AMDGPU_GEM_DOMAIN_GTT ->
  AMDGPU_GEM_CREATE_CPU_ACCESS_REQUIRED <> 0 ->
  fits 0 packets -> 1 <= count packets ->
  0 <= n -> n + 1 < 2 ^ 32 -> (Z.to_nat n <= length buffers)%nat ->
  exists ret s' calls,
    dev_submit H dev packets buffers n submit t
    = (Done (ret, s'), t ++ calls).
Proof.
  intros Hops HH Hgtt Hreq Hfit Hone Hn Hn1 Hlen.
  destruct (dev_submit_effect H Hops HH dev packets buffers n submit t
              ltac:(lia))
    as (r & calls & Hrun & _ & Hret).
  destruct (Hret Hgtt Hreq Hfit Hone Hn1 Hlen) as (ret & s' & ->).
  exists ret, s', calls. exact Hrun.
Qed.

(** After a [dev_submit] that returned 0, [dev_submit_cleanup] gives
    back all that the submission held: what is held is what was held
    before [dev_submit].  It leaves the buffer list and the handles of
    the indirect buffer null, and a second call on the structure it
    leaves makes no call at all. *)
Theorem dev_submit_cleanup_round_trip (dev : amdgpu_t)
    (packets : pkt3_packets_t) (buffers : list Z) (n : Z)
    (submit s1 : amdgpu_submit_t) (t t1 : list call) :
  AMDGPU_VA_OP_MAP <> AMDGPU_VA_OP_UNMAP -> well_behaved H ->
  ENOMEM <> 0 -> 0 <= n < 2 ^ 32 ->
  dev_submit H dev packets buffers n submit t = (Done (0, s1), t1) ->
  exists s2 calls,
    dev_submit_cleanup H dev s1 t1 = (Done s2, t1 ++ calls) /\
    bo_list s2 = NULL /\ bo_handle (ib s2) = NULL /\
    va_handle (ib s2) = NULL /\ host_addr (ib s2) = NULL /\
    holdings (t1 ++ calls) = holdings t /\
    outstanding (base_events (t1 ++ calls)) = outstanding (base_events t) /\
    dev_submit_cleanup H dev s2 (t1 ++ calls) = (Done s2, t1 ++ calls).
Proof.
  intros Hops HH Henomem Hn Hrun.
  destruct (dev_submit_effect H Hops HH dev packets buffers n submit t Hn)
    as (r & scalls & Hrun' & Hdone & _).
  rewrite Hrun in Hrun'. injection Hrun' as <- ->.
  destruct (Hdone 0 s1 eq_refl)
    as [(_ & Hz & _)|(_ & _ & Hb & Hv & Hl & _ & Hheld & Hout)].
  { exfalso. apply Henomem, Hz. reflexivity. }
  destruct (dev_submit_cleanup_effect H Hops HH dev s1 (t ++ scalls) Hb Hv)
    as (s2 & calls & Hclean & Hl2 & Hb2 & Hv2 & Hh2 & _ & Hch & Hco & Hagain).
  exists s2, calls. split; [exact Hclean|].
  repeat (split; [assumption|]).
  rewrite (proj2 (Z.eqb_neq _ _) Hl) in Hch.
  split; [|split; [|exact Hagain]].
  - unfold holdings. rewrite !holdings_from_app, Hheld. apply (Hch _).
  - unfold outstanding.
    rewrite !base_events_app, !outstanding_from_app, Hout. apply Hco.
Qed.

(** [main] on a well-behaved host that maps GTT regions for the CPU
    always returns, with 0 or 1 and never through a failed assertion;
    when the argument loop ends it, it has made no call; and whatever
    path it takes, it holds at the end what was held at the start:
    every descriptor, handle and region has been given back. *)
Theorem main_leaves_nothing (argv : list string) (t : list call) :
  AMDGPU_VA_OP_MAP <> AMDGPU_VA_OP_UNMAP -> well_behaved H ->
  AMDGPU_GEM_CREATE_CPU_ACCESS_REQUIRED <> 0 ->
  ~ special_domain AMDGPU_GEM_DOMAIN_GTT ->
  exists code calls,
    main H argv t = (Done code, t ++ calls) /\
    (code = 0 \/ code = 1) /\
    (forall c, parse_args (tail argv) None false = Cli_exit c ->
               code = c /\ calls = []) /\
    holdings (t ++ calls) = holdings t /\
    outstanding (base_events (t ++ calls)) = outstanding (base_events t).
Proof.
  intros Hops HH Hreq Hgtt.
  destruct (main_effect H Hops HH argv t Hreq Hgtt)
    as (code & calls & Hrun & Hcode & Hexit & Hheld & Hout).
  exists code, calls. split; [exact Hrun|]. split; [exact Hcode|].
  split; [exact Hexit|]. split.
  - apply (holdings_app t calls []). exact Hheld.
  - apply (outstanding_base_app t calls []). exact Hout.
Qed.

End DeviceTheorems.

(** The argument loop of [main]: once it has accepted a run of
    arguments, it goes on from there on whatever follows; a
    [--test-init] seen is never undone; a [--device] left without a
    path ends the program with 1; and the argument behind [--device] is
    taken as the path whatever it looks like, the last one given being
    the one kept. *)
Theorem parse_args_groups (args : list string) (d d' : option string)
    (ti ti' : bool) :
  parse_args args d ti = Cli_run d' ti' ->
  (forall more, parse_args (args ++ more) d ti = parse_args more d' ti') /\
  (ti = true -> ti' = true) /\
  parse_args (args ++ ["--device"]) d ti = Cli_exit 1 /\
  (forall p, parse_args (args ++ ["--device"; p]) d ti
             = Cli_run (Some p) ti').
Proof.
  intros Hrun.
  assert (Happ : forall more,
             parse_args (args ++ more) d ti = parse_args more d' ti').
  { intros more.
    apply (parse_args_app (length args) args more d d' ti ti' (le_n _) Hrun). }
  split; [exact Happ|]. split.
  - apply (parse_args_app (length args) args [] d d' ti ti' (le_n _) Hrun).
  - split; [rewrite Happ; reflexivity|].
    intros p. rewrite Happ. reflexivity.
Qed.

(* ===================================================================== *)
(** * Runs on the example systems *)
(* ===================================================================== *)

(** Settle the conditions on an example system by evaluation. *)
Ltac by_evaluation :=
  first
    [ reflexivity
    | solve [vm_compute; first [reflexivity | discriminate | lia]]
    | solve [simpl; lia]
    | solve [unfold special_domain; simpl; lia]
    | solve [repeat split; intros; simpl in *;
             repeat match goal with
                    | |- context [String.eqb ?a ?b] => destruct (String.eqb a b)
                    | H : context [String.eqb ?a ?b] |- _ =>
                        destruct (String.eqb a b)
                    end;
             simpl in *; first [lia | discriminate | congruence]] ].

(** A page in GTT, allocated and released on a system where every call
    succeeds. *)
Lemma bo_alloc_free_round_trip_witness :
  exists bo1 t1 bo2 calls,
    bo_alloc (U := linux_uapi) happy_kernel dev0 4096 0x2 false bo0 []
    = (Done (0, bo1), t1) /\
    outstanding (U := linux_uapi) t1
    = [R_cpu_mapping 0x1000; R_va_mapping 7 0x800000000; R_va_range 0x2000;
       R_bo 0x1000] /\
    bo_free (U := linux_uapi) happy_kernel dev0 bo1 t1
    = (Done bo2, t1 ++ calls) /\
    outstanding (U := linux_uapi) (t1 ++ calls) = [].
Proof.
  eexists _, _.
  destruct (bo_alloc_free_round_trip (U := linux_uapi) happy_kernel dev0
              4096 0x2 false bo0 _ [] _
              ltac:(by_evaluation) ltac:(by_evaluation)
              ltac:(vm_compute; reflexivity))
    as (Hout & bo2 & calls & Hfree & _ & Hback).
  exists bo2, calls. split; [vm_compute; reflexivity|].
  split; [exact Hout|]. split; [exact Hfree | exact Hback].
Defined.

(** The same page: it is mapped for the CPU and zeroed last; a region in
    GWS is not touched by the CPU at all. *)
Lemma bo_alloc_cpu_view_witness :
  (exists bo1 calls,
     bo_alloc (U := linux_uapi) happy_kernel dev0 4096 0x2 false bo0 []
     = (Done (0, bo1), calls) /\
     In (Ev_amdgpu_bo_cpu_map 0x1000 0 0x7F0000000000) calls /\
     last calls = Some (Ev_memset 0x7F0000000000 0 4096)) /\
  (exists bo1 calls,
     bo_alloc (U := linux_uapi) happy_kernel dev0 100 0x10 false bo0 []
     = (Done (0, bo1), calls) /\
     host_addr bo1 = NULL /\
     Forall (fun e => touches_cpu e = false) calls).
Proof.
  split.
  - destruct (bo_alloc_cpu_view (U := linux_uapi) happy_kernel dev0
                4096 0x2 false bo0 _ [] _ ltac:(vm_compute; reflexivity))
      as (calls & Ht & Hcpu & _).
    destruct Hcpu as (_ & Hin & Hlast); [by_evaluation | by_evaluation |].
    simpl in Ht. subst calls.
    eexists _, _. split; [vm_compute; reflexivity|].
    split; [exact Hin | exact Hlast].
  - destruct (bo_alloc_cpu_view (U := linux_uapi) happy_kernel dev0
                100 0x10 false bo0 _ [] _ ltac:(vm_compute; reflexivity))
      as (calls & Ht & _ & Hno).
    destruct Hno as (Hnull & Hall); [by_evaluation | by_evaluation |].
    simpl in Ht. subst calls.
    eexists _, _. split; [vm_compute; reflexivity|].
    split; [exact Hnull | exact Hall].
Defined.

(** The handler at 0x7F1200 on a system where every call succeeds. *)
Lemma trap_handler_done_means_written_witness :
  exists calls,
    dev_setup_trap_handler happy_kernel dev0 0x7F1200 0x123456789000 []
    = (Done tt, calls) /\
    length (reg_writes calls) = 32%nat /\
    nth_error (reg_writes calls) 31
    = Some {| rw_vmid := 8; rw_offset := 0xB80C; rw_value := 0x1234 |}.
Proof.
  eexists.
  destruct (trap_handler_done_means_written happy_kernel dev0 0x7F1200
              0x123456789000 [] _ ltac:(vm_compute; reflexivity))
    as (_ & _ & calls & Ht & Hw).
  simpl in Ht. subst calls.
  split; [vm_compute; reflexivity|].
  rewrite Hw. split; reflexivity.
Defined.

(** A handler address that is not aligned, and a device whose register
    file is not open. *)
Lemma trap_handler_refuses_without_calls_witness :
  (exists msg,
     dev_setup_trap_handler happy_kernel dev0 0x7F1201 0x123456789000 []
     = (Abort msg, [])) /\
  (exists msg,
     dev_setup_trap_handler happy_kernel
       {| drm_fd := 3; dev_handle := 0x100; ctx_handle := 0x200;
          regs2_fd := -1; gc_regs_base_addr := replicate 16 0;
          device_id := 0x744C; chip_rev := 0; chip_external_rev := 0 |}
       0x7F1200 0x123456789000 []
     = (Abort msg, [])).
Proof.
  split.
  - apply (trap_handler_refuses_without_calls happy_kernel dev0 0x7F1201
             0x123456789000 []).
    left. vm_compute. discriminate.
  - apply (trap_handler_refuses_without_calls happy_kernel).
    right. simpl. lia.
Defined.

(** The handler at 0x12_3456_7F00 with its scratch buffer at
    0x1234_5678_9000: the values written, and the addresses read back
    from them. *)
Lemma trap_handler_values_decode_witness :
  exists calls,
    dev_setup_trap_handler happy_kernel dev0 0x1234567F00 0x123456789000 []
    = (Done tt, calls) /\
    firstn 4 (map rw_value (reg_writes calls))
    = [0x1234567F; 0x80000000; 0x56789000; 0x1234] /\
    Z.lor (Z.shiftl 0x1234567F 8)
          (Z.shiftl (Z.land 0x80000000 0x7FFFFFFF) 40) = 0x1234567F00 /\
    Z.lor 0x56789000 (Z.shiftl 0x1234 32) = 0x123456789000.
Proof.
  eexists.
  destruct (trap_handler_values_decode happy_kernel dev0 0x1234567F00
              0x123456789000 [] _ ltac:(lia) ltac:(lia)
              ltac:(vm_compute; reflexivity))
    as (calls & lo & hi & tlo & thi & Ht & Hv & _ & Htba & _ & Htma).
  simpl in Ht. subst calls.
  split; [vm_compute; reflexivity|].
  assert (Hvals : [lo; hi; tlo; thi]
                  = [0x1234567F; 0x80000000; 0x56789000; 0x1234]).
  { apply (f_equal (firstn 4)) in Hv. symmetry. exact Hv. }
  injection Hvals as -> -> -> ->.
  split; [reflexivity|]. split; [exact Htba | exact Htma].
Defined.

(** A GTT page takes sixteen bytes; a GWS region takes none. *)
Lemma bo_upload_after_alloc_witness :
  (exists bo1 t1,
     bo_alloc (U := linux_uapi) happy_kernel dev0 4096 0x2 false bo0 []
     = (Done (0, bo1), t1) /\
     bo_upload bo1 [0xDEADBEEF; 0xCAFEBABE; 0x12345678; 0x87654321] 16 []
     = (Done tt,
        [Call_memcpy 0x7F0000000000
           [0xDEADBEEF; 0xCAFEBABE; 0x12345678; 0x87654321] 16])) /\
  (exists bo1 t1,
     bo_alloc (U := linux_uapi) happy_kernel dev0 100 0x10 false bo0 []
     = (Done (0, bo1), t1) /\
     bo_upload bo1 [0xDEADBEEF] 4 [] = (Abort not_mapped_msg, [])).
Proof.
  split.
  - eexists _, _. split; [vm_compute; reflexivity|].
    refine (proj1 (bo_upload_after_alloc (U := linux_uapi) happy_host dev0
                     4096 0x2 false bo0 _ [] _ _ 16 [] _ _ _) _ _ _ _);
      by_evaluation.
  - eexists _, _. split; [vm_compute; reflexivity|].
    refine (proj2 (bo_upload_after_alloc (U := linux_uapi) happy_host dev0
                     100 0x10 false bo0 _ [] _ _ 4 [] _ _ _) _ _);
      by_evaluation.
Defined.

#[local] Existing Instance linux_uapi.
#[local] Existing Instance linux_host_consts.

(** A host without a context to give: the device and the descriptor
    obtained before are given back, and -12 comes out. *)
Lemma amdgpu_device_init_failure_unwinds_witness :
  exists calls,
    amdgpu_device_init host_no_context None dev0 []
    = (Done (-12, dev0), calls) /\
    calls = [Call_open "/dev/dri/card0" 2 3 0;
             Call_amdgpu_device_initialize 3 0 3 57 0x100;
             Call_amdgpu_query_gpu_info 0x100 0
               {| gi_asic_id := 0x744C; gi_chip_rev := 1;
                  gi_chip_external_rev := 2; gi_family_id := 145 |};
             Call_amdgpu_cs_ctx_create 0x100 (-12) 0;
             Call_amdgpu_device_deinitialize 0x100;
             Call_close 3] /\
    holdings calls = [].
Proof.
  eexists.
  destruct (amdgpu_device_init_failure_unwinds host_no_context None dev0
              dev0 (-12) [] _ ltac:(vm_compute; reflexivity) ltac:(lia))
    as (_ & calls & Ht & _ & Hheld).
  split; [vm_compute; reflexivity|]. split; [reflexivity|]. exact Hheld.
Defined.

(** The host where every call succeeds and the register file is under
    the second directory: one failed attempt, then the descriptor. *)
Lemma amdgpu_device_init_success_witness :
  exists dev' calls,
    amdgpu_device_init happy_host None dev_zero [] = (Done (0, dev'), calls) /\
    regs2_fd dev' = 8 /\
    drop 4 calls = [Call_open "/sys/kernel/debug/dri/0/regs2" 2 (-1) 2;
                    Call_open "/sys/kernel/debug/dri/1/regs2" 2 8 0] /\
    holdings calls
    = [Held_fd 8; Held_context 0x200; Held_device 0x100; Held_fd 3].
Proof.
  eexists _, _.
  destruct (amdgpu_device_init_success happy_host None dev_zero _ [] _
              ltac:(by_evaluation) ltac:(vm_compute; reflexivity))
    as (_ & _ & _ & calls & Ht & _ & Hheld).
  split; [vm_compute; reflexivity|]. split; [reflexivity|].
  split; [reflexivity|]. exact Hheld.
Defined.

(** A host that refuses the submission with -22: the buffer list, the
    handle block and the indirect buffer are given back. *)
Lemma dev_submit_failure_unwinds_witness :
  exists calls,
    dev_submit host_no_submit dev0 acquire_packets [0x77; 0x88] 2
      submit_zero []
    = (Done (-22, submit_zero), calls) /\
    holdings calls = [] /\ outstanding (base_events calls) = [].
Proof.
  eexists.
  destruct (dev_submit_failure_unwinds (U := linux_uapi)
              (C := linux_host_consts) host_no_submit dev0 acquire_packets
              [0x77; 0x88] 2 submit_zero submit_zero (-22) [] _
              ltac:(by_evaluation) ltac:(by_evaluation) ltac:(lia)
              ltac:(vm_compute; reflexivity) ltac:(lia))
    as (_ & Hheld & Hout).
  split; [vm_compute; reflexivity|]. split; [exact Hheld | exact Hout].
Defined.

(** The acquire barrier submitted with two buffers of the caller's. *)
Lemma dev_submit_success_witness :
  exists s' calls,
    dev_submit happy_host dev0 acquire_packets [0x77; 0x88] 2 submit_zero []
    = (Done (0, s'), calls) /\
    In (Call_amdgpu_bo_list_create 0x100 3 [0x1000; 0x77; 0x88] 0 0x300)
       calls /\
    In (Call_memcpy 0x7F0000000000 (acquire_mem_words ++ [0]) 28) calls /\
    holdings calls = [Held_bo_list 0x300] /\
    f_fence (fence s') = 41.
Proof.
  eexists _, _.
  destruct (dev_submit_success (U := linux_uapi)
              (C := linux_host_consts) happy_host dev0 acquire_packets
              [0x77; 0x88] 2 submit_zero _ [] _
              ltac:(by_evaluation) ltac:(by_evaluation) ltac:(by_evaluation)
              ltac:(lia) ltac:(vm_compute; reflexivity))
    as (calls & Ht & _ & Hheld & _).
  split; [vm_compute; reflexivity|].
  split; [vm_compute; tauto|]. split; [vm_compute; tauto|].
  split; [exact Hheld | reflexivity].
Defined.

(** The same submission returns, whatever the host answers. *)
Lemma dev_submit_returns_witness :
  exists ret s' calls,
    dev_submit host_no_submit dev0 acquire_packets [0x77; 0x88] 2
      submit_zero []
    = (Done (ret, s'), [] ++ calls).
Proof.
  apply (dev_submit_returns (U := linux_uapi)
              (C := linux_host_consts) host_no_submit dev0 acquire_packets
           [0x77; 0x88] 2 submit_zero []);
    first [solve [unfold fits; simpl; lia] | by_evaluation].
Defined.

(** The same submission, cleaned up twice. *)
Lemma dev_submit_cleanup_round_trip_witness :
  exists s1 t1 s2 calls,
    dev_submit happy_host dev0 acquire_packets [0x77; 0x88] 2 submit_zero []
    = (Done (0, s1), t1) /\
    dev_submit_cleanup happy_host dev0 s1 t1 = (Done s2, t1 ++ calls) /\
    holdings (t1 ++ calls) = [] /\
    outstanding (base_events (t1 ++ calls)) = [] /\
    dev_submit_cleanup happy_host dev0 s2 (t1 ++ calls)
    = (Done s2, t1 ++ calls).
Proof.
  eexists _, _.
  destruct (dev_submit_cleanup_round_trip (U := linux_uapi)
              (C := linux_host_consts) happy_host dev0 acquire_packets
              [0x77; 0x88] 2 submit_zero _ [] _
              ltac:(by_evaluation) ltac:(by_evaluation) ltac:(by_evaluation)
              ltac:(lia) ltac:(vm_compute; reflexivity))
    as (s2 & calls & Hclean & _ & _ & _ & _ & Hheld & Hout & Hagain).
  exists s2, calls. split; [vm_compute; reflexivity|].
  split; [exact Hclean|]. split; [exact Hheld|].
  split; [exact Hout | exact Hagain].
Defined.

(** [hdb] without arguments, and with a [--device] that has no path. *)
Lemma main_leaves_nothing_witness :
  (exists calls,
     main happy_host ["hdb"] [] = (Done 0, calls) /\
     length calls = 21%nat /\
     holdings calls = [] /\ outstanding (base_events calls) = []) /\
  main happy_host ["hdb"; "--device"] [] = (Done 1, []).
Proof.
  split.
  - destruct (main_leaves_nothing (U := linux_uapi)
              (C := linux_host_consts) happy_host ["hdb"] [])
      as (code & calls & Hrun & _ & _ & Hheld & Hout);
      [by_evaluation | by_evaluation | by_evaluation | by_evaluation |].
    exists calls.
    assert (Hval : code = 0 /\ length calls = 21%nat).
    { revert Hrun. vm_compute. intros [= <- <-]. split; reflexivity. }
    destruct Hval as (-> & Hlen).
    split; [exact Hrun|]. split; [exact Hlen|].
    split; [exact Hheld | exact Hout].
  - destruct (main_leaves_nothing (U := linux_uapi)
              (C := linux_host_consts) happy_host ["hdb"; "--device"] [])
      as (code & calls & Hrun & _ & Hexit & _);
      [by_evaluation | by_evaluation | by_evaluation | by_evaluation |].
    destruct (Hexit 1 eq_refl) as (-> & ->). exact Hrun.
Defined.

(** [--test-init] followed by a [--device] whose path looks like an
    option. *)
Lemma parse_args_groups_witness :
  parse_args ["--test-init"; "--device"] None false = Cli_exit 1 /\
  parse_args ["--test-init"; "--device"; "--help"] None false
  = Cli_run (Some "--help") true.
Proof.
  destruct (parse_args_groups ["--test-init"] None None false true eq_refl)
    as (_ & _ & Hdangling & Hpath).
  split; [exact Hdangling | exact (Hpath "--help")].
Defined.
